(** * repo-ingestor: the selection pipeline, embedded and verified

    A shallow embedding of [repo_ingestor/utils.py], [repo_ingestor/config.py]
    and [repo_ingestor/core.py].

    - Python [str] is [string]; a character is a byte, so paths and patterns
      are read as ASCII text.
    - [Set[str]] is a list read through membership only; [Dict[str, _]] is an
      association list in insertion order.
    - The file system is POSIX ([os.sep] is the slash) and is given as a tree
      of entries; reading a file never fails.
    - Methods of [RepositoryIngestor] read and update [self]; an uncaught
      exception is [None].
    - The language handlers (among them [language_handlers/yaml.py], whose
      extractors are regular expressions), the comment stripper, the token
      estimator and the function analyzers are collaborators the pipeline
      calls; they are kept abstract and taken not to raise. *)

From Stdlib Require Import String Ascii List Bool Arith ZArith Lia Permutation.
Import ListNotations.
Open Scope list_scope.
Open Scope string_scope.
Set Warnings "-register-all".

(** ** Python built-ins on [str] used by the sources *)

Module Py.

Definition slash : ascii := "/"%char.
Definition backslash : ascii := "\"%char.

(** [s.replace('\\', '/')] *)
Fixpoint replace_backslash (s : string) : string :=
  match s with
  | EmptyString => EmptyString
  | String c t =>
      String (if Ascii.eqb c backslash then slash else c) (replace_backslash t)
  end.

(** [s.startswith(p)] *)
Definition startswith (s p : string) : bool := String.prefix p s.

(** [s.endswith(suf)]: some suffix of [s] is [suf]. *)
Fixpoint endswith (s suf : string) : bool :=
  String.eqb s suf
  || match s with
     | EmptyString => false
     | String _ t => endswith t suf
     end.

(** [s[n:]] *)
Fixpoint drop (n : nat) (s : string) : string :=
  match n, s with
  | O, _ => s
  | S _, EmptyString => EmptyString
  | S m, String _ t => drop m t
  end.

(** [s[:-n]] *)
Definition drop_last (n : nat) (s : string) : string :=
  substring 0 (String.length s - n) s.

(** [c in s] for a one-character [c] *)
Fixpoint contains_char (c : ascii) (s : string) : bool :=
  match s with
  | EmptyString => false
  | String d t => Ascii.eqb c d || contains_char c t
  end.

(** [s.split('/')]: never empty, [''.split('/') == ['']]. *)
Fixpoint split_slash (s : string) : list string :=
  match s with
  | EmptyString => [EmptyString]
  | String c t =>
      if Ascii.eqb c slash then EmptyString :: split_slash t
      else match split_slash t with
           | [] => [String c EmptyString]
           | w :: ws => String c w :: ws
           end
  end.

(** ['/'.join(parts)] *)
Definition join_slash (parts : list string) : string := String.concat "/" parts.

(** First occurrence of a non-empty [sep] in [s]: the text before it and
    the text after it. *)
Fixpoint cut (sep s : string) : option (string * string) :=
  if String.prefix sep s then Some (EmptyString, drop (String.length sep) s)
  else match s with
       | EmptyString => None
       | String c t =>
           match cut sep t with
           | Some (b, a) => Some (String c b, a)
           | None => None
           end
       end.

(** [sep in s] *)
Definition contains (sep s : string) : bool :=
  match cut sep s with Some _ => true | None => false end.

(** [s.split(sep)[1]], for [s] that contains [sep]. *)
Definition split_second (sep s : string) : string :=
  match cut sep s with
  | None => EmptyString
  | Some (_, a) =>
      match cut sep a with
      | None => a
      | Some (b, _) => b
      end
  end.

(** [s.lower()] on ASCII letters. *)
Definition lower_char (c : ascii) : ascii :=
  let n := nat_of_ascii c in
  if Nat.leb 65 n && Nat.leb n 90 then ascii_of_nat (n + 32) else c.

Fixpoint lower (s : string) : string :=
  match s with
  | EmptyString => EmptyString
  | String c t => String (lower_char c) (lower t)
  end.

(** [posixpath.join(a, b)] *)
Definition os_path_join (a b : string) : string :=
  if startswith b "/" then b
  else if String.eqb a "" || endswith a "/" then a ++ b
  else a ++ "/" ++ b.

(** [posixpath.basename(p)]: the text after the last slash. *)
Fixpoint basename (p : string) : string :=
  match p with
  | EmptyString => EmptyString
  | String c t =>
      if contains_char slash t then basename t
      else if Ascii.eqb c slash then t
      else p
  end.

(** [posixpath.splitext(p)[1]]: the extension starts at the last dot of the
    basename, unless that basename has nothing but dots before it. *)
Fixpoint last_dot_ext (s : string) : option string :=
  match s with
  | EmptyString => None
  | String c t =>
      match last_dot_ext t with
      | Some e => Some e
      | None => if Ascii.eqb c "."%char then Some s else None
      end
  end.

Fixpoint strip_dots (s : string) : string :=
  match s with
  | String c t => if Ascii.eqb c "."%char then strip_dots t else s
  | EmptyString => EmptyString
  end.

Definition splitext_ext (p : string) : string :=
  match last_dot_ext (strip_dots (basename p)) with
  | Some e => e
  | None => EmptyString
  end.

(** [d[k] = v] on a dict with string keys. *)
Fixpoint dict_set {V : Type} (k : string) (v : V) (d : list (string * V))
  : list (string * V) :=
  match d with
  | [] => [(k, v)]
  | (k', v') :: rest =>
      if String.eqb k k' then (k, v) :: rest else (k', v') :: dict_set k v rest
  end.

(** [d.get(k)] *)
Fixpoint dict_get {V : Type} (k : string) (d : list (string * V)) : option V :=
  match d with
  | [] => None
  | (k', v) :: rest => if String.eqb k k' then Some v else dict_get k rest
  end.

(** [d.update(e)] *)
Definition dict_update {V : Type} (d e : list (string * V)) : list (string * V) :=
  fold_left (fun acc kv => dict_set (fst kv) (snd kv) acc) e d.

Definition keys {V : Type} (d : list (string * V)) : list string := map fst d.

(** Entries written one after the other. *)
Definition set_all {V : Type} (entries d : list (string * V)) : list (string * V) :=
  fold_left (fun acc e => dict_set (fst e) (snd e) acc) entries d.

(** A path is forward-slash-normalized when it holds no backslash. *)
Definition forward_slash_normalized (P : string) : Prop := replace_backslash P = P.

(** [s[::-1]], to read a suffix test as a prefix test. *)
Fixpoint srev (s : string) : string :=
  match s with
  | EmptyString => EmptyString
  | String c t => srev t ++ String c EmptyString
  end.

End Py.

(** ** [fnmatch.fnmatch] (POSIX: [os.path.normcase] is the identity)

    The pattern is read as CPython's [fnmatch.translate] reads it: [*] is any
    run of characters (slashes included), [?] is one character, [[seq]] and
    [[!seq]] are character sets with ranges, an unclosed bracket is a
    literal, everything else is a literal.  The whole name must match. *)

Module Fnmatch.

Inductive set_item : Type :=
| One (c : ascii)
| Range (lo hi : ascii).

Inductive token : Type :=
| Star
| AnyChar
| CharSet (negated : bool) (items : list set_item)
| Lit (c : ascii).

Definition dash : ascii := "-"%char.
Definition bang : ascii := "!"%char.
Definition rbracket : ascii := "]"%char.
Definition lbracket : ascii := "["%char.

(** The members of a bracket expression, left to right: [a-b] is a range
    when a character follows the dash, otherwise the dash is a member. *)
Fixpoint set_items (body : list ascii) : list set_item :=
  match body with
  | [] => []
  | c :: rest =>
      match rest with
      | d :: hi :: rest' =>
          if Ascii.eqb d dash then Range c hi :: set_items rest'
          else One c :: set_items rest
      | _ => One c :: set_items rest
      end
  end.

(** Split at the first closing bracket. *)
Fixpoint until_rbracket (s : string) : option (list ascii * string) :=
  match s with
  | EmptyString => None
  | String c t =>
      if Ascii.eqb c rbracket then Some ([], t)
      else match until_rbracket t with
           | Some (body, rest) => Some (c :: body, rest)
           | None => None
           end
  end.

(** The text after an opening bracket: an optional [!], an optional
    leading [ ] ] that is a member, then everything up to the next [ ] ]. *)
Definition bracket (s : string) : option (token * string) :=
  let '(neg, s1) :=
    match s with
    | String c t => if Ascii.eqb c bang then (true, t) else (false, s)
    | EmptyString => (false, s)
    end in
  let '(first, s2) :=
    match s1 with
    | String c t => if Ascii.eqb c rbracket then ([rbracket], t) else ([], s1)
    | EmptyString => ([], s1)
    end in
  match until_rbracket s2 with
  | Some (body, rest) => Some (CharSet neg (set_items (first ++ body)%list), rest)
  | None => None
  end.

(** [translate] walks the pattern; the fuel is the pattern's length, one
    unit per token. *)
Fixpoint translate_fuel (fuel : nat) (pat : string) : list token :=
  match fuel, pat with
  | O, _ => []
  | _, EmptyString => []
  | S fuel', String c t =>
      if Ascii.eqb c "*"%char then Star :: translate_fuel fuel' t
      else if Ascii.eqb c "?"%char then AnyChar :: translate_fuel fuel' t
      else if Ascii.eqb c lbracket then
        match bracket t with
        | Some (tok, rest) => tok :: translate_fuel fuel' rest
        | None => Lit c :: translate_fuel fuel' t
        end
      else Lit c :: translate_fuel fuel' t
  end.

Definition translate (pat : string) : list token :=
  translate_fuel (String.length pat) pat.

Definition item_has (c : ascii) (i : set_item) : bool :=
  match i with
  | One d => Ascii.eqb c d
  | Range lo hi =>
      Nat.leb (nat_of_ascii lo) (nat_of_ascii c) && Nat.leb (nat_of_ascii c) (nat_of_ascii hi)
  end.

Definition token_accepts (t : token) (c : ascii) : bool :=
  match t with
  | Star | AnyChar => true
  | CharSet neg items => xorb neg (existsb (item_has c) items)
  | Lit d => Ascii.eqb c d
  end.

Fixpoint accepts (ts : list token) : string -> bool :=
  match ts with
  | [] => fun s => match s with EmptyString => true | _ => false end
  | Star :: ts' =>
      fix star (s : string) : bool :=
        accepts ts' s
        || match s with
           | EmptyString => false
           | String _ s' => star s'
           end
  | t :: ts' =>
      fun s =>
        match s with
        | EmptyString => false
        | String c s' => token_accepts t c && accepts ts' s'
        end
  end.

Definition fnmatch (name pat : string) : bool := accepts (translate pat) name.

End Fnmatch.

(** ** [utils.py] *)

Module Utils.

Import Py Fnmatch.

(** [[ '/'.join(path_parts[i:]) for i in range(len(path_parts)) ]] *)
Definition partial_paths (path_parts : list string) : list string :=
  map (fun i => join_slash (skipn i path_parts)) (seq 0 (List.length path_parts)).

(** The body of the loop of [matches_any_pattern] for one pattern. *)
Definition matches_pattern (normalized_path no_dot_path pattern0 : string) : bool :=
  let pattern := replace_backslash pattern0 in
  (endswith pattern "/"
   && (let dir_pattern := drop_last 1 pattern in
       startswith normalized_path (dir_pattern ++ "/")
       || String.eqb normalized_path dir_pattern
       || startswith no_dot_path (dir_pattern ++ "/")
       || String.eqb no_dot_path dir_pattern))
  || (startswith pattern "."
      && (let no_dot_pattern := drop 1 pattern in
          fnmatch normalized_path no_dot_pattern
          || fnmatch normalized_path ("*/" ++ no_dot_pattern)
          || fnmatch normalized_path (no_dot_pattern ++ "/*")))
  || fnmatch normalized_path pattern
  || existsb (fun partial_path => fnmatch partial_path pattern)
       (partial_paths (split_slash normalized_path)).

Definition matches_any_pattern (path : string) (patterns : list string) : bool :=
  let normalized_path := replace_backslash path in
  let no_dot_path :=
    if startswith normalized_path "./" then drop 2 normalized_path
    else normalized_path in
  existsb (matches_pattern normalized_path no_dot_path) patterns.


(** *** The repository on disk

    What [open], [stat] and [os.walk] observe: a file has a size in bytes,
    a flag telling whether its first 1024 characters fail to decode as
    UTF-8, and its text; a directory lists its entries in the order
    [os.scandir] returns them. *)

Record file_info : Type := {
  st_size : Z;
  undecodable_head : bool;
  text : string
}.

Inductive entry : Type :=
| File (name : string) (info : file_info)
| Dir (name : string) (children : list entry).

Definition is_binary_file (file_path : file_info) : bool :=
  undecodable_head file_path.

Definition get_file_content (file_path : file_info) : string := text file_path.

(** [os.path.relpath(dirpath, root_dir)] for a directory reached from the
    root through the directories [comps]. *)
Definition relpath (comps : list string) : string :=
  match comps with
  | [] => "."
  | _ => join_slash comps
  end.

(** [str(file_path.relative_to(root_dir))] *)
Definition relative_to_root (comps : list string) (filename : string) : string :=
  join_slash (comps ++ [filename]).

Section FindFiles.

Variables include_patterns exclude_patterns : list string.
Variable max_size_kb : Z.
Variable max_depth : option nat.

(** Lines 91-95: [dirnames.clear()] once the depth limit is reached. *)
Definition depth_reached (rel_dirpath : string) : bool :=
  match max_depth with
  | None => false
  | Some limit =>
      let current_depth :=
        if String.eqb rel_dirpath "." then 0
        else List.length (split_slash rel_dirpath) in
      Nat.leb limit current_depth
  end.

(** Lines 101-112: a subdirectory stays in [dirnames] unless its relative
    path matches an exclude pattern. *)
Definition subdir_excluded (rel_dirpath dirname : string) : bool :=
  let rel_subdir := os_path_join rel_dirpath dirname in
  let rel_subdir := if String.eqb rel_subdir "." then dirname else rel_subdir in
  matches_any_pattern rel_subdir exclude_patterns.

(** Lines 115-130, for one file name. *)
Definition file_selected (relative_path : string) (file_path : file_info) : bool :=
  if matches_any_pattern relative_path exclude_patterns then false
  else if (st_size file_path >? max_size_kb * 1024)%Z then false
  else matches_any_pattern relative_path include_patterns
       && negb (is_binary_file file_path).

(** One step of [os.walk]: the files of this directory, then the
    subdirectories left in [dirnames], each walked by [walk]. *)
Definition visit (comps : list string) (children : list entry)
    (walk : entry -> list (file_info * string)) : list (file_info * string) :=
  let rel_dirpath := relpath comps in
  flat_map (fun e =>
              match e with
              | File filename file_path =>
                  let relative_path := relative_to_root comps filename in
                  if file_selected relative_path file_path
                  then [(file_path, relative_path)] else []
              | Dir _ _ => []
              end) children
  ++ flat_map (fun e =>
                 match e with
                 | Dir dirname _ =>
                     if depth_reached rel_dirpath then []
                     else if subdir_excluded rel_dirpath dirname then []
                     else walk e
                 | File _ _ => []
                 end) children.

Fixpoint walk (parent : list string) (e : entry) : list (file_info * string) :=
  match e with
  | File _ _ => []
  | Dir dirname children =>
      visit (parent ++ [dirname]) children (walk (parent ++ [dirname]))
  end.

(** The first component of a result stands for the absolute path: it is
    what opening that path yields. *)
Definition find_files (root_dir : list entry) : list (file_info * string) :=
  visit [] root_dir (walk []).

End FindFiles.

(** *** Well-formed directories

    In a directory of a real file system names are unique and hold no
    slash. *)

Definition entry_name (e : entry) : string :=
  match e with
  | File name _ => name
  | Dir name _ => name
  end.

Definition slash_free (name : string) : bool := negb (contains_char slash name).

Fixpoint distinct (names : list string) : bool :=
  match names with
  | [] => true
  | n :: rest => negb (existsb (String.eqb n) rest) && distinct rest
  end.

Fixpoint wf_entry (e : entry) : bool :=
  match e with
  | File name _ => slash_free name
  | Dir name children =>
      slash_free name
      && distinct (map entry_name children)
      && forallb wf_entry children
  end.

Definition wf_repo (root_dir : list entry) : bool :=
  distinct (map entry_name root_dir) && forallb wf_entry root_dir.

(** [file_at l parts]: following the names [parts] from the directory
    listing [l] ends on a file. *)
Inductive file_at : list entry -> list string -> Prop :=
| file_here (l : list entry) (name : string) (info : file_info) :
    In (File name info) l -> file_at l [name]
| file_below (l : list entry) (name : string) (children : list entry)
    (rest : list string) :
    In (Dir name children) l -> file_at children rest -> file_at l (name :: rest).

(** What [walk] returns below the directory [e], reached through [comps],
    is a file of that directory that passed the tests [selected]. *)
Definition walks_into (selected : string -> file_info -> bool) (comps : list string)
    (e : entry) (found : list (file_info * string)) : Prop :=
  forall info rel,
    In (info, rel) found ->
    exists name children parts,
      e = Dir name children /\ file_at children parts
      /\ rel = join_slash ((comps ++ [name]) ++ parts)%list
      /\ selected rel info = true.

End Utils.

Import Py Fnmatch Utils.

(** ** [config.py] *)

Module Config.

Record LanguageConfig : Type := {
  name : string;
  extensions : list string;
  include_patterns : list string;
  exclude_patterns : list string;
  config_files : list string
}.

Record Config : Type := {
  common_include_patterns : list string;
  common_exclude_patterns : list string;
  languages : list (string * LanguageConfig);
  max_file_size_kb : Z;
  max_depth : option nat;
  remove_comments : bool
}.

(** [set.add] *)
Definition set_add (x : string) (s : list string) : list string :=
  if existsb (String.eqb x) s then s else (s ++ [x])%list.

(** [{f(p) for p in s}] *)
Definition set_map (f : string -> string) (s : list string) : list string :=
  fold_left (fun acc p => set_add (f p) acc) s [].

(** Lines 109-122, for one pattern. *)
Definition normalize_exclude (pattern : string) : string :=
  if endswith pattern "/" then pattern
  else if endswith pattern "/**" then drop_last 3 pattern ++ "/"
  else if contains "**/" pattern && negb (endswith pattern "*") then
    if negb (existsb (fun c => contains_char c (split_second "**/" pattern))
               ["."; "*"; "?"; "["; "]"]%char)
    then pattern ++ "/"
    else pattern
  else pattern.

Definition python_config : LanguageConfig := {|
  name := "Python";
  extensions := [".py"];
  include_patterns :=
    ["pyproject.toml"; "setup.cfg"; "pytest.ini"; "tox.ini"; "requirements*.txt"];
  exclude_patterns := [];
  config_files := ["pyproject.toml"; "setup.py"; "setup.cfg"; "requirements.txt"]
|}.

Definition csharp_config : LanguageConfig := {|
  name := "C#";
  extensions := [".cs"; ".csproj"; ".sln"];
  include_patterns :=
    ["*.config"; "App.config"; "Web.config"; "packages.config"; "*.props";
     "*.targets"];
  exclude_patterns := [];
  config_files := ["*.csproj"; "*.sln"; "packages.config"; "NuGet.config"]
|}.

Definition react_config : LanguageConfig := {|
  name := "React";
  extensions := [".jsx"; ".tsx"; ".js"; ".ts"];
  include_patterns :=
    ["package.json"; "tsconfig.json"; ".babelrc"; ".eslintrc*";
     "webpack.config.js"; "next.config.js"; "vite.config.js"];
  exclude_patterns := ["*.d.ts"];
  config_files := ["package.json"; "tsconfig.json"; ".babelrc"; "webpack.config.js"]
|}.

Definition yaml_config : LanguageConfig := {|
  name := "YAML";
  extensions := [".yml"; ".yaml"];
  include_patterns :=
    ["docker-compose*.yml"; "docker-compose*.yaml";
     ".github/workflows/*.yml"; ".github/workflows/*.yaml";
     "kubernetes/*.yml"; "kubernetes/*.yaml";
     "k8s/*.yml"; "k8s/*.yaml";
     "helm/**/*.yml"; "helm/**/*.yaml";
     ".gitlab-ci.yml"; "cloudbuild.yaml";
     "appveyor.yml"; "circle.yml"; "travis.yml"; ".travis.yml";
     "**/Chart.yaml"; "**/values.yaml";
     "ansible/*.yml"; "ansible/*.yaml";
     "*.yaml"; "*.yml"];
  exclude_patterns := [];
  config_files := ["docker-compose.yml"; "docker-compose.yaml"; ".github/workflows/*.yml"]
|}.

(** [Config.__post_init__], from the field values the constructor got. *)
Definition __post_init__ (self : Config) : Config :=
  let common_include := set_map replace_backslash (common_include_patterns self) in
  let common_exclude := set_map replace_backslash (common_exclude_patterns self) in
  let normalized_exclude := set_map normalize_exclude common_exclude in
  {| common_include_patterns := common_include;
     common_exclude_patterns := normalized_exclude;
     languages :=
       dict_set "yaml" yaml_config
         (dict_set "react" react_config
            (dict_set "csharp" csharp_config
               (dict_set "python" python_config (languages self))));
     max_file_size_kb := max_file_size_kb self;
     max_depth := max_depth self;
     remove_comments := remove_comments self |}.

(** The field defaults of the dataclass. *)
Definition default_fields : Config := {|
  common_include_patterns :=
    ["Dockerfile"; "docker-compose.yml"; ".gitignore"; "README.md"; "LICENSE";
     ".env.example"; "Makefile"; "requirements.txt"; "package.json"; "setup.py";
     "*.config"];
  common_exclude_patterns :=
    [".git/"; "__pycache__/"; "*.pyc"; "*.pyd"; "*.pyo";
     "*.dll"; "*.exe"; "*.obj"; "*.o"; "*.a"; "*.lib"; "*.so"; "*.dylib";
     "*.ncb"; "*.sdf"; "*.suo"; "*.pdb"; "*.ipdb"; "*.pgc"; "*.pgd"; "*.rsp";
     "*.sbr"; "*.tlb"; "*.tli"; "*.tlh"; "*.tmp"; "*.tmp_proj"; "*.log";
     "*.vspscc"; "*.vssscc"; ".builds"; "*.pidb"; "*.svclog"; "*.scc";
     "*.psess"; "*.vsp"; "*.vspx";
     "**/bin/"; "**/obj/"; "**/build/"; "**/dist/";
     "**/node_modules/";
     "**/.venv/"; "**/venv/"; "**/env/"; "**/.env/"; "**/ENV/";
     "**/.DS_Store"; "**/Lib/site-packages/"];
  languages := [];
  max_file_size_kb := 1024;
  max_depth := None;
  remove_comments := true
|}.

Definition DEFAULT_CONFIG : Config := __post_init__ default_fields.

(** [Config.add_exclude_pattern]; [isdir] is [os.path.isdir] in the
    process's working directory. *)
Definition add_exclude_pattern (isdir : string -> bool) (self : Config)
    (pattern0 : string) : Config :=
  let pattern := replace_backslash pattern0 in
  let pattern :=
    if isdir pattern && negb (endswith pattern "/") then pattern ++ "/"
    else pattern in
  let excl := set_add pattern (common_exclude_patterns self) in
  let excl := if startswith pattern "." then set_add (drop 1 pattern) excl else excl in
  let excl :=
    if negb (endswith pattern "/") && negb (endswith pattern "*") then
      if isdir pattern then set_add (pattern ++ "**/*") excl
      else set_add (pattern ++ "*") excl
    else excl in
  {| common_include_patterns := common_include_patterns self;
     common_exclude_patterns := excl;
     languages := languages self;
     max_file_size_kb := max_file_size_kb self;
     max_depth := max_depth self;
     remove_comments := remove_comments self |}.

End Config.

(** ** [core.py] *)

Module Core.

(** [Any]: the values the result's dictionaries hold.  A float is kept as
    an opaque number; the pipeline never computes with one. *)
Inductive pyvalue : Type :=
| PyNone
| PyInt (n : Z)
| PyFloat (x : Z)
| PyStr (s : string)
| PyList (items : list pyvalue)
| PyDict (entries : list (string * pyvalue)).

Definition pydict : Type := list (string * pyvalue).

(** [Dict[str, str]]: relative path to content. *)
Definition file_map : Type := list (string * string).

(** [Dict[str, List[str]]]: relative path to dependency tags. *)
Definition dependency_map : Type := list (string * list string).

(** The nested dictionary of [_build_tree_structure]: a file maps to
    [None], a directory to the dictionary of its entries. *)
Inductive tree_node : Type :=
| Leaf
| Directory (children : list (string * tree_node)).

Definition tree : Type := list (string * tree_node).

(** The methods of [BaseLanguageHandler] that [core.py] calls. *)
Record Handler : Type := {
  detect_language : list entry -> bool;
  get_include_patterns : list string;
  get_exclude_patterns : list string;
  analyze_dependencies : file_map -> dependency_map;
  extract_project_metadata : file_map -> pyvalue
}.

Definition handler_class : Type := option Config.LanguageConfig -> Handler.

Record RepositoryInfo : Type := {
  root_path : string;
  languages : list string;
  files : file_map;
  file_dependencies : dependency_map;
  metadata : pydict;
  tree_structure : tree;
  token_info : pydict;
  function_info : pydict
}.

(** The [repo_data] dictionary handed to the token estimator. *)
Record repo_data : Type := {
  rd_files : file_map;
  rd_metadata : pydict;
  rd_tree_structure : tree;
  rd_file_dependencies : dependency_map
}.

(** The calls made on the progress tracker, in order. *)
Inductive task : Type := main_task | file_task.

Inductive progress_call : Type :=
| add_task (description : string) (total : nat)
| update (t : task) (description : option string) (advance completed : option nat).

(** The attributes of a [RepositoryIngestor]; [progress] is [None] when no
    tracker was given, otherwise the calls it has received. *)
Record RepositoryIngestor : Type := {
  config : Config.Config;
  handlers : list (string * Handler);
  progress : option (list progress_call)
}.

(** Methods read and update [self]. *)
Definition M (A : Type) : Type := RepositoryIngestor -> A * RepositoryIngestor.

Definition ret {A : Type} (a : A) : M A := fun self => (a, self).

Definition bind {A B : Type} (c : M A) (k : A -> M B) : M B :=
  fun self => let '(a, self') := c self in k a self'.

(** A method that may raise: [None] is the exception. *)
Definition bind_raise {A B : Type} (c : M (option A)) (k : A -> M (option B))
  : M (option B) :=
  fun self =>
    let '(r, self') := c self in
    match r with
    | Some a => k a self'
    | None => (None, self')
    end.

Declare Scope method_scope.
Delimit Scope method_scope with method.
Notation "x <- c ;; k" := (bind c (fun x => k))
  (at level 61, c at next level, right associativity) : method_scope.
Notation "c ;; k" := (bind c (fun _ => k))
  (at level 61, right associativity) : method_scope.
Notation "x <-! c ;; k" := (bind_raise c (fun x => k))
  (at level 61, c at next level, right associativity) : method_scope.
Local Open Scope method_scope.

Definition get_self : M RepositoryIngestor := fun self => (self, self).

(** [if self.progress: self.progress.<call>] *)
Definition report (call : progress_call) : M unit :=
  fun self =>
    (tt, match progress self with
         | None => self
         | Some calls =>
             {| config := config self;
                handlers := handlers self;
                progress := Some (calls ++ [call])%list |}
         end).

(** [self.handlers[lang_name] = handler] *)
Definition set_handler (lang_name : string) (handler : Handler) : M unit :=
  fun self =>
    (tt, {| config := config self;
            handlers := dict_set lang_name handler (handlers self);
            progress := progress self |}).

(** What [core.py] imports and the embedding leaves open: the handler
    classes of [language_handlers/]; [utils.remove_comments_from_content],
    a regular-expression rewrite of one file's text, whose result the
    pipeline stores and never inspects; [token_utils.estimate_repository_tokens]
    and the two analyzers of [function_analyzer], which return string-keyed
    dictionaries. *)
Class Collaborators : Type := {
  CSharpLanguageHandler : handler_class;
  PythonLanguageHandler : handler_class;
  ReactLanguageHandler : handler_class;
  YamlLanguageHandler : handler_class;
  remove_comments_from_content : string -> string -> string;
  estimate_repository_tokens : repo_data -> pydict;
  build_call_graph_from_files : file_map -> pydict;
  analyze_non_python_functions : file_map -> pydict
}.

Section Ingestor.

Context `{Collaborators}.

Definition LANGUAGE_HANDLERS : list (string * handler_class) :=
  [("csharp", CSharpLanguageHandler);
   ("python", PythonLanguageHandler);
   ("react", ReactLanguageHandler);
   ("yaml", YamlLanguageHandler)].

(** The loop of [_detect_languages]. *)
Fixpoint detect_loop (table : list (string * handler_class))
    (repo_path : list entry) : M (list string) :=
  match table with
  | [] => ret []
  | (lang_name, cls) :: rest =>
      self <- get_self ;;
      let handler := cls (dict_get lang_name (Config.languages (config self))) in
      if detect_language handler repo_path then
        set_handler lang_name handler ;;
        detected <- detect_loop rest repo_path ;;
        ret (lang_name :: detected)
      else detect_loop rest repo_path
  end.

Definition _detect_languages (repo_path : list entry) : M (list string) :=
  report (update main_task (Some "Detecting languages...") (Some 5) None) ;;
  detect_loop LANGUAGE_HANDLERS repo_path.

(** [{p for p in common_include_patterns if '*' not in p and '?' not in p}] *)
Definition explicit_common_patterns (cfg : Config.Config) : list string :=
  filter (fun p => negb (contains_char "*"%char p) && negb (contains_char "?"%char p))
    (Config.common_include_patterns cfg).

(** Lines 101-121 of [_collect_files]: the decision for one found file. *)
Definition should_include (cfg : Config.Config) (hs : list (string * Handler))
    (languages : list string) (relative_path : string) : bool :=
  match languages with
  | [] => true
  | _ =>
      existsb (fun lang =>
                 match dict_get lang hs with
                 | Some handler =>
                     existsb (fun pattern => matches_any_pattern relative_path [pattern])
                       (get_include_patterns handler)
                 | None => false
                 end) languages
      || existsb (fun p => String.eqb p relative_path)
           (explicit_common_patterns cfg)
  end.

(** Lines 99-135 of [_collect_files]. *)
Fixpoint collect_loop (languages : list string)
    (file_paths : list (file_info * string)) (files : file_map) : M file_map :=
  match file_paths with
  | [] => ret files
  | (file_path, relative_path) :: rest =>
      self <- get_self ;;
      if should_include (config self) (handlers self) languages relative_path then
        let content := get_file_content file_path in
        let content :=
          if Config.remove_comments (config self)
          then remove_comments_from_content relative_path content
          else content in
        report (update file_task None (Some 1) None) ;;
        collect_loop languages rest (dict_set relative_path content files)
      else collect_loop languages rest files
  end.

(** Lines 74-81: the common patterns and those of the handlers of
    [languages]. *)
Definition walk_patterns (hs : list (string * Handler)) (languages : list string)
    (common : list string) (of_handler : Handler -> list string) : list string :=
  (common ++ flat_map (fun lang =>
                         match dict_get lang hs with
                         | Some handler => of_handler handler
                         | None => []
                         end) languages)%list.

(** Lines 74-92: the walk with the patterns gathered for [languages]. *)
Definition found_files (cfg : Config.Config) (hs : list (string * Handler))
    (languages : list string) (repo_path : list entry) : list (file_info * string) :=
  let include_patterns :=
    walk_patterns hs languages (Config.common_include_patterns cfg)
      get_include_patterns in
  let exclude_patterns :=
    walk_patterns hs languages (Config.common_exclude_patterns cfg)
      get_exclude_patterns in
  find_files include_patterns exclude_patterns
    (Config.max_file_size_kb cfg) (Config.max_depth cfg) repo_path.

Definition _collect_files (repo_path : list entry) (languages : list string)
  : M file_map :=
  self <- get_self ;;
  report (update main_task (Some "Finding files...") (Some 5) None) ;;
  let file_paths := found_files (config self) (handlers self) languages repo_path in
  report (update main_task (Some "Reading files...") (Some 5) None) ;;
  report (add_task "Reading files..." (List.length file_paths)) ;;
  collect_loop languages file_paths [].

(** Lines 153-160: later handlers overwrite earlier ones on equal keys. *)
Definition merged_dependencies (hs : list (string * Handler)) (files : file_map)
    (languages : list string) : dependency_map :=
  fold_left (fun all_dependencies lang =>
               match dict_get lang hs with
               | Some handler =>
                   dict_update all_dependencies (analyze_dependencies handler files)
               | None => all_dependencies
               end) languages [].

Definition _analyze_dependencies (files : file_map) (languages : list string)
  : M dependency_map :=
  report (update main_task (Some "Analyzing dependencies...") (Some 10) None) ;;
  self <- get_self ;;
  ret (merged_dependencies (handlers self) files languages).

(** Lines 183-186: one entry per language that has a handler. *)
Definition language_metadata (hs : list (string * Handler)) (files : file_map)
    (languages : list string) : pydict :=
  fold_left (fun acc lang =>
               match dict_get lang hs with
               | Some handler =>
                   dict_set lang (extract_project_metadata handler files) acc
               | None => acc
               end) languages [].

(** [now] is the reading of [time.time()]. *)
Definition _extract_metadata (now : Z) (files : file_map) (languages : list string)
  : M pydict :=
  report (update main_task (Some "Extracting metadata...") (Some 10) None) ;;
  self <- get_self ;;
  ret [("timestamp", PyFloat now);
       ("languages", PyList (map PyStr languages));
       ("file_count", PyInt (Z.of_nat (List.length files)));
       ("language_metadata", PyDict (language_metadata (handlers self) files languages))].

(** Lines 206-217: one path inserted along its parts.  Stepping into an
    entry that holds [None] leaves [current = None], and the next use of
    [current] raises [TypeError]. *)
Fixpoint insert_parts (parts : list string) (current : tree) : option tree :=
  match parts with
  | [] => Some current
  | [part] => Some (dict_set part Leaf current)
  | part :: rest =>
      match dict_get part current with
      | None =>
          match insert_parts rest [] with
          | Some sub => Some (dict_set part (Directory sub) current)
          | None => None
          end
      | Some (Directory sub) =>
          match insert_parts rest sub with
          | Some sub' => Some (dict_set part (Directory sub') current)
          | None => None
          end
      | Some Leaf => None
      end
  end.

Fixpoint build_loop (paths : list string) (tree0 : tree) : option tree :=
  match paths with
  | [] => Some tree0
  | file_path :: rest =>
      match insert_parts (split_slash file_path) tree0 with
      | Some tree1 => build_loop rest tree1
      | None => None
      end
  end.

(** [leaf_at t parts]: following [parts] through the nested dictionaries
    of [t] ends on [None]. *)
Fixpoint leaf_at (t : tree) (parts : list string) : Prop :=
  match parts with
  | [] => False
  | [part] => dict_get part t = Some Leaf
  | part :: rest =>
      match dict_get part t with
      | Some (Directory sub) => leaf_at sub rest
      | _ => False
      end
  end.

Definition _build_tree_structure (files : file_map) : M (option tree) :=
  report (update main_task (Some "Building tree structure...") (Some 10) None) ;;
  ret (build_loop (keys files) []).

Definition _analyze_tokens (files : file_map) (metadata : pydict) (tree0 : tree)
    (dependencies : dependency_map) : M pydict :=
  report (update main_task (Some "Estimating token counts...") (Some 10) None) ;;
  ret (estimate_repository_tokens
         {| rd_files := files;
            rd_metadata := metadata;
            rd_tree_structure := tree0;
            rd_file_dependencies := dependencies |}).

(** [len(v)]; [TypeError] on a value without a length. *)
Definition py_len (v : pyvalue) : option Z :=
  match v with
  | PyStr s => Some (Z.of_nat (String.length s))
  | PyList items => Some (Z.of_nat (List.length items))
  | PyDict entries => Some (Z.of_nat (List.length entries))
  | _ => None
  end.

(** [d.get(k, default)] *)
Definition get_default (k : string) (d : pydict) (default : pyvalue) : pyvalue :=
  match dict_get k d with
  | Some v => v
  | None => default
  end.

(** [n + v] for an int [n]; the analyzers' counts are ints, any other
    value is outside the model and reported as an exception. *)
Definition py_add (n : Z) (v : pyvalue) : option pyvalue :=
  match v with
  | PyInt m => Some (PyInt (n + m))
  | _ => None
  end.

(** Lines 260-279. *)
Definition function_analysis (files : file_map) : option pydict :=
  let python_analysis := build_call_graph_from_files files in
  let other_analysis := analyze_non_python_functions files in
  let function_info0 := dict_update python_analysis other_analysis in
  match py_len (get_default "functions" python_analysis (PyDict [])),
        py_len (get_default "file_functions" python_analysis (PyDict [])) with
  | Some python_func_count, Some python_files_analyzed =>
      let other_func_count := get_default "function_count" other_analysis (PyInt 0) in
      match py_add python_func_count other_func_count with
      | Some total =>
          Some (dict_set "analysis_coverage"
                  (PyDict
                     [("python_functions", PyInt python_func_count);
                      ("other_functions", other_func_count);
                      ("python_files_analyzed", PyInt python_files_analyzed);
                      ("other_files_analyzed",
                        get_default "file_count" other_analysis (PyInt 0))])
                  (dict_set "total_function_count" total function_info0))
      | None => None
      end
  | _, _ => None
  end.

Definition _analyze_functions (files : file_map) : M (option pydict) :=
  report (update main_task (Some "Analyzing function call graph...") (Some 15) None) ;;
  ret (function_analysis files).

(** [', '.join(l)] *)
Definition join_comma (l : list string) : string := String.concat ", " l.

(** Lines 304-305: the detected languages named, in any case, by the filter. *)
Definition matching_languages (languages_filter all_languages : list string)
  : list string :=
  let languages_filter_lower := map lower languages_filter in
  filter (fun lang => existsb (String.eqb (lower lang)) languages_filter_lower)
    all_languages.

(** Lines 302-321: the languages the run analyzes. *)
Definition filter_languages (languages_filter : option (list string))
    (all_languages : list string) : M (list string) :=
  match languages_filter, all_languages with
  | Some ((_ :: _) as wanted), _ :: _ =>
      let filtered_languages := matching_languages wanted all_languages in
      match filtered_languages with
      | _ :: _ =>
          report (update main_task
                    (Some ("Analyzing " ++ join_comma filtered_languages ++ " files..."))
                    (Some 2) None)
      | [] =>
          report (update main_task
                    (Some "No matching languages found with specified filter!")
                    (Some 2) None)
      end ;;
      ret filtered_languages
  | _, _ => ret all_languages
  end.

Definition allowed_core_files : list string := ["README.md"; "LICENSE"].

Definition in_set (x : string) (s : list string) : bool := existsb (String.eqb x) s.

(** Lines 335-339: a whitelist gathered from the configurations of
    [languages]. *)
Definition whitelist (cfg : Config.Config) (languages : list string)
    (field : Config.LanguageConfig -> list string) : list string :=
  flat_map (fun lang =>
              match dict_get lang (Config.languages cfg) with
              | Some lang_config => field lang_config
              | None => []
              end) languages.

(** Lines 346-357: the second pass's decision for one file. *)
Definition whitelisted (cfg : Config.Config) (languages : list string)
    (file_path : string) : bool :=
  let allowed_extensions := whitelist cfg languages Config.extensions in
  let allowed_config_files := whitelist cfg languages Config.config_files in
  let file_ext := lower (splitext_ext file_path) in
  let file_name := basename file_path in
  if in_set file_path allowed_core_files || in_set file_name allowed_core_files
  then true
  else if in_set file_ext allowed_extensions then true
  else existsb (fun pattern => matches_any_pattern file_path [pattern])
         allowed_config_files.

(** Lines 327-360. *)
Definition filter_files (cfg : Config.Config)
    (languages_filter : option (list string)) (languages : list string)
    (files : file_map) : file_map :=
  match languages_filter, languages with
  | Some (_ :: _), _ :: _ =>
      fold_left (fun filtered_files item =>
                   let '(file_path, content) := item in
                   if whitelisted cfg languages file_path
                   then dict_set file_path content filtered_files
                   else filtered_files) files []
  | _, _ => files
  end.

Definition ingest (repo_path : string) (repo : list entry) (now : Z)
    (token_estimate_only : bool) (languages_filter : option (list string))
  : M (option RepositoryInfo) :=
  report (add_task "Analyzing repository..." 100) ;;
  all_languages <- _detect_languages repo ;;
  languages <- filter_languages languages_filter all_languages ;;
  files <- _collect_files repo all_languages ;;
  self <- get_self ;;
  let files := filter_files (config self) languages_filter languages files in
  if token_estimate_only then
    report (update main_task (Some "Estimating tokens...") (Some 90) None) ;;
    dummy_tree <-! _build_tree_structure files ;;
    token_info <- _analyze_tokens files
                    [("languages", PyList (map PyStr languages))] dummy_tree [] ;;
    report (update main_task (Some "Token estimation complete!") None (Some 100)) ;;
    ret (Some {| root_path := repo_path;
                 languages := languages;
                 files := files;
                 file_dependencies := [];
                 metadata :=
                   [("languages", PyList (map PyStr languages));
                    ("file_count", PyInt (Z.of_nat (List.length files)))];
                 tree_structure := dummy_tree;
                 token_info := token_info;
                 function_info := [] |})
  else
    dependencies <- _analyze_dependencies files languages ;;
    metadata <- _extract_metadata now files languages ;;
    tree0 <-! _build_tree_structure files ;;
    token_info <- _analyze_tokens files metadata tree0 dependencies ;;
    function_info <-! _analyze_functions files ;;
    report (update main_task (Some "Analysis complete!") None (Some 100)) ;;
    ret (Some {| root_path := repo_path;
                 languages := languages;
                 files := files;
                 file_dependencies := dependencies;
                 metadata := metadata;
                 tree_structure := tree0;
                 token_info := token_info;
                 function_info := function_info |}).

(** *** What the methods compute

    The values of the methods above, without the tracker: the handlers
    a run instantiates, the languages it keeps, the files it returns. *)

Definition detected (cfg : Config.Config) (table : list (string * handler_class))
    (repo_path : list entry) : list (string * Handler) :=
  flat_map (fun entry0 =>
              let '(lang_name, cls) := entry0 in
              let handler := cls (dict_get lang_name (Config.languages cfg)) in
              if detect_language handler repo_path then [(lang_name, handler)] else [])
    table.

Definition detected_languages (cfg : Config.Config) (repo_path : list entry)
  : list string :=
  keys (detected cfg LANGUAGE_HANDLERS repo_path).

Definition kept_files (cfg : Config.Config) (hs : list (string * Handler))
    (languages : list string) (file_paths : list (file_info * string))
    (files : file_map) : file_map :=
  fold_left (fun files item =>
               let '(file_path, relative_path) := item in
               if should_include cfg hs languages relative_path then
                 let content := get_file_content file_path in
                 let content :=
                   if Config.remove_comments cfg
                   then remove_comments_from_content relative_path content
                   else content in
                 dict_set relative_path content files
               else files) file_paths files.

(** The value of [_collect_files(repo_path, all_languages)] in [ingest]. *)
Definition collected_files (cfg : Config.Config) (repo_path : list entry) : file_map :=
  let hs := detected cfg LANGUAGE_HANDLERS repo_path in
  kept_files cfg hs (keys hs) (found_files cfg hs (keys hs) repo_path) [].

(** The value of [languages] after lines 302-321. *)
Definition chosen_languages (languages_filter : option (list string))
    (all_languages : list string) : list string :=
  match languages_filter, all_languages with
  | Some ((_ :: _) as wanted), _ :: _ => matching_languages wanted all_languages
  | _, _ => all_languages
  end.

(** A filter was given and names none of the detected languages. *)
Definition unmatched_filter (languages_filter : option (list string))
    (all_languages : list string) : bool :=
  match languages_filter with
  | Some ((_ :: _) as wanted) =>
      match matching_languages wanted all_languages with
      | [] => true
      | _ :: _ => false
      end
  | _ => false
  end.

(** The value of [files] after lines 324-360. *)
Definition selected_files (cfg : Config.Config) (repo_path : list entry)
    (languages_filter : option (list string)) : file_map :=
  filter_files cfg languages_filter
    (chosen_languages languages_filter (detected_languages cfg repo_path))
    (collected_files cfg repo_path).

(** The value [ingest] returns. *)
Definition outcome (cfg : Config.Config) (repo_path : string) (repo : list entry)
    (now : Z) (token_estimate_only : bool) (languages_filter : option (list string))
  : option RepositoryInfo :=
  let hs := detected cfg LANGUAGE_HANDLERS repo in
  let languages := chosen_languages languages_filter (keys hs) in
  let files := selected_files cfg repo languages_filter in
  match build_loop (keys files) [] with
  | None => None
  | Some tree0 =>
      if token_estimate_only then
        Some {| root_path := repo_path;
                languages := languages;
                files := files;
                file_dependencies := [];
                metadata :=
                  [("languages", PyList (map PyStr languages));
                   ("file_count", PyInt (Z.of_nat (List.length files)))];
                tree_structure := tree0;
                token_info :=
                  estimate_repository_tokens
                    {| rd_files := files;
                       rd_metadata := [("languages", PyList (map PyStr languages))];
                       rd_tree_structure := tree0;
                       rd_file_dependencies := [] |};
                function_info := [] |}
      else
        let dependencies := merged_dependencies hs files languages in
        let metadata0 :=
          [("timestamp", PyFloat now);
           ("languages", PyList (map PyStr languages));
           ("file_count", PyInt (Z.of_nat (List.length files)));
           ("language_metadata", PyDict (language_metadata hs files languages))] in
        match function_analysis files with
        | None => None
        | Some function_info0 =>
            Some {| root_path := repo_path;
                    languages := languages;
                    files := files;
                    file_dependencies := dependencies;
                    metadata := metadata0;
                    tree_structure := tree0;
                    token_info :=
                      estimate_repository_tokens
                        {| rd_files := files;
                           rd_metadata := metadata0;
                           rd_tree_structure := tree0;
                           rd_file_dependencies := dependencies |};
                    function_info := function_info0 |}
        end
  end.

(** *** What is assumed of the absent collaborators *)

(** The analyzers of [function_analyzer] return dictionaries whose
    ["functions"] and ["file_functions"] entries have a length and whose
    ["function_count"] entry is an int. *)
Definition analyzers_typed : Prop :=
  forall files : file_map,
    py_len (get_default "functions" (build_call_graph_from_files files) (PyDict []))
    <> None
    /\ py_len (get_default "file_functions" (build_call_graph_from_files files)
                 (PyDict [])) <> None
    /\ exists n, get_default "function_count" (analyze_non_python_functions files)
                   (PyInt 0) = PyInt n.

(** Modelled from the spec: [token_utils.estimate_repository_tokens] is
    not among the sources.  The spec gives its shape,
    [estimateTokens(filesAndContext) -> { totalTokens, ...breakdown }], and
    says of a run that collected files that [token_info] contains a
    total-token figure greater than zero; the key ["total_tokens"] is the
    one [tests/test_core.py] looks up. *)
Definition estimator_contract : Prop :=
  forall d : repo_data,
    rd_files d <> [] ->
    exists n, dict_get "total_tokens" (estimate_repository_tokens d) = Some (PyInt n)
              /\ (0 < n)%Z.

End Ingestor.

(** *** Reading the state of an ingestor *)

(** [self'] has the configuration and the handlers of [self]. *)
Definition same_core (self self' : RepositoryIngestor) : Prop :=
  config self' = config self /\ handlers self' = handlers self.

(** The tracker of [self'] received the calls of [self], then more. *)
Definition grows (self self' : RepositoryIngestor) : Prop :=
  match progress self with
  | None => progress self' = None
  | Some calls => exists more, progress self' = Some (calls ++ more)%list
  end.

(** The tracker received [call]. *)
Definition logged (call : progress_call) (self : RepositoryIngestor) : Prop :=
  match progress self with
  | Some calls => In call calls
  | None => False
  end.

(** From [self] the method [c] returns [v], leaving configuration and
    handlers as they are. *)
Definition returns {A : Type} (c : M A) (self : RepositoryIngestor) (v : A) : Prop :=
  exists self', c self = (v, self') /\ same_core self self' /\ grows self self'.

(** The description sent to the tracker when the filter matches nothing. *)
Definition no_match_report : progress_call :=
  update main_task (Some "No matching languages found with specified filter!")
    (Some 2) None.

(** [hs] and [hs'] hold the same handler for each of [languages]. *)
Definition agree_on (languages : list string) (hs hs' : list (string * Handler))
  : Prop :=
  forall lang, In lang languages -> dict_get lang hs = dict_get lang hs'.

End Core.

(** ** Sample repositories *)

Module Samples.

Definition js_file : file_info :=
  {| st_size := 18; undecodable_head := false; text := "export default 1;" |}.

(** [a/b/node_modules/c.js] *)
Definition nested_node_modules : list entry :=
  [Dir "a" [Dir "b" [Dir "node_modules" [File "c.js" js_file]]]].

Definition no_tracker : Core.RepositoryIngestor :=
  {| Core.config := Config.DEFAULT_CONFIG;
     Core.handlers := [];
     Core.progress := None |}.

Definition three_files : Core.file_map :=
  [("d/e/c.js", "c"); ("a.py", "a"); ("d/b.py", "b")].

Definition is_no_directory (path : string) : bool := false.

(** A handler in the manner of [language_handlers/]: a language is
    detected when some file of the repository has one of its extensions;
    its include patterns are those of its configuration and ["*" + ext]
    for each extension. *)
Fixpoint has_extension (ext : string) (e : entry) : bool :=
  match e with
  | File name _ => endswith name ext
  | Dir _ children => existsb (has_extension ext) children
  end.

Definition sample_handler (config : option Config.LanguageConfig) : Core.Handler :=
  let extensions :=
    match config with Some c => Config.extensions c | None => [] end in
  {| Core.detect_language :=
       fun repo => existsb (fun ext => existsb (has_extension ext) repo) extensions;
     Core.get_include_patterns :=
       List.app
         (match config with Some c => Config.include_patterns c | None => [] end)
         (map (fun ext => "*" ++ ext) extensions);
     Core.get_exclude_patterns :=
       match config with Some c => Config.exclude_patterns c | None => [] end;
     Core.analyze_dependencies := fun _ => [];
     Core.extract_project_metadata :=
       fun _ => Core.PyDict
                  [("language",
                    Core.PyStr (match config with
                                | Some c => Config.name c
                                | None => ""
                                end))] |}.

(** An estimator that counts one token per file and one per four
    characters, and analyzers that find nothing. *)
Definition sample_collaborators : Core.Collaborators :=
  {| Core.CSharpLanguageHandler := sample_handler;
     Core.PythonLanguageHandler := sample_handler;
     Core.ReactLanguageHandler := sample_handler;
     Core.YamlLanguageHandler := sample_handler;
     Core.remove_comments_from_content := fun _ content => content;
     Core.estimate_repository_tokens :=
       fun d =>
         [("total_tokens",
           Core.PyInt
             (fold_left (fun n item => n + 1 + Z.of_nat (String.length (snd item)) / 4)%Z
                (Core.rd_files d) 0%Z))];
     Core.build_call_graph_from_files := fun _ => [];
     Core.analyze_non_python_functions := fun _ => [] |}.

Definition text_file (content : string) : file_info :=
  {| st_size := Z.of_nat (String.length content);
     undecodable_head := false;
     text := content |}.

(** [main.py] and [docs/README.md] *)
Definition docs_repo : list entry :=
  [File "main.py" (text_file "print(1)");
   Dir "docs" [File "README.md" (text_file "# docs")]].

(** [README.md] alone: no language is detected. *)
Definition readme_repo : list entry :=
  [File "README.md" (text_file "# readme")].

(** A Python handler that also asks for Markdown files. *)
Definition markdown_python_handler (config : option Config.LanguageConfig)
  : Core.Handler :=
  let handler := sample_handler config in
  {| Core.detect_language := Core.detect_language handler;
     Core.get_include_patterns := "*.md" :: Core.get_include_patterns handler;
     Core.get_exclude_patterns := Core.get_exclude_patterns handler;
     Core.analyze_dependencies := Core.analyze_dependencies handler;
     Core.extract_project_metadata := Core.extract_project_metadata handler |}.

Definition markdown_collaborators : Core.Collaborators :=
  {| Core.CSharpLanguageHandler := sample_handler;
     Core.PythonLanguageHandler := markdown_python_handler;
     Core.ReactLanguageHandler := sample_handler;
     Core.YamlLanguageHandler := sample_handler;
     Core.remove_comments_from_content := fun _ content => content;
     Core.estimate_repository_tokens := fun _ => [("total_tokens", Core.PyInt 1)];
     Core.build_call_graph_from_files := fun _ => [];
     Core.analyze_non_python_functions := fun _ => [] |}.

(** [main.py], [docs/nested/README.md] and [docs/nested/notes.md] *)
Definition nested_readme_repo : list entry :=
  [File "main.py" (text_file "print(1)");
   Dir "docs"
     [Dir "nested"
        [File "README.md" (text_file "# nested");
         File "notes.md" (text_file "notes")]]].

Definition with_tracker : Core.RepositoryIngestor :=
  {| Core.config := Config.DEFAULT_CONFIG;
     Core.handlers := [];
     Core.progress := Some [] |}.

(** Constructor arguments with a globstar directory pattern. *)
Definition globstar_fields : Config.Config :=
  {| Config.common_include_patterns := ["README.md"];
     Config.common_exclude_patterns := ["build/**"; "*.pyc"];
     Config.languages := [];
     Config.max_file_size_kb := 1024;
     Config.max_depth := None;
     Config.remove_comments := true |}.

End Samples.

(** ** Vocabulary of the further properties *)

Module Reading.

(** A pattern without [*], [?] and [[]: [fnmatch] reads it letter by letter. *)
Definition plain (pattern : string) : bool :=
  negb (contains_char "*"%char pattern)
  && negb (contains_char "?"%char pattern)
  && negb (contains_char "["%char pattern).

(** The tokens of a plain pattern. *)
Fixpoint literals (pattern : string) : list token :=
  match pattern with
  | EmptyString => []
  | String c t => Lit c :: literals t
  end.

(** [s] ends with [suf], [s] starts with [pre]. *)
Definition ends_with (s suf : string) : Prop := exists before, s = before ++ suf.
Definition starts_with (s pre : string) : Prop := exists rest, s = pre ++ rest.

(** [reaches exclude_patterns max_depth comps l parts info]: from the
    directory reached through [comps], whose listing is [l], the names
    [parts] lead to the file [info] through directories that the walk
    enters: none is beyond the depth limit, none is excluded. *)
Inductive reaches (exclude_patterns : list string) (max_depth : option nat)
  : list string -> list entry -> list string -> file_info -> Prop :=
| reach_file (comps : list string) (l : list entry) (name : string) (info : file_info) :
    In (File name info) l ->
    reaches exclude_patterns max_depth comps l [name] info
| reach_below (comps : list string) (l : list entry) (name : string)
    (children : list entry) (rest : list string) (info : file_info) :
    In (Dir name children) l ->
    depth_reached max_depth (relpath comps) = false ->
    subdir_excluded exclude_patterns (relpath comps) name = false ->
    reaches exclude_patterns max_depth (comps ++ [name]) children rest info ->
    reaches exclude_patterns max_depth comps l (name :: rest) info.

End Reading.

(** * Theorems *)

(** ** Facts about the string built-ins *)

Section StringFacts.

Lemma prefix_spec (p s : string) :
  String.prefix p s = true <-> exists t, s = p ++ t.
Proof.
  revert s; induction p as [|c p IH]; intros s; simpl.
  - split; [intros _; exists s; reflexivity | destruct s; reflexivity].
  - destruct s as [|d s]; simpl.
    + split; [discriminate | intros [t Ht]; discriminate].
    + destruct (ascii_dec c d) as [->|Hcd].
      * rewrite IH. split; intros [t Ht]; exists t; congruence.
      * split; [discriminate | intros [t Ht]; congruence].
Qed.

Lemma startswith_spec (s p : string) :
  startswith s p = true <-> exists t, s = p ++ t.
Proof. apply prefix_spec. Qed.

Lemma split_slash_nonempty (s : string) : split_slash s <> [].
Proof.
  destruct s as [|c t]; simpl; [discriminate|].
  destruct (Ascii.eqb c slash); [discriminate|].
  destruct (split_slash t); discriminate.
Qed.

Lemma join_split_slash (s : string) : join_slash (split_slash s) = s.
Proof.
  induction s as [|c t IH]; [reflexivity|].
  simpl. destruct (Ascii.eqb c slash) eqn:E.
  - apply Ascii.eqb_eq in E; subst c.
    pose proof (split_slash_nonempty t) as Hne.
    unfold join_slash in *. simpl.
    destruct (split_slash t) as [|w ws]; [congruence|].
    now rewrite IH.
  - pose proof (split_slash_nonempty t) as Hne.
    unfold join_slash in *.
    destruct (split_slash t) as [|w ws]; [congruence|].
    simpl in *. destruct ws; simpl in *; now rewrite IH.
Qed.

Lemma partial_paths_cons (p : string) (rest : list string) :
  partial_paths (p :: rest) = join_slash (p :: rest) :: partial_paths rest.
Proof.
  unfold partial_paths. simpl List.length. rewrite <- cons_seq.
  simpl map. f_equal. rewrite <- seq_shift, map_map. reflexivity.
Qed.

Lemma partial_paths_split_head (s : string) :
  partial_paths (split_slash s) = s :: tl (partial_paths (split_slash s)).
Proof.
  pose proof (split_slash_nonempty s) as Hne.
  pose proof (join_split_slash s) as Hj.
  destruct (split_slash s) as [|w ws]; [congruence|].
  rewrite partial_paths_cons, Hj. reflexivity.
Qed.

(** The partial paths after the first are the texts that follow a slash. *)
Lemma partial_paths_split_tail (s t : string) :
  In t (tl (partial_paths (split_slash s))) <-> exists pre, s = pre ++ "/" ++ t.
Proof.
  revert t; induction s as [|c s IH]; intros t.
  - simpl. split; [tauto | intros [[|? ?] H]; discriminate].
  - simpl split_slash. destruct (Ascii.eqb c slash) eqn:E.
    + apply Ascii.eqb_eq in E; subst c.
      rewrite partial_paths_cons. simpl tl.
      rewrite partial_paths_split_head. simpl In. rewrite IH.
      split.
      * intros [<- | [pre ->]]; [exists ""; reflexivity|].
        exists (String slash pre). reflexivity.
      * intros [[|d pre] H]; simpl in H; inversion H; subst; eauto.
    + pose proof (split_slash_nonempty s) as Hne.
      specialize (IH t).
      destruct (split_slash s) as [|w ws]; [congruence|].
      rewrite partial_paths_cons in *. simpl tl in *. rewrite IH.
      split.
      * intros [pre ->]. exists (String c pre). reflexivity.
      * intros [[|d pre] H]; simpl in H; inversion H; subst.
        -- rewrite Ascii.eqb_refl in E. discriminate.
        -- eauto.
Qed.

Lemma partial_paths_split (s t : string) :
  In t (partial_paths (split_slash s))
  <-> t = s \/ exists pre, s = pre ++ "/" ++ t.
Proof.
  rewrite partial_paths_split_head. simpl In.
  rewrite partial_paths_split_tail. intuition congruence.
Qed.

(** The fuel of [translate] is enough: more fuel reads the same tokens. *)
Lemma until_rbracket_shorter s body rest :
  until_rbracket s = Some (body, rest) -> String.length rest < String.length s.
Proof.
  revert body rest; induction s as [|c s IH]; intros body rest; simpl; [discriminate|].
  destruct (Ascii.eqb c rbracket).
  - intros E; inversion E; subst. lia.
  - destruct (until_rbracket s) as [[b r]|]; [|discriminate].
    intros E; inversion E; subst. specialize (IH _ _ eq_refl). lia.
Qed.

Lemma bracket_shorter s tok rest :
  bracket s = Some (tok, rest) -> String.length rest < String.length s.
Proof.
  unfold bracket.
  set (p1 := match s with
             | String c t => if Ascii.eqb c bang then (true, t) else (false, s)
             | EmptyString => (false, s)
             end).
  assert (H1 : String.length (snd p1) <= String.length s).
  { unfold p1. destruct s as [|c t]; simpl; [lia|].
    destruct (Ascii.eqb c bang); simpl; lia. }
  destruct p1 as [neg s1]. simpl in H1.
  set (p2 := match s1 with
             | String c t => if Ascii.eqb c rbracket then ([rbracket], t) else ([], s1)
             | EmptyString => ([], s1)
             end).
  assert (H2 : String.length (snd p2) <= String.length s1).
  { unfold p2. destruct s1 as [|c t]; simpl; [lia|].
    destruct (Ascii.eqb c rbracket); simpl; lia. }
  destruct p2 as [first s2]. simpl in H2.
  destruct (until_rbracket s2) as [[body r]|] eqn:E; [|discriminate].
  intros Eq; inversion Eq; subst.
  apply until_rbracket_shorter in E. lia.
Qed.

Lemma translate_fuel_enough n :
  forall m pat,
    String.length pat <= n -> String.length pat <= m ->
    translate_fuel n pat = translate_fuel m pat.
Proof.
  induction n as [|n IH]; intros m pat Hn Hm.
  - destruct pat; [|simpl in Hn; lia]. destruct m; reflexivity.
  - destruct pat as [|c t]; [destruct m; reflexivity|].
    destruct m as [|m]; [simpl in Hm; lia|].
    simpl in Hn, Hm. cbn [translate_fuel].
    destruct (Ascii.eqb c "*"); [f_equal; apply IH; lia|].
    destruct (Ascii.eqb c "?"); [f_equal; apply IH; lia|].
    destruct (Ascii.eqb c lbracket); [|f_equal; apply IH; lia].
    destruct (bracket t) as [[tok rest]|] eqn:E; [|f_equal; apply IH; lia].
    apply bracket_shorter in E. f_equal; apply IH; lia.
Qed.

(** A pattern of literals accepts exactly its own text. *)
Lemma accepts_literals (cs : list ascii) (s : string) :
  accepts (map Lit cs) s = true <-> s = string_of_list_ascii cs.
Proof.
  revert s; induction cs as [|c cs IH]; intros s; simpl.
  - destruct s; split; congruence.
  - destruct s as [|d s]; [split; discriminate|].
    simpl. rewrite andb_true_iff, Ascii.eqb_eq, IH.
    split; [intros [-> ->]; reflexivity | intros H; inversion H; auto].
Qed.

End StringFacts.

(** ** The matcher on a directory pattern *)

Section DirectoryPattern.

Lemma fnmatch_foo_slash (x : string) : fnmatch x "foo/" = true <-> x = "foo/".
Proof.
  unfold fnmatch.
  change (translate "foo/") with (map Lit ["f"; "o"; "o"; "/"]%char).
  rewrite accepts_literals. reflexivity.
Qed.

Lemma matches_pattern_foo (N D : string) :
  matches_pattern N D "foo/"
  = (startswith N "foo/" || String.eqb N "foo"
     || startswith D "foo/" || String.eqb D "foo"
     || fnmatch N "foo/"
     || existsb (fun partial_path => fnmatch partial_path "foo/")
          (partial_paths (split_slash N))).
Proof.
  transitivity
    (startswith N "foo/" || String.eqb N "foo"
     || startswith D "foo/" || String.eqb D "foo"
     || false
     || fnmatch N "foo/"
     || existsb (fun partial_path => fnmatch partial_path "foo/")
          (partial_paths (split_slash N))); [reflexivity|].
  now rewrite orb_false_r.
Qed.

End DirectoryPattern.

(** C1, as stated, fails: the top-level directory path ["./foo"], which
    [find_files] passes for a directory [foo] of the root, matches ["foo/"]
    though it neither equals ["foo"] nor starts with ["foo/"]. *)
Lemma C1_dot_slash_counterexample :
  ~ (forall P : string,
        forward_slash_normalized P ->
        (matches_any_pattern P ["foo/"] = true
         <-> P = "foo" \/ startswith P "foo/" = true)).
Proof.
  intros H. specialize (H "./foo" eq_refl). destruct H as [H _].
  destruct (H eq_refl); discriminate.
Qed.

(** What the four rules make of the pattern ["foo/"]. *)
Lemma directory_pattern_matches (P : string) :
  matches_any_pattern P ["foo/"] = true
  <-> (exists Q, (Q = replace_backslash P \/ replace_backslash P = "./" ++ Q)
                 /\ (Q = "foo" \/ exists t, Q = "foo/" ++ t))
      \/ (exists pre, replace_backslash P = pre ++ "/foo/").
Proof.
  unfold matches_any_pattern. set (N := replace_backslash P). clearbody N.
  simpl existsb. rewrite orb_false_r, matches_pattern_foo.
  rewrite !orb_true_iff, !startswith_spec, !String.eqb_eq,
    fnmatch_foo_slash, existsb_exists.
  split.
  - intros [[[[[[t Ht] | HN] | [t Ht]] | HD] | HN] | [x [Hin Hx]]].
    + left. exists N. eauto.
    + left. exists N. eauto.
    + left. destruct (startswith N "./") eqn:E.
      * apply startswith_spec in E. destruct E as [u Hu]. subst N.
        simpl in Ht. exists u. split; [now right | right; exists t; exact Ht].
      * exists N. eauto.
    + left. destruct (startswith N "./") eqn:E.
      * apply startswith_spec in E. destruct E as [u Hu]. subst N.
        simpl in HD. exists u. split; [now right | now left].
      * exists N. eauto.
    + left. exists N. split; [now left|]. right. exists "". now rewrite HN.
    + apply fnmatch_foo_slash in Hx. subst x.
      apply partial_paths_split in Hin. destruct Hin as [Hin | [pre Hpre]].
      * left. exists N. split; [now left|]. right. exists "". now rewrite <- Hin.
      * right. exists pre. exact Hpre.
  - intros [[Q [[-> | HN] HQ]] | [pre Hpre]].
    + destruct HQ as [-> | Ht]; [left; left; left; left; now right|].
      do 5 left. exact Ht.
    + assert (E : startswith N "./" = true) by (apply startswith_spec; eauto).
      rewrite E. rewrite HN. simpl drop.
      destruct HQ as [-> | Ht]; [left; left; now right|].
      left; left; left; now right.
    + right. exists "foo/". split; [|now apply fnmatch_foo_slash].
      apply partial_paths_split. right. exists pre. exact Hpre.
Qed.

(** C1 (amended): [matches_any_pattern(P, {"foo/"})] is true exactly when [P]
    (backslashes read as slashes), or [P] without one leading ["./"], equals
    ["foo"] or starts with ["foo/"], or when [P] ends with ["/foo/"]. *)
Theorem C1_directory_pattern_matches (P : string) :
  matches_any_pattern P ["foo/"] = true
  <-> (exists Q, (Q = replace_backslash P \/ replace_backslash P = "./" ++ Q)
                 /\ (Q = "foo" \/ exists t, Q = "foo/" ++ t))
      \/ (exists pre, replace_backslash P = pre ++ "/foo/").
Proof. exact (directory_pattern_matches P). Qed.

(** For the relative paths the walker builds for files (no leading ["./"],
    no trailing slash) the two sides of C1 agree. *)
Corollary directory_pattern_on_file_paths (P : string) :
  forward_slash_normalized P ->
  startswith P "./" = false ->
  endswith P "/" = false ->
  (matches_any_pattern P ["foo/"] = true
   <-> P = "foo" \/ startswith P "foo/" = true).
Proof.
  intros HN Hdot Hend. rewrite directory_pattern_matches, HN.
  rewrite startswith_spec. split.
  - intros [[Q [[-> | HQ] H]] | [pre Hpre]]; [exact H | |].
    + assert (E : startswith P "./" = true) by (apply startswith_spec; eauto).
      congruence.
    + exfalso. subst P. clear -Hend.
      induction pre as [|c pre IH]; [discriminate|].
      simpl in Hend. apply orb_false_iff in Hend. tauto.
  - intros H. left. exists P. tauto.
Qed.

(** ** Nested [node_modules] under a depth-less directory pattern *)

(** C2, at the failing input: with the exclude set [{"node_modules/"}] the
    directory [a/b/node_modules] is not pruned and its file [c.js], which
    matches the include pattern ["*.js"], is returned; the same happens with
    the default configuration's exclude set. *)
Theorem C2_nested_node_modules_collected :
  matches_any_pattern "a/b/node_modules" ["node_modules/"] = false
  /\ matches_any_pattern "a/b/node_modules/c.js" ["node_modules/"] = false
  /\ find_files ["*.js"] ["node_modules/"] 1024 None Samples.nested_node_modules
     = [(Samples.js_file, "a/b/node_modules/c.js")]
  /\ find_files ["*.js"] (Config.common_exclude_patterns Config.DEFAULT_CONFIG)
       1024 None Samples.nested_node_modules
     = [(Samples.js_file, "a/b/node_modules/c.js")].
Proof. repeat split; vm_compute; reflexivity. Qed.

(** Only a [node_modules] directory of the root is pruned by that pattern. *)
Lemma root_node_modules_pruned :
  find_files ["*.js"] ["node_modules/"] 1024 None
    [Dir "node_modules" [File "c.js" Samples.js_file]] = [].
Proof. vm_compute. reflexivity. Qed.

(** ** The tree built from three paths *)

Section TreeOfThree.

Import Core.

Lemma permutation_of_three {A : Type} (a b c : A) (l : list A) :
  Permutation l [a; b; c] ->
  l = [a; b; c] \/ l = [a; c; b] \/ l = [b; a; c]
  \/ l = [b; c; a] \/ l = [c; a; b] \/ l = [c; b; a].
Proof.
  intros H.
  destruct (Permutation_vs_cons_inv H) as [l1 [l2 ->]].
  apply Permutation_sym, Permutation_cons_app_inv in H.
  apply Permutation_length_2_inv in H.
  destruct l1 as [|x [|y [|z l1]]]; simpl in H;
    destruct H as [H | H]; inversion H; subst; simpl; tauto.
Qed.

Lemma _build_tree_structure_value (files : file_map) (self : RepositoryIngestor) :
  fst (_build_tree_structure files self) = build_loop (keys files) [].
Proof. reflexivity. Qed.

End TreeOfThree.

(** C8: whatever the order of the three keys and whatever the contents,
    [_build_tree_structure] returns a tree whose top-level keys are [a.py]
    and [d], whose [d] holds [b.py] and [e], whose [e] holds [c.js] only,
    and where each file maps to the leaf marker. *)
Theorem C8_tree_of_three_paths
    (self : Core.RepositoryIngestor) (files : Core.file_map) :
  Permutation (keys files) ["a.py"; "d/b.py"; "d/e/c.js"] ->
  exists t d e,
    fst (Core._build_tree_structure files self) = Some t
    /\ Permutation (keys t) ["a.py"; "d"]
    /\ dict_get "a.py" t = Some Core.Leaf
    /\ dict_get "d" t = Some (Core.Directory d)
    /\ Permutation (keys d) ["b.py"; "e"]
    /\ dict_get "b.py" d = Some Core.Leaf
    /\ dict_get "e" d = Some (Core.Directory e)
    /\ keys e = ["c.js"]
    /\ dict_get "c.js" e = Some Core.Leaf.
Proof.
  intros H. rewrite _build_tree_structure_value.
  apply permutation_of_three in H.
  destruct H as [-> | [-> | [-> | [-> | [-> | ->]]]]];
    vm_compute; do 3 eexists;
    (repeat split; try reflexivity; try apply Permutation_refl; apply perm_swap).
Qed.

Lemma C8_tree_of_three_paths_witness :
  exists t d e,
    fst (Core._build_tree_structure Samples.three_files Samples.no_tracker) = Some t
    /\ Permutation (keys t) ["a.py"; "d"]
    /\ dict_get "a.py" t = Some Core.Leaf
    /\ dict_get "d" t = Some (Core.Directory d)
    /\ Permutation (keys d) ["b.py"; "e"]
    /\ dict_get "b.py" d = Some Core.Leaf
    /\ dict_get "e" d = Some (Core.Directory e)
    /\ keys e = ["c.js"]
    /\ dict_get "c.js" e = Some Core.Leaf.
Proof.
  apply (C8_tree_of_three_paths Samples.no_tracker Samples.three_files).
  simpl.
  apply (@Permutation_cons_app _ ["a.py"; "d/b.py"] ["a.py"; "d/b.py"] [] "d/e/c.js").
  apply Permutation_refl.
Defined.

(** ** Exclude patterns of a configuration *)

Section ExcludePatterns.

Import Config.

Lemma append_nil_r (s : string) : s ++ "" = s.
Proof. induction s; simpl; congruence. Qed.

Lemma append_assoc (a b c : string) : (a ++ b) ++ c = a ++ b ++ c.
Proof. induction a; simpl; congruence. Qed.

Lemma srev_append (a b : string) : srev (a ++ b) = srev b ++ srev a.
Proof.
  induction a as [|c a IH]; simpl.
  - now rewrite append_nil_r.
  - now rewrite IH, append_assoc.
Qed.

Lemma srev_involutive (s : string) : srev (srev s) = s.
Proof.
  induction s as [|c s IH]; simpl; [reflexivity|].
  now rewrite srev_append, IH.
Qed.

Lemma endswith_spec (s suf : string) :
  endswith s suf = true <-> exists pre, s = pre ++ suf.
Proof.
  induction s as [|c s IH].
  - cbn [endswith]. rewrite orb_false_r, String.eqb_eq. split.
    + intros <-. now exists "".
    + intros [[|d pre] H]; simpl in H; [auto | discriminate].
  - cbn [endswith]. rewrite orb_true_iff, String.eqb_eq, IH. split.
    + intros [<- | [pre ->]]; [now exists "" | now exists (String c pre)].
    + intros [[|d pre] H]; simpl in H; [now left|].
      inversion H; subst. right. now exists pre.
Qed.

(** A suffix test is a prefix test on the reversed strings. *)
Lemma endswith_srev (s suf : string) :
  endswith s suf = String.prefix (srev suf) (srev s).
Proof.
  apply eq_true_iff_eq. rewrite endswith_spec, prefix_spec. split.
  - intros [pre ->]. exists (srev pre). apply srev_append.
  - intros [t Ht]. exists (srev t).
    rewrite <- (srev_involutive s), Ht, srev_append, srev_involutive.
    reflexivity.
Qed.

Lemma prefix_cons (c d : ascii) (p s : string) :
  String.prefix (String c p) (String d s) = Ascii.eqb c d && String.prefix p s.
Proof.
  cbn [String.prefix].
  destruct (ascii_dec c d) as [->|Hcd]; [now rewrite Ascii.eqb_refl|].
  apply Ascii.eqb_neq in Hcd. now rewrite Hcd.
Qed.

Lemma slash_end_no_globstar (s : string) :
  endswith s "/" = true -> endswith s "/**" = false.
Proof.
  rewrite !endswith_srev.
  change (srev "/") with "/". change (srev "/**") with "**/".
  destruct (srev s) as [|c r]; [reflexivity|].
  rewrite !prefix_cons.
  destruct (Ascii.eqb_spec "/" c) as [<-|]; [reflexivity | discriminate].
Qed.

Lemma append_slash_no_globstar (s : string) : endswith (s ++ "/") "/**" = false.
Proof. apply slash_end_no_globstar, endswith_spec. now exists s. Qed.

Lemma drop_keeps_suffix (n : nat) (s suf : string) :
  endswith (drop n s) suf = true -> endswith s suf = true.
Proof.
  revert s; induction n as [|n IH]; intros [|c s]; simpl; auto.
  intros H. apply IH in H. rewrite H. apply orb_true_r.
Qed.

Lemma in_set_In (x : string) (s : list string) :
  Core.in_set x s = true -> In x s.
Proof.
  unfold Core.in_set. rewrite existsb_exists.
  intros [y [Hy E]]. apply String.eqb_eq in E. now subst.
Qed.

Lemma In_set_add (p x : string) (s : list string) :
  In p (set_add x s) -> p = x \/ In p s.
Proof.
  unfold set_add. destruct (existsb (String.eqb x) s); [tauto|].
  rewrite in_app_iff. simpl. intuition.
Qed.

Lemma In_set_map (f : string -> string) (s : list string) (p : string) :
  In p (set_map f s) -> exists q, In q s /\ p = f q.
Proof.
  unfold set_map.
  assert (G : forall acc, In p (fold_left (fun acc q => set_add (f q) acc) s acc)
                          -> In p acc \/ exists q, In q s /\ p = f q).
  { induction s as [|a s IH]; intros acc H; simpl in *; [tauto|].
    destruct (IH _ H) as [Hacc | [q [Hq ->]]]; [|eauto].
    apply In_set_add in Hacc. destruct Hacc as [-> | Hacc]; eauto. }
  intros H. destruct (G [] H) as [[] | H']. exact H'.
Qed.

Lemma normalize_exclude_no_globstar (q : string) :
  endswith (normalize_exclude q) "/**" = false.
Proof.
  unfold normalize_exclude.
  destruct (endswith q "/") eqn:E1; [now apply slash_end_no_globstar|].
  destruct (endswith q "/**") eqn:E2; [apply append_slash_no_globstar|].
  destruct (contains "**/" q && negb (endswith q "*")); [|exact E2].
  destruct (negb _); [apply append_slash_no_globstar | exact E2].
Qed.

Lemma append_star_no_globstar (s : string) :
  endswith s "*" = false -> endswith (s ++ "*") "/**" = false.
Proof.
  rewrite !endswith_srev, srev_append.
  change (srev "*") with "*". change (srev "/**") with "**/".
  change ("*" ++ srev s) with (String "*" (srev s)).
  rewrite prefix_cons. cbn [Ascii.eqb Bool.eqb andb].
  destruct (srev s) as [|c r]; [reflexivity|].
  rewrite !prefix_cons.
  destruct (Ascii.eqb "*" c); [destruct r; discriminate | reflexivity].
Qed.

Lemma append_globstar_star_no_globstar (s : string) :
  endswith (s ++ "**/*") "/**" = false.
Proof. rewrite endswith_srev, srev_append. reflexivity. Qed.

End ExcludePatterns.

(** C9, as stated, fails: [add_exclude_pattern("build/**")] on the default
    configuration leaves ["build/**"] in [common_exclude_patterns]. *)
Lemma C9_add_exclude_pattern_counterexample :
  ~ (forall p : string,
        In p (Config.common_exclude_patterns
                (Config.add_exclude_pattern Samples.is_no_directory
                   Config.DEFAULT_CONFIG "build/**")) ->
        endswith p "/**" = false).
Proof.
  intros H. specialize (H "build/**").
  assert (Hin : In "build/**"
                  (Config.common_exclude_patterns
                     (Config.add_exclude_pattern Samples.is_no_directory
                        Config.DEFAULT_CONFIG "build/**"))).
  { apply in_set_In. vm_compute. reflexivity. }
  specialize (H Hin). discriminate H.
Qed.

(** C9 (amended): after [Config.__post_init__] no pattern of
    [common_exclude_patterns] ends with ["/**"]; [add_exclude_pattern] keeps
    that property when its argument, backslashes replaced, does not itself
    end with ["/**"]. *)
Theorem C9_exclude_patterns_canonical :
  (forall (fields : Config.Config) (p : string),
      In p (Config.common_exclude_patterns (Config.__post_init__ fields)) ->
      endswith p "/**" = false)
  /\ (forall (isdir : string -> bool) (self : Config.Config) (pattern : string),
         (forall q, In q (Config.common_exclude_patterns self) ->
                    endswith q "/**" = false) ->
         endswith (replace_backslash pattern) "/**" = false ->
         forall p,
           In p (Config.common_exclude_patterns
                   (Config.add_exclude_pattern isdir self pattern)) ->
           endswith p "/**" = false).
Proof.
  split.
  - intros fields p H. simpl in H.
    apply In_set_map in H. destruct H as [q [_ ->]].
    apply normalize_exclude_no_globstar.
  - intros isdir self pattern Hself Hpat p. unfold Config.add_exclude_pattern.
    set (N := replace_backslash pattern) in *.
    set (pat := if isdir N && negb (endswith N "/") then N ++ "/" else N).
    assert (Hp : endswith pat "/**" = false).
    { unfold pat. destruct (isdir N && negb (endswith N "/"));
        [apply append_slash_no_globstar | exact Hpat]. }
    simpl Config.common_exclude_patterns.
    set (e1 := Config.set_add pat (Config.common_exclude_patterns self)).
    assert (H1 : forall q, In q e1 -> endswith q "/**" = false).
    { intros q Hq. apply In_set_add in Hq. destruct Hq as [-> | Hq]; auto. }
    set (e2 := if startswith pat "." then Config.set_add (drop 1 pat) e1 else e1).
    assert (H2 : forall q, In q e2 -> endswith q "/**" = false).
    { intros q. unfold e2. destruct (startswith pat "."); [|apply H1].
      intros Hq. apply In_set_add in Hq. destruct Hq as [-> | Hq]; [|auto].
      destruct (endswith (drop 1 pat) "/**") eqn:E; [|reflexivity].
      apply drop_keeps_suffix in E. congruence. }
    destruct (endswith pat "/") eqn:Eslash; simpl; [apply H2|].
    destruct (endswith pat "*") eqn:Estar; simpl; [apply H2|].
    destruct (isdir pat); intros Hq; apply In_set_add in Hq;
      destruct Hq as [-> | Hq]; auto.
    + apply append_globstar_star_no_globstar.
    + now apply append_star_no_globstar.
Qed.

Lemma C9_exclude_patterns_canonical_witness :
  In "build/"
    (Config.common_exclude_patterns (Config.__post_init__ Samples.globstar_fields))
  /\ endswith "build/" "/**" = false.
Proof.
  assert (Hin : In "build/"
                  (Config.common_exclude_patterns
                     (Config.__post_init__ Samples.globstar_fields)))
    by (apply in_set_In; vm_compute; reflexivity).
  split; [exact Hin|].
  exact (proj1 C9_exclude_patterns_canonical Samples.globstar_fields "build/" Hin).
Defined.

(** ** Dictionaries *)

Section DictFacts.

Context {V : Type}.
Implicit Types (k : string) (v : V) (d : list (string * V)).

Lemma dict_get_set_same k v d : dict_get k (dict_set k v d) = Some v.
Proof.
  induction d as [|[k' v'] d IH]; simpl.
  - now rewrite String.eqb_refl.
  - destruct (String.eqb k k') eqn:E; simpl; rewrite ?String.eqb_refl, ?E; auto.
Qed.

Lemma dict_get_set_other k k' v d :
  k <> k' -> dict_get k (dict_set k' v d) = dict_get k d.
Proof.
  intros Hne. apply String.eqb_neq in Hne.
  induction d as [|[k0 v0] d IH]; simpl.
  - now rewrite Hne.
  - destruct (String.eqb k' k0) eqn:E; simpl.
    + apply String.eqb_eq in E. subst k0. now rewrite Hne.
    + now rewrite IH.
Qed.

Lemma keys_dict_set k k' v d :
  In k (keys (dict_set k' v d)) <-> k = k' \/ In k (keys d).
Proof.
  unfold keys. induction d as [|[k0 v0] d IH]; simpl.
  - intuition.
  - destruct (String.eqb k' k0) eqn:E; simpl.
    + apply String.eqb_eq in E. subst k0. intuition.
    + rewrite IH. intuition.
Qed.

Lemma dict_get_keys k d : In k (keys d) <-> dict_get k d <> None.
Proof.
  unfold keys. induction d as [|[k0 v0] d IH]; simpl.
  - intuition.
  - destruct (String.eqb k k0) eqn:E.
    + apply String.eqb_eq in E. subst. intuition discriminate.
    + apply String.eqb_neq in E. rewrite <- IH. intuition.
Qed.

Lemma dict_set_not_nil k v d : dict_set k v d <> [].
Proof. destruct d as [|[k0 v0] d]; simpl; [|destruct (String.eqb k k0)]; discriminate. Qed.

Lemma set_all_other k entries d :
  ~ In k (keys entries) -> dict_get k (set_all entries d) = dict_get k d.
Proof.
  revert d; induction entries as [|[k0 v0] es IH]; intros d Hk; simpl in *; auto.
  unfold set_all in *. simpl. rewrite IH by tauto.
  apply dict_get_set_other. intuition.
Qed.

Lemma set_all_fresh entries d k :
  NoDup (keys entries) -> In k (keys entries) ->
  dict_get k (set_all entries d) = dict_get k entries.
Proof.
  revert d; induction entries as [|[k0 v0] es IH]; intros d Hnd Hk; simpl in *.
  - tauto.
  - inversion Hnd as [|? ? Hnot Hnd']; subst.
    unfold set_all in *. simpl.
    destruct (String.eqb k k0) eqn:E.
    + apply String.eqb_eq in E. subst k0.
      fold (set_all es (dict_set k v0 d)).
      rewrite set_all_other by exact Hnot. apply dict_get_set_same.
    + apply String.eqb_neq in E. apply IH; [exact Hnd'|]. intuition congruence.
Qed.

End DictFacts.

Lemma fold_left_ext_in {A B : Type} (f g : A -> B -> A) (l : list B) (a : A) :
  (forall x b, In b l -> f x b = g x b) -> fold_left f l a = fold_left g l a.
Proof.
  revert a; induction l as [|b l IH]; intros a Hfg; simpl; [reflexivity|].
  rewrite Hfg by (now left). apply IH. intros; apply Hfg; now right.
Qed.

Lemma existsb_ext_in {A : Type} (f g : A -> bool) (l : list A) :
  (forall x, In x l -> f x = g x) -> existsb f l = existsb g l.
Proof.
  induction l as [|a l IH]; intros Hfg; simpl; [reflexivity|].
  rewrite Hfg by (now left). f_equal. apply IH. intros; apply Hfg; now right.
Qed.

Lemma flat_map_ext_in {A B : Type} (f g : A -> list B) (l : list A) :
  (forall x, In x l -> f x = g x) -> flat_map f l = flat_map g l.
Proof.
  induction l as [|a l IH]; intros Hfg; simpl; [reflexivity|].
  rewrite Hfg by (now left). f_equal. apply IH. intros; apply Hfg; now right.
Qed.

(** ** The methods and the values they compute *)

Section Methods.

Import Core.
Context `{Collaborators}.

Lemma same_core_refl self : same_core self self.
Proof. split; reflexivity. Qed.

Lemma same_core_trans s1 s2 s3 : same_core s1 s2 -> same_core s2 s3 -> same_core s1 s3.
Proof. unfold same_core. intros [? ?] [? ?]. split; congruence. Qed.

Lemma grows_refl self : grows self self.
Proof.
  unfold grows. destruct (progress self) as [calls|]; [|reflexivity].
  exists []. now rewrite app_nil_r.
Qed.

Lemma grows_trans s1 s2 s3 : grows s1 s2 -> grows s2 s3 -> grows s1 s3.
Proof.
  unfold grows. destruct (progress s1) as [c1|].
  - intros [m1 E1]. rewrite E1. intros [m2 E2]. exists (m1 ++ m2)%list.
    now rewrite E2, app_assoc.
  - intros E1. now rewrite E1.
Qed.

Lemma grows_logged call s1 s2 : grows s1 s2 -> logged call s1 -> logged call s2.
Proof.
  unfold grows, logged. destruct (progress s1) as [c1|]; [|tauto].
  intros [m E]. rewrite E. intros Hin. apply in_or_app. now left.
Qed.

Lemma report_returns call self : returns (report call) self tt.
Proof.
  unfold returns, report. eexists; split; [reflexivity|].
  unfold same_core, grows.
  destruct (progress self) as [calls|] eqn:E; simpl; rewrite ?E; eauto.
Qed.

Lemma report_logged call self :
  progress self <> None -> logged call (snd (report call self)).
Proof.
  unfold report, logged. destruct (progress self) as [calls|]; [|congruence].
  intros _. simpl. apply in_or_app. right. now left.
Qed.

Lemma ret_returns {A : Type} (v : A) self : returns (ret v) self v.
Proof.
  exists self. split; [reflexivity|].
  split; [apply same_core_refl | apply grows_refl].
Qed.

Lemma bind_returns {A B : Type} (c : M A) (k : A -> M B) self (a : A) (b : B) :
  returns c self a ->
  (forall s1, same_core self s1 -> returns (k a) s1 b) ->
  returns (bind c k) self b.
Proof.
  intros (s1 & E1 & C1 & G1) Hk.
  destruct (Hk s1 C1) as (s2 & E2 & C2 & G2).
  exists s2. unfold bind. rewrite E1, E2.
  split; [reflexivity|]. split; [eapply same_core_trans | eapply grows_trans]; eauto.
Qed.

Lemma get_self_returns self : returns get_self self self.
Proof. apply ret_returns. Qed.

Lemma collect_loop_returns languages file_paths files self :
  returns (collect_loop languages file_paths files) self
    (kept_files (config self) (handlers self) languages file_paths files).
Proof.
  revert files self; induction file_paths as [|[file_path relative_path] rest IH];
    intros files self; cbn [collect_loop kept_files fold_left].
  - apply ret_returns.
  - eapply bind_returns; [apply get_self_returns|]. intros s1 C1.
    destruct (should_include (config self) (handlers self) languages relative_path).
    + eapply bind_returns; [apply report_returns|]. intros s2 C2.
      pose proof (same_core_trans _ _ _ C1 C2) as C.
      specialize (IH (dict_set relative_path
                        (if Config.remove_comments (config self)
                         then remove_comments_from_content relative_path
                                (get_file_content file_path)
                         else get_file_content file_path) files) s2).
      destruct C as [Ec Eh]. rewrite Ec, Eh in IH. exact IH.
    + specialize (IH files s1). destruct C1 as [Ec Eh]. rewrite Ec, Eh in IH. exact IH.
Qed.

Lemma _collect_files_returns repo languages self :
  returns (_collect_files repo languages) self
    (kept_files (config self) (handlers self) languages
       (found_files (config self) (handlers self) languages repo) []).
Proof.
  unfold _collect_files.
  eapply bind_returns; [apply get_self_returns|]. intros s1 C1.
  eapply bind_returns; [apply report_returns|]. intros s2 C2.
  eapply bind_returns; [apply report_returns|]. intros s3 C3.
  eapply bind_returns; [apply report_returns|]. intros s4 C4.
  pose proof (collect_loop_returns languages
                (found_files (config self) (handlers self) languages repo) [] s4) as R.
  destruct (same_core_trans _ _ _ (same_core_trans _ _ _ (same_core_trans _ _ _ C1 C2) C3) C4)
    as [Ec Eh].
  rewrite Ec, Eh in R. exact R.
Qed.

Lemma filter_languages_returns languages_filter all_languages self :
  returns (filter_languages languages_filter all_languages) self
    (chosen_languages languages_filter all_languages).
Proof.
  unfold filter_languages, chosen_languages.
  destruct languages_filter as [[|w ws]|]; try apply ret_returns.
  destruct all_languages as [|l ls]; [apply ret_returns|].
  eapply bind_returns; [|intros; apply ret_returns].
  destruct (matching_languages (w :: ws) (l :: ls)); apply report_returns.
Qed.

Lemma _analyze_dependencies_returns files languages self :
  returns (_analyze_dependencies files languages) self
    (merged_dependencies (handlers self) files languages).
Proof.
  unfold _analyze_dependencies.
  eapply bind_returns; [apply report_returns|]. intros s1 [_ Eh].
  eapply bind_returns; [apply get_self_returns|]. intros s2 _.
  rewrite Eh. apply ret_returns.
Qed.

Lemma _extract_metadata_returns now files languages self :
  returns (_extract_metadata now files languages) self
    [("timestamp", PyFloat now);
     ("languages", PyList (map PyStr languages));
     ("file_count", PyInt (Z.of_nat (List.length files)));
     ("language_metadata", PyDict (language_metadata (handlers self) files languages))].
Proof.
  unfold _extract_metadata.
  eapply bind_returns; [apply report_returns|]. intros s1 [_ Eh].
  eapply bind_returns; [apply get_self_returns|]. intros s2 _.
  rewrite Eh. apply ret_returns.
Qed.

Lemma _build_tree_structure_returns files self :
  returns (_build_tree_structure files) self (build_loop (keys files) []).
Proof.
  unfold _build_tree_structure.
  eapply bind_returns; [apply report_returns|]. intros; apply ret_returns.
Qed.

Lemma _analyze_tokens_returns files metadata0 tree0 dependencies self :
  returns (_analyze_tokens files metadata0 tree0 dependencies) self
    (estimate_repository_tokens
       {| rd_files := files; rd_metadata := metadata0;
          rd_tree_structure := tree0; rd_file_dependencies := dependencies |}).
Proof.
  unfold _analyze_tokens.
  eapply bind_returns; [apply report_returns|]. intros; apply ret_returns.
Qed.

Lemma _analyze_functions_returns files self :
  returns (_analyze_functions files) self (function_analysis files).
Proof.
  unfold _analyze_functions.
  eapply bind_returns; [apply report_returns|]. intros; apply ret_returns.
Qed.

Lemma bind_raise_returns {A B : Type} (c : M (option A)) (k : A -> M (option B))
    self (r : option A) (b : option B) :
  returns c self r ->
  (forall a s1, r = Some a -> same_core self s1 -> returns (k a) s1 b) ->
  (r = None -> b = None) ->
  returns (bind_raise c k) self b.
Proof.
  intros (s1 & E1 & C1 & G1) Hk Hnone. unfold returns, bind_raise. rewrite E1.
  destruct r as [a|].
  - destruct (Hk a s1 eq_refl C1) as (s2 & E2 & C2 & G2).
    exists s2. rewrite E2. split; [reflexivity|].
    split; [eapply same_core_trans | eapply grows_trans]; eauto.
  - exists s1. rewrite (Hnone eq_refl). auto.
Qed.

(** *** Detection *)

Lemma detect_loop_spec table repo self :
  exists self',
    detect_loop table repo self = (keys (detected (config self) table repo), self')
    /\ config self' = config self
    /\ handlers self' = set_all (detected (config self) table repo) (handlers self)
    /\ progress self' = progress self.
Proof.
  revert self; induction table as [|[lang_name cls] rest IH]; intros self.
  - exists self. repeat split; reflexivity.
  - cbn [detect_loop detected flat_map]. unfold bind, get_self.
    destruct (detect_language
                (cls (dict_get lang_name (Config.languages (config self)))) repo).
    + unfold set_handler.
      destruct (IH {| config := config self;
                      handlers := dict_set lang_name
                                    (cls (dict_get lang_name
                                            (Config.languages (config self))))
                                    (handlers self);
                      progress := progress self |})
        as (s1 & E1 & Ec & Eh & Ep).
      simpl in E1, Ec, Eh, Ep. rewrite E1. exists s1.
      repeat split; auto.
    + destruct (IH self) as (s1 & E1 & Ec & Eh & Ep).
      rewrite E1. exists s1. repeat split; auto.
Qed.

Lemma detected_keys_in cfg table repo lang :
  In lang (keys (detected cfg table repo)) -> In lang (keys table).
Proof.
  unfold keys. induction table as [|[n cls] rest IH]; simpl; [tauto|].
  destruct (detect_language _ repo); simpl; intuition.
Qed.

Lemma detected_keys_nodup cfg table repo :
  NoDup (keys table) -> NoDup (keys (detected cfg table repo)).
Proof.
  induction table as [|[n cls] rest IH]; simpl; intros Hnd; [constructor|].
  inversion Hnd as [|? ? Hnot Hnd']; subst.
  destruct (detect_language _ repo); simpl; [|auto].
  constructor; [|auto]. intros Hin. apply Hnot.
  eapply detected_keys_in. exact Hin.
Qed.

Lemma LANGUAGE_HANDLERS_nodup : NoDup (keys LANGUAGE_HANDLERS).
Proof.
  unfold LANGUAGE_HANDLERS, keys. simpl.
  repeat constructor; simpl; intuition discriminate.
Qed.

(** After detection the handlers of the detected languages are the ones
    just instantiated, whatever [self.handlers] held before. *)
Lemma detected_agree cfg repo (hs : list (string * Handler)) :
  agree_on (detected_languages cfg repo)
    (set_all (detected cfg LANGUAGE_HANDLERS repo) hs)
    (detected cfg LANGUAGE_HANDLERS repo).
Proof.
  intros lang Hin. apply set_all_fresh; [|exact Hin].
  apply detected_keys_nodup, LANGUAGE_HANDLERS_nodup.
Qed.

Lemma _detect_languages_spec repo self :
  exists self',
    _detect_languages repo self = (detected_languages (config self) repo, self')
    /\ config self' = config self
    /\ agree_on (detected_languages (config self) repo) (handlers self')
         (detected (config self) LANGUAGE_HANDLERS repo)
    /\ grows self self'.
Proof.
  unfold _detect_languages, bind.
  destruct (report_returns (update main_task (Some "Detecting languages...") (Some 5) None)
              self) as (s1 & E1 & [Ec1 Eh1] & G1).
  rewrite E1.
  destruct (detect_loop_spec LANGUAGE_HANDLERS repo s1) as (s2 & E2 & Ec2 & Eh2 & Ep2).
  rewrite Ec1 in *. rewrite E2. exists s2. split; [reflexivity|].
  split; [congruence|]. split.
  - rewrite Eh2. apply detected_agree.
  - eapply grows_trans; [exact G1|]. unfold grows. rewrite Ep2.
    destruct (progress s1); [exists []; now rewrite app_nil_r | reflexivity].
Qed.

(** *** Only the handlers of the languages at hand are read *)

Lemma walk_patterns_ext languages hs hs' common of_handler :
  agree_on languages hs hs' ->
  walk_patterns hs languages common of_handler
  = walk_patterns hs' languages common of_handler.
Proof.
  intros Hag. unfold walk_patterns. f_equal.
  apply flat_map_ext_in. intros lang Hin. now rewrite (Hag lang Hin).
Qed.

Lemma found_files_ext cfg languages hs hs' repo :
  agree_on languages hs hs' ->
  found_files cfg hs languages repo = found_files cfg hs' languages repo.
Proof.
  intros Hag. unfold found_files.
  now rewrite !(walk_patterns_ext languages hs hs').
Qed.

Lemma should_include_ext cfg languages hs hs' relative_path :
  agree_on languages hs hs' ->
  should_include cfg hs languages relative_path
  = should_include cfg hs' languages relative_path.
Proof.
  intros Hag. unfold should_include. destruct languages as [|l ls]; [reflexivity|].
  f_equal. apply existsb_ext_in. intros lang Hin. now rewrite (Hag lang Hin).
Qed.

Lemma kept_files_ext cfg languages hs hs' file_paths files :
  agree_on languages hs hs' ->
  kept_files cfg hs languages file_paths files
  = kept_files cfg hs' languages file_paths files.
Proof.
  intros Hag. unfold kept_files. apply fold_left_ext_in.
  intros acc [file_path relative_path] _.
  now rewrite (should_include_ext cfg languages hs hs').
Qed.

Lemma merged_dependencies_ext all_languages languages hs hs' files :
  agree_on all_languages hs hs' -> incl languages all_languages ->
  merged_dependencies hs files languages = merged_dependencies hs' files languages.
Proof.
  intros Hag Hincl. unfold merged_dependencies. apply fold_left_ext_in.
  intros acc lang Hin. now rewrite (Hag lang (Hincl lang Hin)).
Qed.

Lemma language_metadata_ext all_languages languages hs hs' files :
  agree_on all_languages hs hs' -> incl languages all_languages ->
  language_metadata hs files languages = language_metadata hs' files languages.
Proof.
  intros Hag Hincl. unfold language_metadata. apply fold_left_ext_in.
  intros acc lang Hin. now rewrite (Hag lang (Hincl lang Hin)).
Qed.

Lemma matching_languages_incl wanted all_languages :
  incl (matching_languages wanted all_languages) all_languages.
Proof. intros lang Hin. unfold matching_languages in Hin. now apply filter_In in Hin. Qed.

Lemma chosen_languages_incl languages_filter all_languages :
  incl (chosen_languages languages_filter all_languages) all_languages.
Proof.
  unfold chosen_languages.
  destruct languages_filter as [[|w ws]|]; try apply incl_refl.
  destruct all_languages; [apply incl_refl | apply matching_languages_incl].
Qed.

(** *** The whole run *)

(** The states a run goes through: [s1] after detection, [s2] after the
    language filter, [self'] at the end. *)
Lemma ingest_steps repo_path repo now token_estimate_only languages_filter self :
  exists s1 s2 self',
    grows self s1
    /\ filter_languages languages_filter (detected_languages (config self) repo) s1
       = (chosen_languages languages_filter (detected_languages (config self) repo), s2)
    /\ grows s2 self'
    /\ ingest repo_path repo now token_estimate_only languages_filter self
       = (outcome (config self) repo_path repo now token_estimate_only languages_filter,
          self')
    /\ config self' = config self
    /\ grows self self'.
Proof.
  destruct (report_returns (add_task "Analyzing repository..." 100) self)
    as (s0 & E0 & [Ec0 Eh0] & G0).
  destruct (_detect_languages_spec repo s0) as (s1 & E1 & Ec1 & Ag1 & G1).
  destruct (filter_languages_returns languages_filter
              (detected_languages (config s0) repo) s1)
    as (s2 & E2 & [Ec2 Eh2] & G2).
  rewrite Ec0 in *.
  exists s1, s2.
  cut (exists self',
          ingest repo_path repo now token_estimate_only languages_filter self
          = (outcome (config self) repo_path repo now token_estimate_only
               languages_filter, self')
          /\ same_core s2 self' /\ grows s2 self').
  { intros (s3 & E3 & [Ec3 Eh3] & G3). exists s3.
    split; [eapply grows_trans; eauto|]. split; [exact E2|]. split; [exact G3|].
    split; [exact E3|]. split; [congruence|].
    eapply grows_trans; [exact G0|]. eapply grows_trans; [exact G1|].
    eapply grows_trans; [exact G2 | exact G3]. }
  unfold ingest.
  unfold bind at 1. rewrite E0.
  unfold bind at 1. rewrite E1.
  unfold bind at 1. rewrite E2.
  assert (Hcfg2 : config s2 = config self) by congruence.
  assert (Ag2 : agree_on (detected_languages (config self) repo) (handlers s2)
                  (detected (config self) LANGUAGE_HANDLERS repo))
    by (rewrite Eh2; exact Ag1).
  pose proof (chosen_languages_incl languages_filter
                (detected_languages (config self) repo)) as Hlangs.
  match goal with
  | |- exists self', ?c s2 = _ /\ _ /\ _ =>
      assert (R : returns c s2
                    (outcome (config self) repo_path repo now token_estimate_only
                       languages_filter))
  end.
  { eapply bind_returns; [apply _collect_files_returns|]. intros s3 C3.
    eapply bind_returns; [apply get_self_returns|]. intros s4 C4.
    cbv beta. rewrite Hcfg2.
    rewrite (found_files_ext _ _ _ _ repo Ag2).
    rewrite (kept_files_ext _ _ _ _ _ _ Ag2).
    replace (config s3) with (config self) by (destruct C3; congruence).
    assert (Hh4 : handlers s4 = handlers s2) by (destruct C3, C4; congruence).
    unfold outcome, selected_files, collected_files. cbv zeta.
    fold (detected_languages (config self) repo).
    destruct token_estimate_only.
    - eapply bind_returns; [apply report_returns|]. intros s5 C5.
      eapply bind_raise_returns; [apply _build_tree_structure_returns | |].
      + intros t s6 Et C6. rewrite Et.
        eapply bind_returns; [apply _analyze_tokens_returns|]. intros s7 C7.
        eapply bind_returns; [apply report_returns|]. intros s8 C8.
        apply ret_returns.
      + intros En. now rewrite En.
    - eapply bind_returns; [apply _analyze_dependencies_returns|]. intros s5 C5.
      eapply bind_returns; [apply _extract_metadata_returns|]. intros s6 C6.
      assert (Hh5 : handlers s5 = handlers s2) by (destruct C5; congruence).
      rewrite Hh4, Hh5.
      rewrite (merged_dependencies_ext _ _ _ _ _ Ag2 Hlangs).
      rewrite (language_metadata_ext _ _ _ _ _ Ag2 Hlangs).
      eapply bind_raise_returns; [apply _build_tree_structure_returns | |].
      + intros t s7 Et C7. rewrite Et.
        eapply bind_returns; [apply _analyze_tokens_returns|]. intros s8 C8.
        eapply bind_raise_returns; [apply _analyze_functions_returns | |].
        * intros fi s9 Ef C9. rewrite Ef.
          eapply bind_returns; [apply report_returns|]. intros s10 C10.
          apply ret_returns.
        * intros En. now rewrite En.
      + intros En. now rewrite En. }
  exact R.
Qed.

(** [ingest] returns [outcome], whatever handlers and tracker calls
    [self] held before. *)
Lemma ingest_value repo_path repo now token_estimate_only languages_filter self :
  fst (ingest repo_path repo now token_estimate_only languages_filter self)
  = outcome (config self) repo_path repo now token_estimate_only languages_filter.
Proof.
  destruct (ingest_steps repo_path repo now token_estimate_only languages_filter self)
    as (s1 & s2 & s3 & _ & _ & _ & E & _).
  now rewrite E.
Qed.

(** Inside [ingest], [_collect_files(repo_path, all_languages)] returns
    [collected_files]. *)
Lemma _collect_files_value repo self :
  let '(all_languages, s1) := _detect_languages repo self in
  all_languages = detected_languages (config self) repo
  /\ fst (_collect_files repo all_languages s1) = collected_files (config self) repo.
Proof.
  destruct (_detect_languages_spec repo self) as (s1 & E1 & Ec1 & Ag1 & G1).
  rewrite E1. split; [reflexivity|].
  destruct (_collect_files_returns repo (detected_languages (config self) repo) s1)
    as (s2 & E2 & _).
  rewrite E2. cbn [fst]. rewrite Ec1.
  rewrite (found_files_ext _ _ _ _ repo Ag1).
  rewrite (kept_files_ext _ _ _ _ _ _ Ag1).
  reflexivity.
Qed.

End Methods.

(** ** The walk of a well-formed repository *)

Section Walk.

Lemma entry_induction (P : entry -> Prop) :
  (forall name info, P (File name info)) ->
  (forall name children, Forall P children -> P (Dir name children)) ->
  forall e, P e.
Proof.
  intros Hfile Hdir. fix IH 1. intros [name info | name children].
  - apply Hfile.
  - apply Hdir. induction children as [|c cs IHcs]; constructor; [apply IH | exact IHcs].
Qed.

Variables include_patterns exclude_patterns : list string.
Variable max_size_kb : Z.
Variable max_depth : option nat.

Local Abbreviation selected := (file_selected include_patterns exclude_patterns max_size_kb).

Lemma visit_file_at comps children (w : entry -> list (file_info * string)) info rel :
  Forall (fun e => walks_into selected comps e (w e)) children ->
  In (info, rel)
    (visit include_patterns exclude_patterns max_size_kb max_depth comps children w) ->
  exists parts,
    file_at children parts /\ rel = join_slash (comps ++ parts)%list
    /\ selected rel info = true.
Proof.
  intros Hall Hin. unfold visit in Hin.
  apply in_app_or in Hin. destruct Hin as [Hin | Hin];
    apply in_flat_map in Hin; destruct Hin as [e [He Hin]].
  - destruct e as [filename file_path | dirname sub]; [|destruct Hin].
    destruct (selected (relative_to_root comps filename) file_path) eqn:Esel;
      [|destruct Hin].
    destruct Hin as [Hin | []]. inversion Hin; subst.
    exists [filename]. split; [eapply file_here; eauto|]. split; [reflexivity | exact Esel].
  - destruct e as [filename file_path | dirname sub]; [destruct Hin|].
    destruct (depth_reached _ _); [destruct Hin|].
    destruct (subdir_excluded _ _ _); [destruct Hin|].
    rewrite Forall_forall in Hall.
    destruct (Hall _ He info rel Hin) as (name & ch & parts & Heq & Hat & -> & Hsel).
    inversion Heq; subst.
    exists (name :: parts). split; [eapply file_below; eauto|].
    rewrite <- app_assoc in Hsel |- *. split; [reflexivity | exact Hsel].
Qed.

Lemma walk_file_at e :
  forall comps,
    walks_into selected comps e
      (walk include_patterns exclude_patterns max_size_kb max_depth comps e).
Proof.
  induction e as [name info | name children IH] using entry_induction;
    intros comps info' rel Hin.
  - destruct Hin.
  - cbn [walk] in Hin.
    apply (visit_file_at (comps ++ [name])%list children) in Hin.
    + destruct Hin as (parts & Hat & -> & Hsel). eauto 8.
    + rewrite Forall_forall in *. intros e He. apply (IH e He).
Qed.

Lemma find_files_found root_dir info rel :
  In (info, rel) (find_files include_patterns exclude_patterns max_size_kb max_depth
                    root_dir) ->
  exists parts,
    file_at root_dir parts /\ rel = join_slash parts /\ selected rel info = true.
Proof.
  intros Hin. unfold find_files in Hin.
  apply (visit_file_at [] root_dir) in Hin; [exact Hin|].
  rewrite Forall_forall. intros e _. apply walk_file_at.
Qed.

Lemma find_files_file_at root_dir info rel :
  In (info, rel) (find_files include_patterns exclude_patterns max_size_kb max_depth
                    root_dir) ->
  exists parts, file_at root_dir parts /\ rel = join_slash parts.
Proof.
  intros Hin. apply find_files_found in Hin.
  destruct Hin as (parts & Hat & Hrel & _). eauto.
Qed.

(** Exclusion comes first: a returned file matches no exclude pattern,
    matches an include pattern, is within the size limit and is text. *)
Lemma find_files_selected root_dir info rel :
  In (info, rel) (find_files include_patterns exclude_patterns max_size_kb max_depth
                    root_dir) ->
  matches_any_pattern rel exclude_patterns = false
  /\ (st_size info <= max_size_kb * 1024)%Z
  /\ matches_any_pattern rel include_patterns = true
  /\ is_binary_file info = false.
Proof.
  intros Hin. apply find_files_found in Hin. destruct Hin as (_ & _ & _ & Hsel).
  unfold file_selected in Hsel.
  destruct (matches_any_pattern rel exclude_patterns); [discriminate|].
  destruct (Z.gtb_spec (st_size info) (max_size_kb * 1024)); [discriminate|].
  apply andb_true_iff in Hsel. destruct Hsel as [Hinc Hbin].
  apply negb_true_iff in Hbin. auto.
Qed.

End Walk.

Section WellFormed.

Lemma distinct_names {A : Type} (f : A -> string) (l : list A) (x y : A) :
  distinct (map f l) = true -> In x l -> In y l -> f x = f y -> x = y.
Proof.
  induction l as [|a l IH]; simpl; [tauto|].
  rewrite andb_true_iff, negb_true_iff. intros [Hnot Hd] Hx Hy Hxy.
  assert (Hfresh : forall z, In z l -> f a <> f z).
  { intros z Hz E.
    assert (existsb (String.eqb (f a)) (map f l) = true); [|congruence].
    apply existsb_exists. exists (f z). split; [now apply in_map|].
    now apply String.eqb_eq. }
  destruct Hx as [-> | Hx], Hy as [-> | Hy]; auto.
  - exfalso. eapply Hfresh; eauto.
  - exfalso. eapply Hfresh; eauto.
Qed.

Lemma wf_repo_child l name children :
  wf_repo l = true -> In (Dir name children) l -> wf_repo children = true.
Proof.
  unfold wf_repo. rewrite andb_true_iff, forallb_forall.
  intros [_ Hall] Hin. specialize (Hall _ Hin). simpl in Hall.
  rewrite !andb_true_iff in Hall. rewrite andb_true_iff. tauto.
Qed.

Lemma wf_repo_name l e :
  wf_repo l = true -> In e l -> slash_free (entry_name e) = true.
Proof.
  unfold wf_repo. rewrite andb_true_iff, forallb_forall.
  intros [_ Hall] Hin. specialize (Hall _ Hin).
  destruct e; simpl in *; [exact Hall|].
  rewrite !andb_true_iff in Hall. tauto.
Qed.

Lemma file_at_not_nil l parts : file_at l parts -> parts <> [].
Proof. intros []; discriminate. Qed.

Lemma file_at_slash_free l parts :
  wf_repo l = true -> file_at l parts -> Forall (fun p => slash_free p = true) parts.
Proof.
  intros Hwf Hat. induction Hat as [l name info Hin | l name children rest Hin Hat IH].
  - constructor; [|constructor]. apply (wf_repo_name l _ Hwf Hin).
  - constructor; [apply (wf_repo_name l _ Hwf Hin)|].
    apply IH. eapply wf_repo_child; eauto.
Qed.

(** No file path is a proper prefix of another. *)
Lemma file_at_prefix_free l p q :
  wf_repo l = true -> file_at l p -> file_at l (p ++ q)%list -> q = [].
Proof.
  intros Hwf Hat. revert q.
  induction Hat as [l name info Hin | l name children rest Hin Hat IH]; intros q Hq.
  - simpl in Hq. inversion Hq as [? ? ? ? | ? ? ch ? Hin' Hat']; subst; [reflexivity|].
    exfalso.
    assert (E : File name info = Dir name ch); [|discriminate].
    apply (distinct_names entry_name l); auto.
    unfold wf_repo in Hwf. apply andb_true_iff in Hwf. tauto.
  - simpl in Hq. inversion Hq as [? ? ? Hin' Hnil | ? ? ch ? Hin' Hat']; subst.
    + exfalso. apply file_at_not_nil in Hat.
      destruct rest; [congruence | discriminate].
    + assert (E : Dir name children = Dir name ch).
      { apply (distinct_names entry_name l); auto.
        unfold wf_repo in Hwf. apply andb_true_iff in Hwf. tauto. }
      inversion E; subst ch.
      apply IH; [|exact Hat']. eapply wf_repo_child; eauto.
Qed.

Lemma split_slash_free (s : string) :
  slash_free s = true -> split_slash s = [s].
Proof.
  unfold slash_free. rewrite negb_true_iff.
  induction s as [|c s IH]; [reflexivity|].
  cbn [contains_char]. rewrite orb_false_iff. intros [Hc Hs].
  cbn [split_slash]. rewrite Ascii.eqb_sym, Hc, (IH Hs). reflexivity.
Qed.

Lemma split_slash_append (a b : string) :
  slash_free a = true -> split_slash (a ++ "/" ++ b) = a :: split_slash b.
Proof.
  unfold slash_free. rewrite negb_true_iff.
  induction a as [|c a IH]; [reflexivity|].
  cbn [contains_char]. rewrite orb_false_iff. intros [Hc Hs].
  cbn [append split_slash]. rewrite Ascii.eqb_sym, Hc.
  change (a ++ String "/" b) with (a ++ "/" ++ b). rewrite (IH Hs). reflexivity.
Qed.

Lemma split_join_slash (parts : list string) :
  parts <> [] -> Forall (fun p => slash_free p = true) parts ->
  split_slash (join_slash parts) = parts.
Proof.
  unfold join_slash.
  induction parts as [|p rest IH]; [congruence|]. intros _ Hall.
  inversion Hall as [|? ? Hp Hrest]; subst.
  destruct rest as [|r rest].
  - simpl. now apply split_slash_free.
  - cbn [String.concat]. rewrite split_slash_append by exact Hp.
    f_equal. apply IH; [discriminate | exact Hrest].
Qed.

End WellFormed.

(** ** Building the tree never fails on the files of a repository *)

Section TreeBuilding.

Import Core.

Lemma leaf_at_nil parts : ~ leaf_at [] parts.
Proof. destruct parts as [|p [|q rest]]; simpl; [tauto | discriminate | tauto]. Qed.

Lemma leaf_at_cons t part rest :
  rest <> [] ->
  leaf_at t (part :: rest)
  = match dict_get part t with
    | Some (Directory sub) => leaf_at sub rest
    | _ => False
    end.
Proof. destruct rest; [congruence | reflexivity]. Qed.

Lemma insert_parts_cons part r rest t :
  insert_parts (part :: r :: rest) t
  = match dict_get part t with
    | None =>
        match insert_parts (r :: rest) [] with
        | Some sub => Some (dict_set part (Directory sub) t)
        | None => None
        end
    | Some (Directory sub) =>
        match insert_parts (r :: rest) sub with
        | Some sub' => Some (dict_set part (Directory sub') t)
        | None => None
        end
    | Some Leaf => None
    end.
Proof. reflexivity. Qed.

Lemma insert_parts_ok q :
  forall t,
    q <> [] ->
    (forall pre suf, q = (pre ++ suf)%list -> suf <> [] -> ~ leaf_at t pre) ->
    exists t',
      insert_parts q t = Some t'
      /\ forall parts, leaf_at t' parts -> leaf_at t parts \/ parts = q.
Proof.
  induction q as [|part rest IH]; intros t Hne Hfree; [congruence|].
  destruct rest as [|r rest].
  - exists (dict_set part Leaf t). split; [reflexivity|].
    intros [|p [|p' ps]] Hleaf; [destruct Hleaf | |].
    + simpl in Hleaf. destruct (String.eqb_spec p part) as [->|Hp]; [now right|].
      left. simpl. now rewrite dict_get_set_other in Hleaf.
    + rewrite leaf_at_cons in * by discriminate.
      destruct (String.eqb_spec p part) as [->|Hp].
      * rewrite dict_get_set_same in Hleaf. destruct Hleaf.
      * rewrite dict_get_set_other in Hleaf by exact Hp. now left.
  - rewrite insert_parts_cons.
    destruct (dict_get part t) as [[|sub]|] eqn:Eget.
    + exfalso. apply (Hfree [part] (r :: rest)); [reflexivity | discriminate | exact Eget].
    + destruct (IH sub) as (sub' & Esub & Hsub); [discriminate | |].
      { intros pre suf Heq Hsuf Hleaf.
        apply (Hfree (part :: pre) suf); [simpl; congruence | exact Hsuf |].
        destruct pre as [|p pre]; [destruct Hleaf|].
        rewrite leaf_at_cons by discriminate. now rewrite Eget. }
      rewrite Esub. eexists; split; [reflexivity|].
      intros [|p [|p' ps]] Hleaf; [destruct Hleaf | |].
      * simpl in Hleaf. destruct (String.eqb_spec p part) as [->|Hp].
        -- rewrite dict_get_set_same in Hleaf. discriminate.
        -- rewrite dict_get_set_other in Hleaf by exact Hp. now left.
      * rewrite leaf_at_cons in * by discriminate.
        destruct (String.eqb_spec p part) as [->|Hp].
        -- rewrite dict_get_set_same in Hleaf. rewrite Eget.
           destruct (Hsub _ Hleaf) as [Hold | ->]; [now left | now right].
        -- rewrite dict_get_set_other in Hleaf by exact Hp. now left.
    + destruct (IH []) as (sub' & Esub & Hsub); [discriminate | |].
      { intros pre suf _ _. apply leaf_at_nil. }
      rewrite Esub. eexists; split; [reflexivity|].
      intros [|p [|p' ps]] Hleaf; [destruct Hleaf | |].
      * simpl in Hleaf. destruct (String.eqb_spec p part) as [->|Hp].
        -- rewrite dict_get_set_same in Hleaf. discriminate.
        -- rewrite dict_get_set_other in Hleaf by exact Hp. now left.
      * rewrite leaf_at_cons in * by discriminate.
        destruct (String.eqb_spec p part) as [->|Hp].
        -- rewrite dict_get_set_same in Hleaf.
           destruct (Hsub _ Hleaf) as [Hold | ->]; [|now right].
           exfalso. eapply leaf_at_nil; eauto.
        -- rewrite dict_get_set_other in Hleaf by exact Hp. now left.
Qed.

Lemma insert_parts_not_nil parts t t' :
  parts <> [] -> insert_parts parts t = Some t' -> t' <> [].
Proof.
  destruct parts as [|part [|r rest]]; [congruence | |]; intros _.
  - simpl. intros E; inversion E. apply dict_set_not_nil.
  - rewrite insert_parts_cons.
    destruct (dict_get part t) as [[|sub]|]; [discriminate | |].
    + destruct (insert_parts (r :: rest) sub); [|discriminate].
      intros E; inversion E. apply dict_set_not_nil.
    + destruct (insert_parts (r :: rest) []); [|discriminate].
      intros E; inversion E. apply dict_set_not_nil.
Qed.

Lemma build_loop_not_nil paths t t' :
  build_loop paths t = Some t' -> (paths <> [] \/ t <> []) -> t' <> [].
Proof.
  revert t; induction paths as [|path rest IH]; intros t; simpl.
  - intros E [Hp | Ht]; [congruence|]. now inversion E; subst.
  - destruct (insert_parts (split_slash path) t) as [t1|] eqn:E1; [|discriminate].
    intros E _. apply (IH t1 E). right.
    eapply insert_parts_not_nil; [apply split_slash_nonempty | exact E1].
Qed.

(** [S] is a set of part lists none of which is a proper prefix of another. *)
Lemma build_loop_ok (S : list string -> Prop) paths :
  (forall p q, S p -> S (p ++ q)%list -> q = []) ->
  (forall path, In path paths -> S (split_slash path)) ->
  forall t, (forall parts, leaf_at t parts -> S parts) ->
            exists t', build_loop paths t = Some t'.
Proof.
  intros Hfree. induction paths as [|path rest IH]; intros Hin t Hleaf; simpl.
  - eauto.
  - destruct (insert_parts_ok (split_slash path) t) as (t1 & E1 & H1).
    + apply split_slash_nonempty.
    + intros pre suf Heq Hsuf Hl. apply Hsuf.
      apply (Hfree pre suf); [now apply Hleaf|].
      rewrite <- Heq. apply Hin. now left.
    + rewrite E1. apply IH; [intros; apply Hin; now right|].
      intros parts Hl. destruct (H1 _ Hl) as [Hold | ->]; [now apply Hleaf|].
      apply Hin. now left.
Qed.

End TreeBuilding.

(** ** The result of a run *)

Section Run.

Import Core.
Context `{Collaborators}.

Lemma dict_set_nodup {V : Type} (k : string) (v : V) (d : list (string * V)) :
  NoDup (keys d) -> NoDup (keys (dict_set k v d)).
Proof.
  unfold keys. induction d as [|[k0 v0] d IH]; simpl; intros Hnd.
  - constructor; [tauto | constructor].
  - inversion Hnd as [|? ? Hnot Hnd']; subst.
    destruct (String.eqb_spec k k0) as [->|Hne]; simpl; [now constructor|].
    constructor; [|auto]. intros Hin.
    apply (keys_dict_set k0 k v d) in Hin. destruct Hin; [congruence | tauto].
Qed.

Lemma keys_kept_files cfg hs languages file_paths files k :
  In k (keys (kept_files cfg hs languages file_paths files)) ->
  In k (keys files) \/ In k (map snd file_paths).
Proof.
  revert files; induction file_paths as [|[fp rel] rest IH]; intros files; simpl.
  - tauto.
  - intros Hin. apply IH in Hin. destruct Hin as [Hin | Hin]; [|tauto].
    destruct (should_include cfg hs languages rel); [|tauto].
    apply keys_dict_set in Hin. intuition.
Qed.

(** The gate of [_collect_files]: a found file is kept exactly when
    [should_include] accepts its path. *)
Lemma keys_kept_files_iff cfg hs languages file_paths files k :
  In k (keys (kept_files cfg hs languages file_paths files))
  <-> In k (keys files)
      \/ (In k (map snd file_paths) /\ should_include cfg hs languages k = true).
Proof.
  revert files; induction file_paths as [|[fp rel] rest IH]; intros files; simpl.
  - tauto.
  - rewrite IH. destruct (should_include cfg hs languages rel) eqn:E.
    + rewrite keys_dict_set. intuition (subst; auto).
    + intuition congruence.
Qed.

Lemma collected_files_gate cfg repo k :
  In k (keys (collected_files cfg repo))
  <-> In k (map snd (found_files cfg (detected cfg LANGUAGE_HANDLERS repo)
                       (detected_languages cfg repo) repo))
      /\ should_include cfg (detected cfg LANGUAGE_HANDLERS repo)
           (detected_languages cfg repo) k = true.
Proof.
  unfold collected_files. rewrite keys_kept_files_iff. simpl. tauto.
Qed.

Lemma kept_files_nodup cfg hs languages file_paths files :
  NoDup (keys files) -> NoDup (keys (kept_files cfg hs languages file_paths files)).
Proof.
  revert files; induction file_paths as [|[fp rel] rest IH]; intros files Hnd; simpl.
  - exact Hnd.
  - apply IH. destruct (should_include cfg hs languages rel); [|exact Hnd].
    now apply dict_set_nodup.
Qed.

Lemma collected_files_nodup cfg repo : NoDup (keys (collected_files cfg repo)).
Proof. apply kept_files_nodup. constructor. Qed.

(** The second pass, as a fold over the entries of [files]. *)
Lemma keys_whitelist_fold (keep : string -> bool) (files acc : file_map) k :
  In k (keys (fold_left (fun filtered_files item =>
                           let '(file_path, content) := item in
                           if keep file_path
                           then dict_set file_path content filtered_files
                           else filtered_files) files acc)) ->
  In k (keys acc) \/ (In k (keys files) /\ keep k = true).
Proof.
  revert acc; induction files as [|[p c] rest IH]; intros acc; simpl; [tauto|].
  intros Hin. apply IH in Hin. destruct Hin as [Hin | Hin]; [|tauto].
  destruct (keep p) eqn:E; [|tauto].
  apply keys_dict_set in Hin. destruct Hin as [-> | Hin]; tauto.
Qed.

Lemma whitelist_fold_other (keep : string -> bool) (files acc : file_map) k :
  ~ In k (keys files) ->
  dict_get k (fold_left (fun filtered_files item =>
                           let '(file_path, content) := item in
                           if keep file_path
                           then dict_set file_path content filtered_files
                           else filtered_files) files acc)
  = dict_get k acc.
Proof.
  revert acc; induction files as [|[p c] rest IH]; intros acc Hk; simpl in *; auto.
  rewrite IH by tauto. destruct (keep p); [|reflexivity].
  apply dict_get_set_other. intuition.
Qed.

Lemma whitelist_fold_kept (keep : string -> bool) (files acc : file_map) k :
  NoDup (keys files) -> In k (keys files) -> keep k = true ->
  dict_get k (fold_left (fun filtered_files item =>
                           let '(file_path, content) := item in
                           if keep file_path
                           then dict_set file_path content filtered_files
                           else filtered_files) files acc)
  = dict_get k files.
Proof.
  revert acc; induction files as [|[p c] rest IH]; intros acc Hnd Hin Hkeep;
    simpl in *; [tauto|].
  inversion Hnd as [|? ? Hnot Hnd']; subst.
  destruct (String.eqb_spec k p) as [->|Hne].
  - rewrite Hkeep, whitelist_fold_other by exact Hnot. apply dict_get_set_same.
  - apply IH; [exact Hnd' | intuition congruence | exact Hkeep].
Qed.

Lemma keys_filter_files cfg languages_filter languages files k :
  In k (keys (filter_files cfg languages_filter languages files)) ->
  In k (keys files).
Proof.
  unfold filter_files.
  destruct languages_filter as [[|w ws]|]; auto.
  destruct languages as [|l ls]; auto.
  intros Hin. apply keys_whitelist_fold in Hin. destruct Hin as [[] | [Hin _]]. exact Hin.
Qed.

Lemma selected_files_paths cfg repo languages_filter k :
  In k (keys (selected_files cfg repo languages_filter)) ->
  exists parts, file_at repo parts /\ k = join_slash parts.
Proof.
  intros Hin. apply keys_filter_files in Hin.
  apply keys_kept_files in Hin. destruct Hin as [[] | Hin].
  apply in_map_iff in Hin. destruct Hin as [[info rel] [<- Hin]].
  eapply find_files_file_at. exact Hin.
Qed.

Lemma selected_files_tree cfg repo languages_filter :
  wf_repo repo = true ->
  exists t, build_loop (keys (selected_files cfg repo languages_filter)) [] = Some t.
Proof.
  intros Hwf. apply (build_loop_ok (file_at repo)).
  - intros p q. now apply file_at_prefix_free.
  - intros path Hin. apply selected_files_paths in Hin.
    destruct Hin as (parts & Hat & ->).
    rewrite split_join_slash; [exact Hat | eapply file_at_not_nil; eauto |].
    now apply file_at_slash_free with repo.
  - intros parts Hleaf. exfalso. eapply leaf_at_nil; eauto.
Qed.

Lemma function_analysis_defined files :
  analyzers_typed -> exists function_info0, function_analysis files = Some function_info0.
Proof.
  intros Htyped. destruct (Htyped files) as (H1 & H2 & [n Hn]).
  unfold function_analysis.
  destruct (py_len (get_default "functions" _ _)) as [a|]; [|congruence].
  destruct (py_len (get_default "file_functions" _ _)) as [b|]; [|congruence].
  rewrite Hn. simpl. eauto.
Qed.

End Run.

Section RunDefined.

Import Core.
Context `{Collaborators}.

(** On a well-formed repository a run returns a result, and these are its
    fields. *)
Lemma outcome_defined cfg repo_path repo now token_estimate_only languages_filter :
  wf_repo repo = true ->
  (token_estimate_only = false -> analyzers_typed) ->
  exists r,
    outcome cfg repo_path repo now token_estimate_only languages_filter = Some r
    /\ root_path r = repo_path
    /\ languages r = chosen_languages languages_filter (detected_languages cfg repo)
    /\ files r = selected_files cfg repo languages_filter
    /\ build_loop (keys (files r)) [] = Some (tree_structure r)
    /\ token_info r
       = estimate_repository_tokens
           {| rd_files := files r;
              rd_metadata :=
                if token_estimate_only
                then [("languages", PyList (map PyStr (languages r)))]
                else metadata r;
              rd_tree_structure := tree_structure r;
              rd_file_dependencies := file_dependencies r |}
    /\ (if token_estimate_only then
          file_dependencies r = [] /\ function_info r = []
          /\ metadata r
             = [("languages", PyList (map PyStr (languages r)));
                ("file_count", PyInt (Z.of_nat (List.length (files r))))]
        else
          file_dependencies r
          = merged_dependencies (detected cfg LANGUAGE_HANDLERS repo)
              (files r) (languages r)
          /\ function_analysis (files r) = Some (function_info r)
          /\ metadata r
             = [("timestamp", PyFloat now);
                ("languages", PyList (map PyStr (languages r)));
                ("file_count", PyInt (Z.of_nat (List.length (files r))));
                ("language_metadata",
                  PyDict (language_metadata (detected cfg LANGUAGE_HANDLERS repo)
                            (files r) (languages r)))]).
Proof.
  intros Hwf Htyped. unfold outcome.
  destruct (selected_files_tree cfg repo languages_filter Hwf) as [t Et].
  rewrite Et. destruct token_estimate_only.
  - eexists. split; [reflexivity|]. cbn. repeat split; auto.
  - destruct (function_analysis_defined (selected_files cfg repo languages_filter)
                (Htyped eq_refl)) as [fi Efi].
    rewrite Efi. eexists. split; [reflexivity|]. cbn. repeat split; auto.
Qed.

End RunDefined.

(** ** The sample collaborators meet what is assumed of them *)

Section SampleFacts.

Import Core.

Lemma sample_analyzers_typed : analyzers_typed (H := Samples.sample_collaborators).
Proof.
  intros files. cbn. repeat split; try discriminate. now exists 0%Z.
Qed.

Lemma sample_count_positive (files : file_map) (n : Z) :
  (n + Z.of_nat (List.length files)
   <= fold_left (fun n item => n + 1 + Z.of_nat (String.length (snd item)) / 4)
        files n)%Z.
Proof.
  revert n; induction files as [|item rest IH]; intros n.
  - simpl. lia.
  - cbn [fold_left List.length].
    specialize (IH (n + 1 + Z.of_nat (String.length (snd item)) / 4)%Z).
    assert (0 <= Z.of_nat (String.length (snd item)) / 4)%Z
      by (apply Z.div_pos; lia).
    lia.
Qed.

Lemma sample_estimator_contract :
  estimator_contract (H := Samples.sample_collaborators).
Proof.
  intros d Hne. cbn. eexists. split; [reflexivity|].
  pose proof (sample_count_positive (rd_files d) 0) as Hle.
  destruct (rd_files d); [congruence|]. simpl List.length in Hle. lia.
Qed.

End SampleFacts.

Import Core.

(** ** An unfiltered run *)

(** C3, at the failing input: the repository holds [main.py] and
    [docs/README.md], Python is detected and the caller gives no language
    filter.  The walker finds both files, yet the result keeps [main.py]
    only: [_collect_files] receives the detected languages and applies its
    per-handler gate to them. *)
Theorem C3_unfiltered_run_drops_found_file :
  detected_languages (H := Samples.sample_collaborators)
    Config.DEFAULT_CONFIG Samples.docs_repo = ["python"]
  /\ map snd (found_files Config.DEFAULT_CONFIG
                (detected Config.DEFAULT_CONFIG
                   (LANGUAGE_HANDLERS (H := Samples.sample_collaborators))
                   Samples.docs_repo)
                ["python"] Samples.docs_repo)
     = ["main.py"; "docs/README.md"]
  /\ option_map (fun r => keys (files r))
       (fst (ingest (H := Samples.sample_collaborators)
               "/repo" Samples.docs_repo 0 false None Samples.no_tracker))
     = Some ["main.py"].
Proof. repeat split; vm_compute; reflexivity. Qed.

(** When no language is detected every found file is kept. *)
Lemma nothing_detected_keeps_all `{Collaborators} cfg hs file_paths :
  forall rel, In rel (map snd file_paths) ->
              In rel (keys (kept_files cfg hs [] file_paths [])).
Proof.
  assert (G : forall files rel,
             In rel (keys files) \/ In rel (map snd file_paths) ->
             In rel (keys (kept_files cfg hs [] file_paths files))).
  { induction file_paths as [|[fp p] rest IH]; intros files rel; simpl; [tauto|].
    intros Hin. apply IH. rewrite keys_dict_set. intuition. }
  intros rel Hin. apply G. now right.
Qed.

(** ** Language filter monotonicity *)

(** C4: on a well-formed repository, the file paths of a run with a language
    filter (["python"] or any other) are among the file paths of a run with
    no filter, whatever handlers and tracker calls the ingestor held before
    each run. *)
Theorem C4_language_filter_monotone `{Collaborators}
    (repo_path : string) (repo : list entry) (now1 now2 : Z) (est1 est2 : bool)
    (wanted : list string) (self1 self2 : RepositoryIngestor) :
  config self1 = config self2 ->
  wf_repo repo = true ->
  (est1 = false \/ est2 = false -> analyzers_typed) ->
  exists r1 r2,
    fst (ingest repo_path repo now1 est1 (Some wanted) self1) = Some r1
    /\ fst (ingest repo_path repo now2 est2 None self2) = Some r2
    /\ incl (keys (files r1)) (keys (files r2)).
Proof.
  intros Hcfg Hwf Htyped. rewrite !ingest_value, <- Hcfg.
  destruct (outcome_defined (config self1) repo_path repo now1 est1 (Some wanted) Hwf
              (fun E => Htyped (or_introl E))) as (r1 & E1 & _ & _ & F1 & _).
  destruct (outcome_defined (config self1) repo_path repo now2 est2 None Hwf
              (fun E => Htyped (or_intror E))) as (r2 & E2 & _ & _ & F2 & _).
  exists r1, r2. split; [exact E1|]. split; [exact E2|].
  intros k Hin. rewrite F1 in Hin. rewrite F2.
  unfold selected_files in *. apply keys_filter_files in Hin. exact Hin.
Qed.

Lemma C4_language_filter_monotone_witness :
  config Samples.with_tracker = config Samples.no_tracker
  /\ wf_repo Samples.docs_repo = true
  /\ (false = false \/ false = false ->
      analyzers_typed (H := Samples.sample_collaborators))
  /\ exists r1 r2,
       fst (ingest (H := Samples.sample_collaborators)
              "/repo" Samples.docs_repo 1 false (Some ["python"]) Samples.with_tracker)
       = Some r1
       /\ fst (ingest (H := Samples.sample_collaborators)
                 "/repo" Samples.docs_repo 2 false None Samples.no_tracker)
          = Some r2
       /\ incl (keys (files r1)) (keys (files r2)).
Proof.
  split; [reflexivity|]. split; [reflexivity|].
  split; [intros _; exact sample_analyzers_typed|].
  exact (C4_language_filter_monotone (H := Samples.sample_collaborators)
           "/repo" Samples.docs_repo 1 2 false false ["python"]
           Samples.with_tracker Samples.no_tracker
           eq_refl eq_refl (fun _ => sample_analyzers_typed)).
Defined.

(** ** The estimate-only run *)

(** C5: when the run's file set is not empty, [ingest] with
    [token_estimate_only] returns a result with non-empty [files] and
    [tree_structure], empty [file_dependencies] and [function_info], and a
    positive total-token figure in [token_info]; the last from what the spec
    says of the estimator. *)
Theorem C5_estimate_only_result `{Collaborators}
    (repo_path : string) (repo : list entry) (now : Z)
    (languages_filter : option (list string)) (self : RepositoryIngestor) :
  wf_repo repo = true ->
  estimator_contract ->
  selected_files (config self) repo languages_filter <> [] ->
  exists r,
    fst (ingest repo_path repo now true languages_filter self) = Some r
    /\ files r = selected_files (config self) repo languages_filter
    /\ files r <> []
    /\ tree_structure r <> []
    /\ file_dependencies r = []
    /\ function_info r = []
    /\ exists n, dict_get "total_tokens" (token_info r) = Some (PyInt n) /\ (0 < n)%Z.
Proof.
  intros Hwf Hest Hne. rewrite ingest_value.
  destruct (outcome_defined (config self) repo_path repo now true languages_filter Hwf)
    as (r & E & _ & _ & F & T & K & D & Fi & _); [discriminate|].
  exists r. split; [exact E|]. split; [exact F|].
  assert (Hfiles : files r <> []) by (now rewrite F).
  split; [exact Hfiles|]. split.
  - apply (build_loop_not_nil _ _ _ T). left.
    unfold keys. destruct (files r); [congruence | discriminate].
  - split; [exact D|]. split; [exact Fi|].
    rewrite K. apply Hest. exact Hfiles.
Qed.

Lemma C5_estimate_only_result_witness :
  wf_repo Samples.docs_repo = true
  /\ estimator_contract (H := Samples.sample_collaborators)
  /\ selected_files (H := Samples.sample_collaborators)
       (config Samples.no_tracker) Samples.docs_repo None <> []
  /\ exists r,
       fst (ingest (H := Samples.sample_collaborators)
              "/repo" Samples.docs_repo 0 true None Samples.no_tracker) = Some r
       /\ files r = selected_files (H := Samples.sample_collaborators)
                      (config Samples.no_tracker) Samples.docs_repo None
       /\ files r <> []
       /\ tree_structure r <> []
       /\ file_dependencies r = []
       /\ function_info r = []
       /\ exists n, dict_get "total_tokens" (token_info r) = Some (PyInt n) /\ (0 < n)%Z.
Proof.
  assert (Hne : selected_files (H := Samples.sample_collaborators)
                  (config Samples.no_tracker) Samples.docs_repo None <> [])
    by (vm_compute; discriminate).
  split; [reflexivity|]. split; [exact sample_estimator_contract|]. split; [exact Hne|].
  exact (C5_estimate_only_result (H := Samples.sample_collaborators)
           "/repo" Samples.docs_repo 0 None Samples.no_tracker
           eq_refl sample_estimator_contract Hne).
Defined.

(** ** The metadata of a result *)

Section Metadata.

Context `{Collaborators}.

Lemma language_metadata_lookup hs files0 lang handler :
  dict_get lang hs = Some handler ->
  forall languages0 acc,
    In lang languages0
    \/ dict_get lang acc = Some (extract_project_metadata handler files0) ->
    dict_get lang
      (fold_left (fun acc lang =>
                    match dict_get lang hs with
                    | Some handler =>
                        dict_set lang (extract_project_metadata handler files0) acc
                    | None => acc
                    end) languages0 acc)
    = Some (extract_project_metadata handler files0).
Proof.
  intros Hh. induction languages0 as [|l rest IH]; intros acc Hin; simpl.
  - destruct Hin as [[] | Hacc]. exact Hacc.
  - apply IH. destruct (String.eqb_spec l lang) as [->|Hne].
    + right. rewrite Hh. apply dict_get_set_same.
    + destruct Hin as [[Heq | Hin] | Hacc]; [congruence | now left | right].
      destruct (dict_get l hs); [|exact Hacc].
      rewrite dict_get_set_other by congruence. exact Hacc.
Qed.

Lemma detected_language_handler cfg repo lang :
  In lang (detected_languages cfg repo) ->
  exists handler, dict_get lang (detected cfg LANGUAGE_HANDLERS repo) = Some handler.
Proof.
  intros Hin. apply dict_get_keys in Hin.
  destruct (dict_get lang (detected cfg LANGUAGE_HANDLERS repo)) as [h|]; [eauto|].
  congruence.
Qed.

End Metadata.

(** C7, as stated, fails: the result of an estimate-only run has a metadata
    dictionary with no timestamp and no per-language metadata. *)
Lemma C7_estimate_only_counterexample :
  ~ (forall (token_estimate_only : bool) (r : RepositoryInfo),
        fst (ingest (H := Samples.sample_collaborators)
               "/repo" Samples.docs_repo 0 token_estimate_only None Samples.no_tracker)
        = Some r ->
        dict_get "timestamp" (metadata r) <> None
        /\ dict_get "language_metadata" (metadata r) <> None
        /\ dict_get "file_count" (metadata r) <> None).
Proof.
  intros Hclaim.
  destruct (fst (ingest (H := Samples.sample_collaborators)
                   "/repo" Samples.docs_repo 0 true None Samples.no_tracker))
    as [r|] eqn:E; [|vm_compute in E; discriminate].
  destruct (Hclaim true r E) as [Hts _]. apply Hts.
  vm_compute in E. inversion E. reflexivity.
Qed.

(** C7 (amended): every result has a metadata dictionary with the languages
    of the run and the file count.  In full-analysis mode it also has the
    timestamp and one metadata sub-object per language of the run, as its
    handler extracted it; in estimate-only mode it has those two entries
    and nothing else. *)
Theorem C7_metadata_shape `{Collaborators}
    (repo_path : string) (repo : list entry) (now : Z) (token_estimate_only : bool)
    (languages_filter : option (list string)) (self : RepositoryIngestor) :
  wf_repo repo = true ->
  (token_estimate_only = false -> analyzers_typed) ->
  exists r,
    fst (ingest repo_path repo now token_estimate_only languages_filter self) = Some r
    /\ dict_get "languages" (metadata r) = Some (PyList (map PyStr (languages r)))
    /\ dict_get "file_count" (metadata r)
       = Some (PyInt (Z.of_nat (List.length (files r))))
    /\ if token_estimate_only then
         keys (metadata r) = ["languages"; "file_count"]
       else
         keys (metadata r) = ["timestamp"; "languages"; "file_count"; "language_metadata"]
         /\ dict_get "timestamp" (metadata r) = Some (PyFloat now)
         /\ exists subs,
              dict_get "language_metadata" (metadata r) = Some (PyDict subs)
              /\ forall lang,
                   In lang (languages r) ->
                   exists handler,
                     dict_get lang (detected (config self) LANGUAGE_HANDLERS repo)
                     = Some handler
                     /\ dict_get lang subs
                        = Some (extract_project_metadata handler (files r)).
Proof.
  intros Hwf Htyped. rewrite ingest_value.
  destruct (outcome_defined (config self) repo_path repo now token_estimate_only
              languages_filter Hwf Htyped) as (r & E & _ & L & F & _ & _ & Hmode).
  exists r. split; [exact E|].
  destruct token_estimate_only.
  - destruct Hmode as (_ & _ & M). rewrite M. repeat split; reflexivity.
  - destruct Hmode as (_ & _ & M). rewrite M.
    split; [reflexivity|]. split; [reflexivity|]. split; [reflexivity|].
    split; [reflexivity|]. eexists. split; [reflexivity|].
    intros lang Hin.
    assert (Hdet : In lang (detected_languages (config self) repo)).
    { rewrite L in Hin. eapply chosen_languages_incl. exact Hin. }
    destruct (detected_language_handler _ _ _ Hdet) as [handler Hh].
    exists handler. split; [exact Hh|].
    unfold language_metadata. apply language_metadata_lookup; [exact Hh | now left].
Qed.

Lemma C7_metadata_shape_witness :
  wf_repo Samples.docs_repo = true
  /\ (false = false -> analyzers_typed (H := Samples.sample_collaborators))
  /\ exists r,
       fst (ingest (H := Samples.sample_collaborators)
              "/repo" Samples.docs_repo 5 false None Samples.no_tracker) = Some r
       /\ dict_get "languages" (metadata r) = Some (PyList (map PyStr (languages r)))
       /\ dict_get "file_count" (metadata r)
          = Some (PyInt (Z.of_nat (List.length (files r))))
       /\ keys (metadata r) = ["timestamp"; "languages"; "file_count"; "language_metadata"]
       /\ dict_get "timestamp" (metadata r) = Some (PyFloat 5)
       /\ exists subs,
            dict_get "language_metadata" (metadata r) = Some (PyDict subs)
            /\ forall lang,
                 In lang (languages r) ->
                 exists handler,
                   dict_get lang
                     (detected (config Samples.no_tracker)
                        (LANGUAGE_HANDLERS (H := Samples.sample_collaborators))
                        Samples.docs_repo)
                   = Some handler
                   /\ dict_get lang subs
                      = Some (extract_project_metadata handler (files r)).
Proof.
  split; [reflexivity|]. split; [intros _; exact sample_analyzers_typed|].
  exact (C7_metadata_shape (H := Samples.sample_collaborators)
           "/repo" Samples.docs_repo 5 false None Samples.no_tracker
           eq_refl (fun _ => sample_analyzers_typed)).
Defined.

(** ** A language filter that matches nothing *)

(** C6, as stated, fails.  A warning signal carried by the result is
    something one can read off the result and that is there exactly when a
    filter went unmatched.  On a repository where no language is detected,
    the run with the filter [["python"]] returns the very result of the run
    with no filter, so no such reading exists. *)
Lemma C6_no_warning_counterexample :
  ~ (exists signal : RepositoryInfo -> bool,
        forall (languages_filter : option (list string)) (r : RepositoryInfo),
          fst (ingest (H := Samples.sample_collaborators)
                 "/repo" Samples.readme_repo 0 false languages_filter
                 Samples.with_tracker) = Some r ->
          signal r
          = unmatched_filter languages_filter
              (detected_languages (H := Samples.sample_collaborators)
                 (config Samples.with_tracker) Samples.readme_repo)).
Proof.
  intros [signal Hsignal].
  destruct (fst (ingest (H := Samples.sample_collaborators)
                   "/repo" Samples.readme_repo 0 false (Some ["python"])
                   Samples.with_tracker)) as [r|] eqn:E1;
    [|vm_compute in E1; discriminate].
  assert (E2 : fst (ingest (H := Samples.sample_collaborators)
                      "/repo" Samples.readme_repo 0 false None Samples.with_tracker)
               = Some r).
  { rewrite <- E1. vm_compute. reflexivity. }
  pose proof (Hsignal _ _ E1) as H1. pose proof (Hsignal _ _ E2) as H2.
  vm_compute in H1, H2. congruence.
Qed.

(** On that repository the tracker is not told either. *)
Lemma unmatched_filter_without_detection_is_silent :
  ingest (H := Samples.sample_collaborators)
    "/repo" Samples.readme_repo 0 false (Some ["python"]) Samples.with_tracker
  = ingest (H := Samples.sample_collaborators)
      "/repo" Samples.readme_repo 0 false None Samples.with_tracker.
Proof. vm_compute. reflexivity. Qed.

(** C6 (amended): with a non-empty filter that names no detected language,
    [ingest] returns a result (no exception), its [languages] and the
    ["languages"] entry of its metadata are empty, and the metadata has no
    entry beyond the usual ones; the "no matching languages" signal is the
    description sent to the progress tracker, when a tracker is attached and
    some language was detected. *)
Theorem C6_unmatched_filter `{Collaborators}
    (repo_path : string) (repo : list entry) (now : Z) (token_estimate_only : bool)
    (wanted : list string) (self : RepositoryIngestor) :
  wf_repo repo = true ->
  (token_estimate_only = false -> analyzers_typed) ->
  wanted <> [] ->
  matching_languages wanted (detected_languages (config self) repo) = [] ->
  exists r self',
    ingest repo_path repo now token_estimate_only (Some wanted) self = (Some r, self')
    /\ languages r = []
    /\ dict_get "languages" (metadata r) = Some (PyList [])
    /\ incl (keys (metadata r))
         ["timestamp"; "languages"; "file_count"; "language_metadata"]
    /\ (progress self <> None ->
        detected_languages (config self) repo <> [] ->
        logged no_match_report self').
Proof.
  intros Hwf Htyped Hwanted Hnone.
  destruct (ingest_steps repo_path repo now token_estimate_only (Some wanted) self)
    as (s1 & s2 & s3 & G1 & E2 & G3 & E & _ & _).
  destruct (outcome_defined (config self) repo_path repo now token_estimate_only
              (Some wanted) Hwf Htyped) as (r & Eout & _ & L & _ & _ & _ & Hmode).
  exists r, s3. rewrite E, Eout. split; [reflexivity|].
  destruct wanted as [|w ws]; [congruence|].
  assert (Hl : languages r = []).
  { rewrite L. unfold chosen_languages.
    destruct (detected_languages (config self) repo); [reflexivity | exact Hnone]. }
  split; [exact Hl|]. split; [|split].
  - destruct token_estimate_only; destruct Hmode as (_ & _ & M);
      rewrite M, Hl; reflexivity.
  - destruct token_estimate_only; destruct Hmode as (_ & _ & M); rewrite M;
      intros k Hk; simpl in *; tauto.
  - intros Htracker Hdetected. apply (grows_logged _ s2 s3 G3).
    unfold filter_languages in E2. rewrite Hnone in E2.
    destruct (detected_languages (config self) repo) as [|l ls]; [congruence|].
    unfold bind, ret in E2.
    destruct (report no_match_report s1) as [u s2'] eqn:Er.
    fold no_match_report in E2. rewrite Er in E2. inversion E2; subst s2'.
    replace s2 with (snd (report no_match_report s1)) by (now rewrite Er).
    apply report_logged.
    unfold grows in G1. destruct (progress self); [|congruence].
    destruct G1 as [more ->]. discriminate.
Qed.

Lemma C6_unmatched_filter_witness :
  wf_repo Samples.docs_repo = true
  /\ (false = false -> analyzers_typed (H := Samples.sample_collaborators))
  /\ ["rust"] <> []
  /\ matching_languages ["rust"]
       (detected_languages (H := Samples.sample_collaborators)
          (config Samples.with_tracker) Samples.docs_repo) = []
  /\ exists r self',
       ingest (H := Samples.sample_collaborators)
         "/repo" Samples.docs_repo 0 false (Some ["rust"]) Samples.with_tracker
       = (Some r, self')
       /\ languages r = []
       /\ dict_get "languages" (metadata r) = Some (PyList [])
       /\ incl (keys (metadata r))
            ["timestamp"; "languages"; "file_count"; "language_metadata"]
       /\ (progress Samples.with_tracker <> None ->
           detected_languages (H := Samples.sample_collaborators)
             (config Samples.with_tracker) Samples.docs_repo <> [] ->
           logged no_match_report self').
Proof.
  assert (Hne : ["rust"] <> []) by discriminate.
  split; [reflexivity|]. split; [intros _; exact sample_analyzers_typed|].
  split; [exact Hne|]. split; [reflexivity|].
  exact (C6_unmatched_filter (H := Samples.sample_collaborators)
           "/repo" Samples.docs_repo 0 false ["rust"] Samples.with_tracker
           eq_refl (fun _ => sample_analyzers_typed) Hne eq_refl).
Defined.

(** ** The second pass keeps the core files *)

(** C10: with a filter that names a detected language, every file that
    [_collect_files] returned and whose basename is [README.md] or [LICENSE]
    is in the result, with its content, at any depth. *)
Theorem C10_core_files_kept `{Collaborators}
    (repo_path : string) (repo : list entry) (now : Z) (token_estimate_only : bool)
    (wanted : list string) (self : RepositoryIngestor) (path : string) :
  wf_repo repo = true ->
  (token_estimate_only = false -> analyzers_typed) ->
  wanted <> [] ->
  matching_languages wanted (detected_languages (config self) repo) <> [] ->
  In path (keys (collected_files (config self) repo)) ->
  basename path = "README.md" \/ basename path = "LICENSE" ->
  exists r,
    fst (ingest repo_path repo now token_estimate_only (Some wanted) self) = Some r
    /\ In path (keys (files r))
    /\ dict_get path (files r) = dict_get path (collected_files (config self) repo).
Proof.
  intros Hwf Htyped Hwanted Hsome Hin Hbase. rewrite ingest_value.
  destruct (outcome_defined (config self) repo_path repo now token_estimate_only
              (Some wanted) Hwf Htyped) as (r & Eout & _ & _ & F & _).
  exists r. split; [exact Eout|].
  assert (Hget : dict_get path (files r)
                 = dict_get path (collected_files (config self) repo)).
  { rewrite F. unfold selected_files, chosen_languages, filter_files.
    destruct wanted as [|w ws]; [congruence|].
    destruct (detected_languages (config self) repo) as [|l ls] eqn:Ed;
      [exfalso; apply Hsome; reflexivity|].
    destruct (matching_languages (w :: ws) (l :: ls)) as [|m ms] eqn:Em; [congruence|].
    apply whitelist_fold_kept; [apply collected_files_nodup | exact Hin |].
    unfold whitelisted.
    assert (Hcore : in_set (basename path) allowed_core_files = true)
      by (destruct Hbase as [-> | ->]; reflexivity).
    rewrite Hcore, orb_true_r. reflexivity. }
  split; [|exact Hget].
  apply dict_get_keys. rewrite Hget. now apply dict_get_keys.
Qed.

Lemma markdown_analyzers_typed : analyzers_typed (H := Samples.markdown_collaborators).
Proof.
  intros files0. cbn. repeat split; try discriminate. now exists 0%Z.
Qed.

Lemma C10_core_files_kept_witness :
  wf_repo Samples.nested_readme_repo = true
  /\ (false = false -> analyzers_typed (H := Samples.markdown_collaborators))
  /\ ["python"] <> []
  /\ matching_languages ["python"]
       (detected_languages (H := Samples.markdown_collaborators)
          (config Samples.no_tracker) Samples.nested_readme_repo) <> []
  /\ In "docs/nested/README.md"
       (keys (collected_files (H := Samples.markdown_collaborators)
                (config Samples.no_tracker) Samples.nested_readme_repo))
  /\ (basename "docs/nested/README.md" = "README.md"
      \/ basename "docs/nested/README.md" = "LICENSE")
  /\ exists r,
       fst (ingest (H := Samples.markdown_collaborators)
              "/repo" Samples.nested_readme_repo 0 false (Some ["python"])
              Samples.no_tracker) = Some r
       /\ In "docs/nested/README.md" (keys (files r))
       /\ dict_get "docs/nested/README.md" (files r)
          = dict_get "docs/nested/README.md"
              (collected_files (H := Samples.markdown_collaborators)
                 (config Samples.no_tracker) Samples.nested_readme_repo).
Proof.
  assert (Hne : ["python"] <> []) by discriminate.
  assert (Hsome : matching_languages ["python"]
                    (detected_languages (H := Samples.markdown_collaborators)
                       (config Samples.no_tracker) Samples.nested_readme_repo) <> [])
    by (vm_compute; discriminate).
  assert (Hin : In "docs/nested/README.md"
                  (keys (collected_files (H := Samples.markdown_collaborators)
                           (config Samples.no_tracker) Samples.nested_readme_repo)))
    by (apply in_set_In; vm_compute; reflexivity).
  assert (Hbase : basename "docs/nested/README.md" = "README.md"
                  \/ basename "docs/nested/README.md" = "LICENSE")
    by (left; reflexivity).
  split; [reflexivity|]. split; [intros _; exact markdown_analyzers_typed|].
  split; [exact Hne|]. split; [exact Hsome|]. split; [exact Hin|]. split; [exact Hbase|].
  exact (C10_core_files_kept (H := Samples.markdown_collaborators)
           "/repo" Samples.nested_readme_repo 0 false ["python"] Samples.no_tracker
           "docs/nested/README.md"
           eq_refl (fun _ => markdown_analyzers_typed) Hne Hsome Hin Hbase).
Defined.

(** In that run the second pass drops [docs/nested/notes.md], which
    [_collect_files] had returned. *)
Lemma second_pass_drops_other_markdown :
  keys (collected_files (H := Samples.markdown_collaborators)
          (config Samples.no_tracker) Samples.nested_readme_repo)
  = ["main.py"; "docs/nested/README.md"; "docs/nested/notes.md"]
  /\ option_map (fun r => keys (files r))
       (fst (ingest (H := Samples.markdown_collaborators)
               "/repo" Samples.nested_readme_repo 0 false (Some ["python"])
               Samples.no_tracker))
     = Some ["main.py"; "docs/nested/README.md"].
Proof. split; vm_compute; reflexivity. Qed.

(** * Further properties *)

(** ** How [fnmatch] reads a pattern *)

Section PatternFacts.

Import Reading.

Lemma translate_cons_star (t : string) : translate (String "*" t) = Star :: translate t.
Proof. reflexivity. Qed.

Lemma translate_cons_plain (c : ascii) (t : string) :
  plain (String c "") = true -> translate (String c t) = Lit c :: translate t.
Proof.
  unfold plain. cbn [contains_char]. rewrite !orb_false_r, !andb_true_iff, !negb_true_iff.
  intros [[H1 H2] H3]. unfold translate. cbn [String.length translate_fuel].
  rewrite (Ascii.eqb_sym c "*"), H1, (Ascii.eqb_sym c "?"), H2.
  unfold lbracket. rewrite (Ascii.eqb_sym c "["), H3. reflexivity.
Qed.

Lemma plain_cons (c : ascii) (t : string) :
  plain (String c t) = (plain (String c "") && plain t)%bool.
Proof.
  unfold plain. cbn [contains_char]. rewrite !orb_false_r, !negb_orb.
  destruct (negb (Ascii.eqb "*" c)), (negb (Ascii.eqb "?" c)), (negb (Ascii.eqb "[" c));
    cbn; try reflexivity;
    destruct (negb (contains_char "*" t)), (negb (contains_char "?" t)); reflexivity.
Qed.

(** A plain text in front of a pattern is read as its letters. *)
Lemma translate_plain_append (a b : string) :
  plain a = true -> translate (a ++ b) = (literals a ++ translate b)%list.
Proof.
  induction a as [|c a IH]; intros Hp; [reflexivity|].
  rewrite plain_cons in Hp. apply andb_true_iff in Hp. destruct Hp as [Hc Ha].
  cbn [append literals]. rewrite translate_cons_plain by exact Hc.
  rewrite (IH Ha). reflexivity.
Qed.

Lemma translate_plain (a : string) : plain a = true -> translate a = literals a.
Proof.
  intros Hp. rewrite <- (append_nil_r a) at 1.
  rewrite translate_plain_append by exact Hp. apply app_nil_r.
Qed.

Lemma accepts_nil (s : string) : accepts [] s = true <-> s = "".
Proof. destruct s; simpl; split; congruence. Qed.

Lemma accepts_literals_then (a : string) (ts : list token) (s : string) :
  accepts (literals a ++ ts) s = true <-> exists b, s = a ++ b /\ accepts ts b = true.
Proof.
  revert s; induction a as [|c a IH]; intros s.
  - simpl. split; [eauto | intros [b [-> H]]; exact H].
  - cbn [literals app accepts]. destruct s as [|d s].
    + split; [discriminate | intros [b [E _]]; discriminate].
    + cbn [token_accepts]. rewrite andb_true_iff, Ascii.eqb_eq, IH. split.
      * intros [-> [b [-> H]]]. exists b. split; [reflexivity | exact H].
      * intros [b [E H]]. simpl in E. inversion E; subst. eauto.
Qed.

Lemma accepts_star (ts : list token) (s : string) :
  accepts (Star :: ts) s = true <-> exists a b, s = a ++ b /\ accepts ts b = true.
Proof.
  induction s as [|c s IH].
  - cbn [accepts]. rewrite orb_false_r. split.
    + intros H. exists "", "". auto.
    + intros [[|? ?] [b [E H]]]; simpl in E; [subst b; exact H | discriminate].
  - change (accepts (Star :: ts) (String c s))
      with (accepts ts (String c s) || accepts (Star :: ts) s).
    rewrite orb_true_iff, IH. split.
    + intros [H | [a [b [-> H]]]]; [exists "", (String c s); auto|].
      exists (String c a), b. auto.
    + intros [[|d a] [b [E H]]]; simpl in E.
      * left. now subst b.
      * inversion E; subst. right. eauto.
Qed.

Lemma fnmatch_plain (s pattern : string) :
  plain pattern = true -> (fnmatch s pattern = true <-> s = pattern).
Proof.
  intros Hp. unfold fnmatch. rewrite translate_plain by exact Hp.
  rewrite <- (app_nil_r (literals pattern)), accepts_literals_then. split.
  - intros [b [-> H]]. apply accepts_nil in H. subst. apply append_nil_r.
  - intros ->. exists "". split; [now rewrite append_nil_r | reflexivity].
Qed.

Lemma fnmatch_star_plain (s lit : string) :
  plain lit = true -> (fnmatch s ("*" ++ lit) = true <-> ends_with s lit).
Proof.
  intros Hp. unfold fnmatch, ends_with.
  change ("*" ++ lit) with (String "*" lit).
  rewrite translate_cons_star, translate_plain by exact Hp.
  rewrite accepts_star. split.
  - intros [a [b [-> H]]].
    rewrite <- (app_nil_r (literals lit)), accepts_literals_then in H.
    destruct H as [e [-> He]]. apply accepts_nil in He. subst.
    exists a. now rewrite append_nil_r.
  - intros [a ->]. exists a, lit. split; [reflexivity|].
    rewrite <- (app_nil_r (literals lit)), accepts_literals_then.
    exists "". split; [now rewrite append_nil_r | reflexivity].
Qed.

Lemma fnmatch_plain_star (s lit : string) :
  plain lit = true -> (fnmatch s (lit ++ "*") = true <-> starts_with s lit).
Proof.
  intros Hp. unfold fnmatch, starts_with.
  rewrite translate_plain_append by exact Hp.
  rewrite accepts_literals_then. split.
  - intros [b [-> _]]. eauto.
  - intros [b ->]. exists b. split; [reflexivity|].
    change (translate "*") with [Star]. apply accepts_star. exists b, "".
    split; [now rewrite append_nil_r | reflexivity].
Qed.

End PatternFacts.

(** ** The matcher on the usual shapes of pattern *)

Section MatcherFacts.

Import Reading.

Lemma replace_backslash_idempotent (s : string) :
  replace_backslash (replace_backslash s) = replace_backslash s.
Proof.
  induction s as [|c s IH]; [reflexivity|]. cbn [replace_backslash]. rewrite IH.
  destruct (Ascii.eqb c backslash) eqn:E; [reflexivity | now rewrite E].
Qed.

Lemma matches_pattern_normalized (N D pattern : string) :
  matches_pattern N D (replace_backslash pattern) = matches_pattern N D pattern.
Proof. unfold matches_pattern. now rewrite replace_backslash_idempotent. Qed.

Lemma existsb_map {A B : Type} (f : B -> bool) (g : A -> B) (l : list A) :
  existsb f (map g l) = existsb (fun x => f (g x)) l.
Proof. induction l as [|a l IH]; simpl; congruence. Qed.

Lemma matches_single (P pattern : string) :
  matches_any_pattern P [pattern]
  = matches_pattern (replace_backslash P)
      (if startswith (replace_backslash P) "./" then drop 2 (replace_backslash P)
       else replace_backslash P) pattern.
Proof. unfold matches_any_pattern. simpl. apply orb_false_r. Qed.

(** The suffix loop on a test that holds of every text its argument ends
    with: it adds nothing to the test on the whole path. *)
Lemma partial_paths_suffix (N x : string) :
  In x (partial_paths (split_slash N)) -> ends_with N x.
Proof.
  intros Hin. apply partial_paths_split in Hin.
  destruct Hin as [-> | [pre ->]]; [now exists ""|].
  exists (pre ++ "/"). now rewrite append_assoc.
Qed.

Lemma ends_with_trans (a b c : string) : ends_with a b -> ends_with b c -> ends_with a c.
Proof. intros [x ->] [y ->]. exists (x ++ y). now rewrite append_assoc. Qed.

Lemma plain_append (a b : string) : plain (a ++ b) = (plain a && plain b)%bool.
Proof.
  induction a as [|c a IH]; [reflexivity|].
  cbn [append]. rewrite (plain_cons c (a ++ b)), (plain_cons c a), IH.
  now rewrite andb_assoc.
Qed.

Lemma length_append (a b : string) :
  String.length (a ++ b) = String.length a + String.length b.
Proof. induction a; simpl; congruence. Qed.

Lemma substring_prefix (a b : string) : substring 0 (String.length a) (a ++ b) = a.
Proof.
  induction a as [|c a IH]; simpl; [destruct b; reflexivity | now rewrite IH].
Qed.

Lemma drop_last_slash (d : string) : drop_last 1 (d ++ "/") = d.
Proof.
  unfold drop_last. rewrite length_append. simpl String.length.
  replace (String.length d + 1 - 1) with (String.length d) by lia.
  apply substring_prefix.
Qed.

Lemma startswith_false_append (d e : string) :
  d <> "" -> startswith d "." = false -> startswith (d ++ e) "." = false.
Proof.
  destruct d as [|c d]; [congruence|]. intros _. unfold startswith.
  cbn [append]. rewrite !prefix_cons. destruct (Ascii.eqb "." c); [|reflexivity].
  destruct d; discriminate.
Qed.

End MatcherFacts.

Lemma matches_any_exists (P : string) (patterns : list string) :
  matches_any_pattern P patterns = true
  <-> exists pattern, In pattern patterns /\ matches_any_pattern P [pattern] = true.
Proof.
  unfold matches_any_pattern. rewrite existsb_exists. simpl existsb.
  split; intros [pattern [Hin H]]; exists pattern; split; auto.
  - now rewrite orb_false_r.
  - now rewrite orb_false_r in H.
Qed.

Lemma matches_any_monotone (P : string) (patterns patterns' : list string) :
  incl patterns patterns' ->
  matches_any_pattern P patterns = true -> matches_any_pattern P patterns' = true.
Proof.
  intros Hincl H. apply matches_any_exists in H. destruct H as [p [Hin Hp]].
  apply matches_any_exists. exists p. split; [now apply Hincl | exact Hp].
Qed.

(** X1: a pattern set matches when one of its patterns does, so neither the
    order of the patterns nor a repeated pattern changes the decision. *)
Theorem X1_any_pattern_decides (P : string) (patterns : list string) :
  matches_any_pattern P patterns = true
  <-> exists pattern, In pattern patterns /\ matches_any_pattern P [pattern] = true.
Proof. exact (matches_any_exists P patterns). Qed.

(** X2: backslashes and slashes are the same to the matcher, in the path and
    in the patterns. *)
Theorem X2_separator_insensitive (P : string) (patterns : list string) :
  matches_any_pattern (replace_backslash P) patterns = matches_any_pattern P patterns
  /\ matches_any_pattern P (map replace_backslash patterns)
     = matches_any_pattern P patterns.
Proof.
  split.
  - unfold matches_any_pattern. now rewrite replace_backslash_idempotent.
  - unfold matches_any_pattern. rewrite existsb_map.
    apply existsb_ext_in. intros pattern _. apply matches_pattern_normalized.
Qed.

Lemma plain_name_pattern (P pattern : string) :
  Reading.plain pattern = true ->
  forward_slash_normalized pattern ->
  endswith pattern "/" = false ->
  startswith pattern "." = false ->
  (matches_any_pattern P [pattern] = true
   <-> replace_backslash P = pattern
       \/ Reading.ends_with (replace_backslash P) ("/" ++ pattern)).
Proof.
  intros Hplain Hnorm Hend Hdot. rewrite matches_single.
  set (N := replace_backslash P). unfold matches_pattern. rewrite Hnorm, Hend, Hdot.
  cbn [andb orb]. rewrite orb_true_iff, existsb_exists, fnmatch_plain by exact Hplain.
  split.
  - intros [H | [x [Hin Hx]]]; [now left|].
    apply fnmatch_plain in Hx; [|exact Hplain]. subst x.
    apply partial_paths_split in Hin. destruct Hin as [<- | [pre Hpre]]; [now left|].
    right. exists pre. exact Hpre.
  - intros [H | [pre Hpre]]; [now left|].
    right. exists pattern. split; [|now apply fnmatch_plain].
    apply partial_paths_split. right. exists pre. exact Hpre.
Qed.

(** X3: a plain name (no wildcard, no trailing slash, no leading dot) matches
    the paths that are that name or end with a slash and that name: a file
    named by a pattern is matched at any depth. *)
Theorem X3_plain_name_pattern (P pattern : string) :
  Reading.plain pattern = true ->
  forward_slash_normalized pattern ->
  endswith pattern "/" = false ->
  startswith pattern "." = false ->
  (matches_any_pattern P [pattern] = true
   <-> replace_backslash P = pattern
       \/ Reading.ends_with (replace_backslash P) ("/" ++ pattern)).
Proof. exact (plain_name_pattern P pattern). Qed.

Lemma X3_plain_name_pattern_witness :
  Reading.plain "Dockerfile" = true
  /\ forward_slash_normalized "Dockerfile"
  /\ endswith "Dockerfile" "/" = false
  /\ startswith "Dockerfile" "." = false
  /\ (matches_any_pattern "svc\api/Dockerfile" ["Dockerfile"] = true
      <-> replace_backslash "svc\api/Dockerfile" = "Dockerfile"
          \/ Reading.ends_with (replace_backslash "svc\api/Dockerfile")
               ("/" ++ "Dockerfile")).
Proof.
  split; [reflexivity|]. split; [reflexivity|]. split; [reflexivity|].
  split; [reflexivity|].
  exact (X3_plain_name_pattern "svc\api/Dockerfile" "Dockerfile"
           eq_refl eq_refl eq_refl eq_refl).
Defined.

Lemma suffix_pattern (P lit : string) :
  Reading.plain lit = true ->
  forward_slash_normalized lit ->
  endswith lit "/" = false ->
  (matches_any_pattern P ["*" ++ lit] = true
   <-> Reading.ends_with (replace_backslash P) lit).
Proof.
  intros Hplain Hnorm Hend. rewrite matches_single.
  set (N := replace_backslash P). unfold matches_pattern.
  assert (Hq : replace_backslash ("*" ++ lit) = "*" ++ lit).
  { change ("*" ++ lit) with (String "*" lit). cbn [replace_backslash].
    rewrite Hnorm. reflexivity. }
  rewrite Hq.
  assert (Hend' : endswith ("*" ++ lit) "/" = false).
  { change ("*" ++ lit) with (String "*" lit). cbn [endswith]. rewrite Hend.
    destruct lit; reflexivity. }
  assert (Hdot : startswith ("*" ++ lit) "." = false).
  { unfold startswith. change ("*" ++ lit) with (String "*" lit).
    now rewrite prefix_cons. }
  rewrite Hend', Hdot. cbn [andb orb].
  rewrite orb_true_iff, existsb_exists, fnmatch_star_plain by exact Hplain.
  split.
  - intros [H | [x [Hin Hx]]]; [exact H|].
    apply fnmatch_star_plain in Hx; [|exact Hplain].
    eapply ends_with_trans; [eapply partial_paths_suffix; eauto | exact Hx].
  - intros H. now left.
Qed.

(** X4: a pattern made of a star and a plain text, such as ["*.pyc"], matches
    the paths that end with that text, whatever directories come before. *)
Theorem X4_suffix_pattern (P lit : string) :
  Reading.plain lit = true ->
  forward_slash_normalized lit ->
  endswith lit "/" = false ->
  (matches_any_pattern P ["*" ++ lit] = true
   <-> Reading.ends_with (replace_backslash P) lit).
Proof. exact (suffix_pattern P lit). Qed.

Lemma X4_suffix_pattern_witness :
  Reading.plain ".pyc" = true
  /\ forward_slash_normalized ".pyc"
  /\ endswith ".pyc" "/" = false
  /\ (matches_any_pattern "pkg/sub/mod.pyc" ["*" ++ ".pyc"] = true
      <-> Reading.ends_with (replace_backslash "pkg/sub/mod.pyc") ".pyc").
Proof.
  split; [reflexivity|]. split; [reflexivity|]. split; [reflexivity|].
  exact (X4_suffix_pattern "pkg/sub/mod.pyc" ".pyc" eq_refl eq_refl eq_refl).
Defined.

Section MatcherShapes.

Import Reading.

Lemma replace_backslash_append (a b : string) :
  replace_backslash (a ++ b) = replace_backslash a ++ replace_backslash b.
Proof. induction a as [|c a IH]; simpl; congruence. Qed.

(** The path as given and the path without a leading ["./"]. *)
Lemma no_dot_path_cases (N : string) :
  let D := if startswith N "./" then drop 2 N else N in
  forall Q, (Q = N \/ Q = D) <-> (Q = N \/ N = "./" ++ Q).
Proof.
  intros D Q. unfold D. destruct (startswith N "./") eqn:E.
  - apply startswith_spec in E. destruct E as [u ->]. simpl drop. split.
    + intros [-> | ->]; [now left | now right].
    + intros [-> | H]; [now left|]. right. simpl in H. now inversion H.
  - split; [intros [-> | ->]; now left|].
    intros [-> | H]; [now left|]. exfalso.
    assert (startswith N "./" = true) by (apply startswith_spec; eauto). congruence.
Qed.

End MatcherShapes.

(** X5: a plain pattern with a leading dot, such as [".gitignore"], matches
    what X3 says of it and also, through the test without the dot, the paths
    that are the undotted name, that end with a slash and the undotted name,
    or that start with the undotted name and a slash. *)
Theorem X5_dotted_name_pattern (P lit : string) :
  Reading.plain lit = true ->
  forward_slash_normalized lit ->
  endswith ("." ++ lit) "/" = false ->
  (matches_any_pattern P ["." ++ lit] = true
   <-> replace_backslash P = "." ++ lit
       \/ Reading.ends_with (replace_backslash P) ("/." ++ lit)
       \/ replace_backslash P = lit
       \/ Reading.ends_with (replace_backslash P) ("/" ++ lit)
       \/ Reading.starts_with (replace_backslash P) (lit ++ "/")).
Proof.
  intros Hplain Hnorm Hend. rewrite matches_single.
  set (N := replace_backslash P). unfold matches_pattern.
  assert (Hq : replace_backslash ("." ++ lit) = "." ++ lit).
  { change ("." ++ lit) with (String "." lit). cbn [replace_backslash].
    rewrite Hnorm. reflexivity. }
  rewrite Hq, Hend.
  assert (Hdot : startswith ("." ++ lit) "." = true).
  { apply startswith_spec. now exists lit. }
  rewrite Hdot. change (drop 1 ("." ++ lit)) with lit. cbn [andb orb].
  assert (Hp1 : Reading.plain ("." ++ lit) = true).
  { change ("." ++ lit) with (String "." lit). rewrite plain_cons, Hplain. reflexivity. }
  assert (Hp2 : Reading.plain ("/" ++ lit) = true).
  { change ("/" ++ lit) with (String "/" lit). rewrite plain_cons, Hplain. reflexivity. }
  assert (Hp3 : Reading.plain (lit ++ "/") = true).
  { rewrite plain_append, Hplain. reflexivity. }
  change ("*/" ++ lit) with ("*" ++ ("/" ++ lit)).
  replace (lit ++ "/*") with ((lit ++ "/") ++ "*") by apply append_assoc.
  rewrite !orb_true_iff, existsb_exists.
  rewrite (fnmatch_plain N lit Hplain), (fnmatch_star_plain N _ Hp2),
    (fnmatch_plain_star N _ Hp3), (fnmatch_plain N _ Hp1).
  split.
  - intros [[[[H | H] | H] | H] | [x [Hin Hx]]]; auto.
    apply fnmatch_plain in Hx; [|exact Hp1]. subst x.
    apply partial_paths_split in Hin. destruct Hin as [<- | [pre Hpre]]; [now left|].
    right; left. exists pre. exact Hpre.
  - intros [H | [[pre Hpre] | [H | [H | H]]]]; auto.
    right. exists ("." ++ lit). split; [|now apply fnmatch_plain].
    apply partial_paths_split. right. exists pre. exact Hpre.
Qed.

Lemma X5_dotted_name_pattern_witness :
  Reading.plain "gitignore" = true
  /\ forward_slash_normalized "gitignore"
  /\ endswith ("." ++ "gitignore") "/" = false
  /\ (matches_any_pattern "gitignore/notes.txt" ["." ++ "gitignore"] = true
      <-> replace_backslash "gitignore/notes.txt" = "." ++ "gitignore"
          \/ Reading.ends_with (replace_backslash "gitignore/notes.txt")
               ("/." ++ "gitignore")
          \/ replace_backslash "gitignore/notes.txt" = "gitignore"
          \/ Reading.ends_with (replace_backslash "gitignore/notes.txt")
               ("/" ++ "gitignore")
          \/ Reading.starts_with (replace_backslash "gitignore/notes.txt")
               ("gitignore" ++ "/")).
Proof.
  split; [reflexivity|]. split; [reflexivity|]. split; [reflexivity|].
  exact (X5_dotted_name_pattern "gitignore/notes.txt" "gitignore"
           eq_refl eq_refl eq_refl).
Defined.

Lemma directory_pattern (P d : string) :
  Reading.plain d = true ->
  forward_slash_normalized d ->
  d <> "" ->
  startswith d "." = false ->
  (matches_any_pattern P [d ++ "/"] = true
   <-> (exists Q, (Q = replace_backslash P \/ replace_backslash P = "./" ++ Q)
                  /\ (Q = d \/ Reading.starts_with Q (d ++ "/")))
       \/ Reading.ends_with (replace_backslash P) ("/" ++ d ++ "/")).
Proof.
  intros Hplain Hnorm Hne Hdot. rewrite matches_single.
  set (N := replace_backslash P). clearbody N. unfold matches_pattern.
  assert (Hq : replace_backslash (d ++ "/") = d ++ "/")
    by (rewrite replace_backslash_append, Hnorm; reflexivity).
  rewrite Hq.
  assert (Hend : endswith (d ++ "/") "/" = true) by (apply endswith_spec; now exists d).
  rewrite Hend, drop_last_slash, (startswith_false_append d "/" Hne Hdot).
  cbn [andb orb]. rewrite orb_false_r.
  assert (Hp : Reading.plain (d ++ "/") = true)
    by (rewrite plain_append, Hplain; reflexivity).
  rewrite !orb_true_iff, !startswith_spec, !String.eqb_eq, existsb_exists,
    (fnmatch_plain N _ Hp).
  pose proof (no_dot_path_cases N) as Hcases. cbv zeta in Hcases.
  set (D := if startswith N "./" then drop 2 N else N) in *.
  split.
  - intros [[[[[H | H] | H] | H] | H] | [x [Hin Hx]]].
    + left. exists N. split; [now left | now right].
    + left. exists N. split; [now left | now left].
    + left. exists D. split; [apply Hcases; now right | now right].
    + left. exists D. split; [apply Hcases; now right | now left].
    + left. exists N. split; [now left|]. right. exists "". now rewrite append_nil_r.
    + apply fnmatch_plain in Hx; [|exact Hp]. subst x.
      apply partial_paths_split in Hin. destruct Hin as [Hin | [pre Hpre]].
      * left. exists N. split; [now left|]. right. exists "".
        now rewrite append_nil_r.
      * right. exists pre. exact Hpre.
  - intros [[Q [HQ Hd]] | [pre Hpre]].
    + apply Hcases in HQ. destruct HQ as [-> | ->], Hd as [H | H]; tauto.
    + right. exists (d ++ "/"). split; [|now apply fnmatch_plain].
      apply partial_paths_split. right. exists pre. exact Hpre.
Qed.

(** X6: a directory pattern, a plain name and a slash, matches the directory
    itself and what lies below it only when the path starts there (as given
    or after one leading ["./"]); deeper in the tree it matches nothing but a
    path that ends with a slash, the name and a slash. *)
Theorem X6_directory_pattern (P d : string) :
  Reading.plain d = true ->
  forward_slash_normalized d ->
  d <> "" ->
  startswith d "." = false ->
  (matches_any_pattern P [d ++ "/"] = true
   <-> (exists Q, (Q = replace_backslash P \/ replace_backslash P = "./" ++ Q)
                  /\ (Q = d \/ Reading.starts_with Q (d ++ "/")))
       \/ Reading.ends_with (replace_backslash P) ("/" ++ d ++ "/")).
Proof. exact (directory_pattern P d). Qed.

Lemma X6_directory_pattern_witness :
  Reading.plain "build" = true
  /\ forward_slash_normalized "build"
  /\ "build" <> ""
  /\ startswith "build" "." = false
  /\ (matches_any_pattern "src/build/out.o" ["build" ++ "/"] = true
      <-> (exists Q, (Q = replace_backslash "src/build/out.o"
                      \/ replace_backslash "src/build/out.o" = "./" ++ Q)
                     /\ (Q = "build" \/ Reading.starts_with Q ("build" ++ "/")))
          \/ Reading.ends_with (replace_backslash "src/build/out.o")
               ("/" ++ "build" ++ "/")).
Proof.
  assert (Hne : "build" <> "") by discriminate.
  split; [reflexivity|]. split; [reflexivity|]. split; [exact Hne|].
  split; [reflexivity|].
  exact (X6_directory_pattern "src/build/out.o" "build" eq_refl eq_refl Hne eq_refl).
Defined.

(** ** What the walk returns *)

Section WalkReach.

Import Reading.

Variables include_patterns exclude_patterns : list string.
Variable max_size_kb : Z.
Variable max_depth : option nat.

Local Abbreviation selected := (file_selected include_patterns exclude_patterns max_size_kb).
Local Abbreviation reach := (reaches exclude_patterns max_depth).

(** What [walk] returns below the directory [e] are the selected files the
    walk reaches there. *)
Local Abbreviation walk_reaches comps e found :=
  (forall info rel,
      In (info, rel) found
      <-> exists name children parts,
            e = Dir name children
            /\ reach (comps ++ [name])%list children parts info
            /\ rel = join_slash ((comps ++ [name]) ++ parts)%list
            /\ selected rel info = true).

Lemma visit_reaches comps children (w : entry -> list (file_info * string)) info rel :
  Forall (fun e => walk_reaches comps e (w e)) children ->
  (In (info, rel)
     (visit include_patterns exclude_patterns max_size_kb max_depth comps children w)
   <-> exists parts,
         reach comps children parts info
         /\ rel = join_slash (comps ++ parts)%list
         /\ selected rel info = true).
Proof.
  intros Hall. rewrite Forall_forall in Hall. unfold visit.
  rewrite in_app_iff, !in_flat_map. split.
  - intros [[e [He Hin]] | [e [He Hin]]].
    + destruct e as [filename file_path | dirname sub]; [|destruct Hin].
      destruct (selected (relative_to_root comps filename) file_path) eqn:Esel;
        [|destruct Hin].
      destruct Hin as [Hin | []]. inversion Hin; subst.
      exists [filename]. split; [now apply reach_file|]. split; [reflexivity | exact Esel].
    + destruct e as [filename file_path | dirname sub]; [destruct Hin|].
      destruct (depth_reached max_depth (relpath comps)) eqn:Ed; [destruct Hin|].
      destruct (subdir_excluded exclude_patterns (relpath comps) dirname) eqn:Ex;
        [destruct Hin|].
      apply (Hall _ He) in Hin.
      destruct Hin as (name & ch & parts & Heq & Hr & -> & Hsel).
      inversion Heq; subst.
      exists (name :: parts). rewrite <- app_assoc in Hsel |- *.
      split; [eapply reach_below; eauto|]. split; [reflexivity | exact Hsel].
  - intros (parts & Hr & -> & Hsel).
    inversion Hr as [? ? name ? Hin | ? ? name ch rest ? Hin Hd Hx Hrest]; subst.
    + left. exists (File name info). split; [exact Hin|].
      unfold relative_to_root. rewrite Hsel. now left.
    + right. exists (Dir name ch). split; [exact Hin|].
      rewrite Hd, Hx. apply (Hall _ Hin).
      exists name, ch, rest. rewrite <- app_assoc. auto.
Qed.

Lemma walk_walk_reaches e :
  forall comps,
    walk_reaches comps e
      (walk include_patterns exclude_patterns max_size_kb max_depth comps e).
Proof.
  induction e as [name info | name children IH] using entry_induction;
    intros comps info' rel.
  - simpl. split; [tauto | intros (n & c & p & E & _); discriminate].
  - cbn [walk]. rewrite (visit_reaches (comps ++ [name])%list children).
    + split.
      * intros (parts & Hr & -> & Hsel). exists name, children, parts. auto.
      * intros (n & c & parts & E & Hr & -> & Hsel). inversion E; subst. eauto.
    + rewrite Forall_forall in *. intros e He. apply (IH e He).
Qed.

Lemma find_files_reaches root_dir info rel :
  In (info, rel)
    (find_files include_patterns exclude_patterns max_size_kb max_depth root_dir)
  <-> exists parts,
        reach [] root_dir parts info
        /\ rel = join_slash parts
        /\ selected rel info = true.
Proof.
  unfold find_files. apply (visit_reaches [] root_dir).
  rewrite Forall_forall. intros e _. apply walk_walk_reaches.
Qed.

(** Every directory on the way to a reached file was entered. *)
Lemma reaches_ancestors comps l parts info :
  reach comps l parts info ->
  forall before name after,
    parts = (before ++ name :: after)%list -> after <> [] ->
    depth_reached max_depth (relpath (comps ++ before)) = false
    /\ subdir_excluded exclude_patterns (relpath (comps ++ before)) name = false.
Proof.
  induction 1 as [comps l n info Hin | comps l n ch rest info Hin Hd Hx Hr IH];
    intros before name after Heq Hafter.
  - destruct before as [|b before]; simpl in Heq; inversion Heq; subst; [congruence|].
    destruct before; discriminate.
  - destruct before as [|b before]; simpl in Heq; inversion Heq; subst.
    + rewrite app_nil_r. auto.
    + specialize (IH before name after eq_refl Hafter).
      rewrite <- app_assoc in IH. exact IH.
Qed.

End WalkReach.

Section WalkShape.

Import Reading.

Lemma distinct_NoDup {A : Type} (f : A -> string) (l : list A) :
  distinct (map f l) = true -> NoDup l.
Proof.
  induction l as [|a l IH]; simpl; [constructor|].
  rewrite andb_true_iff, negb_true_iff. intros [Hnot Hd].
  constructor; [|auto].
  intros Hin. assert (existsb (String.eqb (f a)) (map f l) = true); [|congruence].
  apply existsb_exists. exists (f a). split; [now apply in_map | apply String.eqb_refl].
Qed.

Lemma NoDup_map_flat_map {A B C : Type} (g : B -> C) (f : A -> list B) (l : list A) :
  NoDup l ->
  (forall x, In x l -> NoDup (map g (f x))) ->
  (forall x y b c, In x l -> In y l -> In b (f x) -> In c (f y) -> g b = g c -> x = y) ->
  NoDup (map g (flat_map f l)).
Proof.
  induction l as [|a l IH]; intros Hnd Heach Hcross; simpl; [constructor|].
  inversion Hnd as [|? ? Ha Hl]; subst.
  rewrite map_app. apply NoDup_app.
  - apply Heach. now left.
  - apply IH; auto.
    + intros x Hx. apply Heach. now right.
    + intros x y b c Hx Hy. apply Hcross; now right.
  - intros v Hv Hv'. apply in_map_iff in Hv. destruct Hv as [b [<- Hb]].
    apply in_map_iff in Hv'. destruct Hv' as [c [Hc Hin]].
    apply in_flat_map in Hin. destruct Hin as [y [Hy Hcy]].
    assert (a = y) as ->; [|contradiction].
    apply (Hcross a y b c); auto; [now left | now right].
Qed.

Lemma join_slash_injective (p q : list string) :
  p <> [] -> q <> [] ->
  Forall (fun c => slash_free c = true) p ->
  Forall (fun c => slash_free c = true) q ->
  join_slash p = join_slash q -> p = q.
Proof.
  intros Hp Hq Fp Fq E.
  assert (E' : split_slash (join_slash p) = split_slash (join_slash q)) by congruence.
  now rewrite !split_join_slash in E' by assumption.
Qed.

Lemma reaches_file_at exclude_patterns max_depth comps l parts info :
  reaches exclude_patterns max_depth comps l parts info -> file_at l parts.
Proof.
  induction 1; [eapply file_here | eapply file_below]; eauto.
Qed.

Variables include_patterns exclude_patterns : list string.
Variable max_size_kb : Z.
Variable max_depth : option nat.

Local Abbreviation selected := (file_selected include_patterns exclude_patterns max_size_kb).

Lemma visit_distinct comps children (w : entry -> list (file_info * string)) :
  Forall (fun c => slash_free c = true) comps ->
  wf_repo children = true ->
  Forall (fun e => walks_into selected comps e (w e) /\ NoDup (map snd (w e))) children ->
  NoDup (map snd
           (visit include_patterns exclude_patterns max_size_kb max_depth comps children w)).
Proof.
  intros Hcomps Hwf Hall. rewrite Forall_forall in Hall.
  assert (Hd : distinct (map entry_name children) = true).
  { unfold wf_repo in Hwf. apply andb_true_iff in Hwf. tauto. }
  assert (Hname : forall e, In e children ->
                    Forall (fun c => slash_free c = true) (comps ++ [entry_name e])%list).
  { intros e He. apply Forall_app. split; [exact Hcomps|].
    constructor; [apply (wf_repo_name children e Hwf He) | constructor]. }
  assert (Hbelow : forall e b, In e children -> In b (w e) ->
            exists name ch parts,
              e = Dir name ch /\ parts <> []
              /\ Forall (fun c => slash_free c = true) parts
              /\ snd b = join_slash (comps ++ name :: parts)%list).
  { intros e [info rel] He Hb.
    destruct (proj1 (Hall e He) info rel Hb) as (name & ch & parts & -> & Hat & -> & _).
    exists name, ch, parts. split; [reflexivity|].
    split; [eapply file_at_not_nil; eauto|].
    split; [|now rewrite <- app_assoc].
    eapply file_at_slash_free; [|exact Hat]. eapply wf_repo_child; eauto. }
  assert (Hfile : forall e b, In e children ->
            In b match e with
                 | File filename file_path =>
                     if selected (relative_to_root comps filename) file_path
                     then [(file_path, relative_to_root comps filename)] else []
                 | Dir _ _ => []
                 end ->
            exists info, e = File (entry_name e) info
                         /\ snd b = join_slash (comps ++ [entry_name e])%list).
  { intros [n i | n c] b He Hb; [|destruct Hb].
    destruct (selected _ _); [|destruct Hb]. destruct Hb as [<- | []].
    exists i. split; reflexivity. }
  assert (Hdir : forall e b, In e children ->
            In b match e with
                 | Dir dirname _ =>
                     if depth_reached max_depth (relpath comps) then []
                     else if subdir_excluded exclude_patterns (relpath comps) dirname
                          then [] else w e
                 | File _ _ => []
                 end ->
            In b (w e)).
  { intros [n i | n c] b He Hb; [destruct Hb|].
    destruct (depth_reached _ _); [destruct Hb|].
    destruct (subdir_excluded _ _ _); [destruct Hb | exact Hb]. }
  assert (Hfull : forall name parts,
            slash_free name = true -> Forall (fun c => slash_free c = true) parts ->
            Forall (fun c => slash_free c = true) (comps ++ name :: parts)%list).
  { intros name parts Hn Hp. apply Forall_app. split; [exact Hcomps | now constructor]. }
  unfold visit. rewrite map_app. apply NoDup_app.
  - apply NoDup_map_flat_map.
    + apply (distinct_NoDup entry_name _ Hd).
    + intros [n i | n c] _; [|constructor].
      destruct (selected _ _); simpl; [|constructor].
      constructor; [intros [] | constructor].
    + intros x y b c Hx Hy Hb Hc E.
      destruct (Hfile x b Hx Hb) as (i & Ex & Eb).
      destruct (Hfile y c Hy Hc) as (j & Ey & Ec).
      apply (distinct_names entry_name children x y Hd Hx Hy).
      rewrite Eb, Ec in E. apply join_slash_injective in E; auto.
      * apply app_inv_head in E. now inversion E.
      * now destruct comps.
      * now destruct comps.
  - apply NoDup_map_flat_map.
    + apply (distinct_NoDup entry_name _ Hd).
    + intros [n i | n c] He; [constructor|].
      destruct (depth_reached _ _); [constructor|].
      destruct (subdir_excluded _ _ _); [constructor|].
      apply (Hall _ He).
    + intros x y b c Hx Hy Hb Hc E.
      destruct (Hbelow x b Hx (Hdir x b Hx Hb)) as (n & ch & p & -> & Hp & Fp & Eb).
      destruct (Hbelow y c Hy (Hdir y c Hy Hc)) as (m & ch' & q & -> & Hq & Fq & Ec).
      apply (distinct_names entry_name children _ _ Hd Hx Hy). simpl.
      rewrite Eb, Ec in E. apply join_slash_injective in E.
      * apply app_inv_head in E. now inversion E.
      * now destruct comps.
      * now destruct comps.
      * apply Hfull; [apply (wf_repo_name children _ Hwf Hx) | exact Fp].
      * apply Hfull; [apply (wf_repo_name children _ Hwf Hy) | exact Fq].
  - intros v Hv Hv'.
    apply in_map_iff in Hv. destruct Hv as [b [<- Hb]].
    apply in_map_iff in Hv'. destruct Hv' as [c [E Hc]].
    apply in_flat_map in Hb. destruct Hb as [x [Hx Hb]].
    apply in_flat_map in Hc. destruct Hc as [y [Hy Hc]].
    destruct (Hfile x b Hx Hb) as (i & Ex & Eb).
    destruct (Hbelow y c Hy (Hdir y c Hy Hc)) as (m & ch' & q & -> & Hq & Fq & Ec).
    rewrite Eb, Ec in E. apply join_slash_injective in E.
    + apply app_inv_head in E. inversion E. congruence.
    + now destruct comps.
    + now destruct comps.
    + apply Hfull; [apply (wf_repo_name children _ Hwf Hy) | exact Fq].
    + apply Hname. exact Hx.
Qed.

Lemma walk_distinct e :
  forall comps,
    Forall (fun c => slash_free c = true) comps ->
    wf_entry e = true ->
    NoDup (map snd (walk include_patterns exclude_patterns max_size_kb max_depth comps e)).
Proof.
  induction e as [name info | name children IH] using entry_induction;
    intros comps Hcomps Hwf; [constructor|].
  cbn [walk]. simpl in Hwf. rewrite !andb_true_iff in Hwf. destruct Hwf as [[Hn Hd] Hall].
  assert (Hcomps' : Forall (fun c => slash_free c = true) (comps ++ [name])%list).
  { apply Forall_app. split; [exact Hcomps | now repeat constructor]. }
  apply visit_distinct; [exact Hcomps' | |].
  - unfold wf_repo. now rewrite Hd, Hall.
  - rewrite Forall_forall in IH. rewrite Forall_forall.
    intros e He. split; [apply walk_file_at|].
    apply (IH e He); [exact Hcomps'|].
    rewrite forallb_forall in Hall. now apply Hall.
Qed.

Lemma find_files_distinct root_dir :
  wf_repo root_dir = true ->
  NoDup (map snd (find_files include_patterns exclude_patterns max_size_kb max_depth
                    root_dir)).
Proof.
  intros Hwf. unfold find_files. apply visit_distinct; [constructor | exact Hwf |].
  rewrite Forall_forall. intros e He. split; [apply walk_file_at|].
  apply walk_distinct; [constructor|].
  unfold wf_repo in Hwf. apply andb_true_iff in Hwf. destruct Hwf as [_ Hall].
  rewrite forallb_forall in Hall. now apply Hall.
Qed.

End WalkShape.

(** ** [find_files] *)

Section WalkFacts.

Import Reading.

Lemma reaches_monotone exclude_patterns exclude_patterns' max_depth comps l parts info :
  incl exclude_patterns exclude_patterns' ->
  reaches exclude_patterns' max_depth comps l parts info ->
  reaches exclude_patterns max_depth comps l parts info.
Proof.
  intros Hincl. induction 1 as [| comps l n ch rest info Hin Hd Hx Hr IH].
  - now apply reach_file.
  - eapply reach_below; eauto. unfold subdir_excluded in *.
    destruct (matches_any_pattern _ exclude_patterns) eqn:E; [|reflexivity].
    apply (matches_any_monotone _ _ _ Hincl) in E. congruence.
Qed.

Lemma file_selected_monotone include_patterns include_patterns' exclude_patterns
    exclude_patterns' max_size_kb rel info :
  incl include_patterns' include_patterns ->
  incl exclude_patterns exclude_patterns' ->
  file_selected include_patterns' exclude_patterns' max_size_kb rel info = true ->
  file_selected include_patterns exclude_patterns max_size_kb rel info = true.
Proof.
  intros Hinc Hexc. unfold file_selected.
  destruct (matches_any_pattern rel exclude_patterns') eqn:E'; [discriminate|].
  destruct (matches_any_pattern rel exclude_patterns) eqn:E.
  { apply (matches_any_monotone _ _ _ Hexc) in E. congruence. }
  destruct (_ >? _)%Z; [discriminate|].
  rewrite !andb_true_iff. intros [Hm Hb]. split; [|exact Hb].
  exact (matches_any_monotone _ _ _ Hinc Hm).
Qed.

Lemma reaches_parts exclude_patterns max_depth root_dir parts info :
  wf_repo root_dir = true ->
  reaches exclude_patterns max_depth [] root_dir parts info ->
  split_slash (join_slash parts) = parts.
Proof.
  intros Hwf Hr. apply reaches_file_at in Hr.
  apply split_join_slash; [eapply file_at_not_nil | eapply file_at_slash_free]; eauto.
Qed.

Lemma find_files_monotone
    (include_patterns include_patterns' exclude_patterns exclude_patterns' : list string)
    (max_size_kb : Z) (max_depth : option nat) (root_dir : list entry)
    (found : file_info * string) :
  incl include_patterns' include_patterns ->
  incl exclude_patterns exclude_patterns' ->
  In found
    (find_files include_patterns' exclude_patterns' max_size_kb max_depth root_dir) ->
  In found
    (find_files include_patterns exclude_patterns max_size_kb max_depth root_dir).
Proof.
  intros Hinc Hexc. destruct found as [info rel]. rewrite !find_files_reaches.
  intros (parts & Hr & -> & Hsel). exists parts.
  split; [exact (reaches_monotone _ _ _ _ _ _ _ Hexc Hr)|].
  split; [reflexivity|].
  exact (file_selected_monotone _ _ _ _ _ _ _ Hinc Hexc Hsel).
Qed.

Lemma slash_end_drop_last (p : string) :
  endswith p "/" = true -> drop_last 1 p ++ "/" = p.
Proof.
  intros H. apply endswith_spec in H. destruct H as [pre ->].
  now rewrite drop_last_slash.
Qed.

(** The first rule of the matcher: a pattern that ends with a slash
    matches every path that starts with it. *)
Lemma directory_pattern_prefix (P pattern : string) :
  endswith (replace_backslash pattern) "/" = true ->
  starts_with (replace_backslash P) (replace_backslash pattern) ->
  matches_any_pattern P [pattern] = true.
Proof.
  intros Hend Hstart. rewrite matches_single. unfold matches_pattern.
  rewrite Hend, (slash_end_drop_last _ Hend).
  apply startswith_spec in Hstart. rewrite Hstart. reflexivity.
Qed.

End WalkFacts.

(** X7: the walk returns exactly the files that pass the file tests and
    whose every ancestor directory was entered: none of them beyond the
    depth limit, none of them matching an exclude pattern. *)
Theorem X7_walk_returns_reached_files
    (include_patterns exclude_patterns : list string) (max_size_kb : Z)
    (max_depth : option nat) (root_dir : list entry) (info : file_info) (rel : string) :
  In (info, rel)
    (find_files include_patterns exclude_patterns max_size_kb max_depth root_dir)
  <-> exists parts,
        Reading.reaches exclude_patterns max_depth [] root_dir parts info
        /\ rel = join_slash parts
        /\ file_selected include_patterns exclude_patterns max_size_kb rel info = true.
Proof. apply find_files_reaches. Qed.

(** X8: exclusion comes first and cannot be overridden: a returned file
    matches no exclude pattern, whatever include pattern it matches; it is
    within the size limit, matches an include pattern and is not binary. *)
Theorem X8_returned_files_pass_tests
    (include_patterns exclude_patterns : list string) (max_size_kb : Z)
    (max_depth : option nat) (root_dir : list entry) (info : file_info) (rel : string) :
  In (info, rel)
    (find_files include_patterns exclude_patterns max_size_kb max_depth root_dir) ->
  matches_any_pattern rel exclude_patterns = false
  /\ (st_size info <= max_size_kb * 1024)%Z
  /\ matches_any_pattern rel include_patterns = true
  /\ is_binary_file info = false.
Proof. apply find_files_selected. Qed.

Lemma X8_returned_files_pass_tests_witness :
  matches_any_pattern "docs/README.md" ["*.pyc"] = false
  /\ (st_size (Samples.text_file "# docs") <= 1024 * 1024)%Z
  /\ matches_any_pattern "docs/README.md" ["README.md"] = true
  /\ is_binary_file (Samples.text_file "# docs") = false.
Proof.
  apply (X8_returned_files_pass_tests ["README.md"] ["*.pyc"] 1024 None
           Samples.docs_repo).
  vm_compute. left. reflexivity.
Defined.

(** X9: no file below a pruned directory is returned: for every directory
    on the way to a returned file, the depth limit was not reached in its
    parent and its path, as the walk forms it, matches no exclude pattern. *)
Theorem X9_no_file_below_pruned_directory
    (include_patterns exclude_patterns : list string) (max_size_kb : Z)
    (max_depth : option nat) (root_dir : list entry) (info : file_info) (rel : string)
    (before : list string) (name : string) (after : list string) :
  wf_repo root_dir = true ->
  In (info, rel)
    (find_files include_patterns exclude_patterns max_size_kb max_depth root_dir) ->
  split_slash rel = (before ++ name :: after)%list ->
  after <> [] ->
  depth_reached max_depth (relpath before) = false
  /\ subdir_excluded exclude_patterns (relpath before) name = false.
Proof.
  intros Hwf Hin Hsplit Hafter.
  apply find_files_reaches in Hin. destruct Hin as (parts & Hr & -> & _).
  rewrite (reaches_parts _ _ _ _ _ Hwf Hr) in Hsplit.
  exact (reaches_ancestors _ _ _ _ _ _ Hr before name after Hsplit Hafter).
Qed.

Lemma X9_no_file_below_pruned_directory_witness :
  depth_reached None (relpath ["docs"]) = false
  /\ subdir_excluded ["*.pyc"] (relpath ["docs"]) "nested" = false.
Proof.
  apply (X9_no_file_below_pruned_directory ["README.md"] ["*.pyc"] 1024 None
           Samples.nested_readme_repo (Samples.text_file "# nested")
           "docs/nested/README.md" ["docs"] "nested" ["README.md"]).
  - reflexivity.
  - vm_compute. left. reflexivity.
  - reflexivity.
  - discriminate.
Defined.

(** X10: with a depth limit, a returned path has at most that many
    directories above the file (no directory of the root being named
    ["."], as on a real file system). *)
Theorem X10_depth_limit_bounds_paths
    (include_patterns exclude_patterns : list string) (max_size_kb : Z)
    (limit : nat) (root_dir : list entry) (info : file_info) (rel : string) :
  wf_repo root_dir = true ->
  (forall children, ~ In (Dir "." children) root_dir) ->
  In (info, rel)
    (find_files include_patterns exclude_patterns max_size_kb (Some limit) root_dir) ->
  List.length (split_slash rel) <= limit + 1.
Proof.
  intros Hwf Hdot Hin.
  apply find_files_reaches in Hin. destruct Hin as (parts & Hr & -> & _).
  rewrite (reaches_parts _ _ _ _ _ Hwf Hr).
  pose proof (reaches_file_at _ _ _ _ _ _ Hr) as Hat.
  pose proof (file_at_slash_free _ _ Hwf Hat) as Hfree.
  destruct (exists_last (file_at_not_nil _ _ Hat)) as (dirs & file & ->).
  destruct dirs as [|d dirs]; [simpl; lia|].
  assert (Hne : d :: dirs <> []) by discriminate.
  destruct (exists_last Hne) as (before & name & E). rewrite E in *. clear E Hne.
  rewrite <- app_assoc in Hr, Hfree. simpl in Hr, Hfree.
  assert (Hafter : [file] <> []) by discriminate.
  destruct (reaches_ancestors _ _ _ _ _ _ Hr before name [file] eq_refl Hafter)
    as [Hd _].
  rewrite !length_app. simpl. simpl in Hd.
  unfold depth_reached in Hd. apply Nat.leb_gt in Hd.
  destruct before as [|b before]; [simpl in *; lia|].
  cbn [relpath] in Hd.
  apply Forall_app in Hfree. destruct Hfree as [Hbefore _].
  assert (Hb : b :: before <> []) by discriminate.
  pose proof (split_join_slash (b :: before) Hb Hbefore) as Hsplit.
  destruct (String.eqb_spec (join_slash (b :: before)) ".") as [Edot | _].
  - exfalso. rewrite Edot in Hsplit. simpl in Hsplit. inversion Hsplit; subst.
    inversion Hr; subst. eapply Hdot; eauto.
  - rewrite Hsplit in Hd. lia.
Qed.

Lemma X10_depth_limit_bounds_paths_witness :
  List.length (split_slash "main.py") <= 1 + 1.
Proof.
  apply (X10_depth_limit_bounds_paths ["*.py"; "*.md"] [] 1024 1
           Samples.nested_readme_repo (Samples.text_file "print(1)") "main.py").
  - reflexivity.
  - intros children [H | [H | []]]; discriminate.
  - vm_compute. left. reflexivity.
Defined.

(** X11: with [max_depth = 0] the walk enters no directory: it returns the
    files of the root that pass the file tests, and nothing else. *)
Theorem X11_depth_zero_is_root_only
    (include_patterns exclude_patterns : list string) (max_size_kb : Z)
    (root_dir : list entry) (info : file_info) (rel : string) :
  In (info, rel)
    (find_files include_patterns exclude_patterns max_size_kb (Some 0) root_dir)
  <-> In (File rel info) root_dir
      /\ file_selected include_patterns exclude_patterns max_size_kb rel info = true.
Proof.
  rewrite find_files_reaches. split.
  - intros (parts & Hr & -> & Hsel).
    inversion Hr as [? ? name ? Hin | ? ? name ch rest ? Hin Hd]; subst.
    + split; [exact Hin | exact Hsel].
    + discriminate Hd.
  - intros [Hin Hsel]. exists [rel]. split; [now apply Reading.reach_file|].
    split; [reflexivity | exact Hsel].
Qed.

(** X12: narrowing the patterns only removes results: with fewer include
    patterns and more exclude patterns, every returned file was already
    returned before. *)
Theorem X12_patterns_monotone
    (include_patterns include_patterns' exclude_patterns exclude_patterns' : list string)
    (max_size_kb : Z) (max_depth : option nat) (root_dir : list entry)
    (found : file_info * string) :
  incl include_patterns' include_patterns ->
  incl exclude_patterns exclude_patterns' ->
  In found
    (find_files include_patterns' exclude_patterns' max_size_kb max_depth root_dir) ->
  In found
    (find_files include_patterns exclude_patterns max_size_kb max_depth root_dir).
Proof. apply find_files_monotone. Qed.

Lemma X12_patterns_monotone_witness :
  In (Samples.text_file "print(1)", "main.py")
    (find_files ["*.py"; "*.md"] [] 1024 None Samples.docs_repo).
Proof.
  apply (X12_patterns_monotone ["*.py"; "*.md"] ["*.py"] [] ["docs/"] 1024 None
           Samples.docs_repo).
  - intros x [<- | []]. now left.
  - intros x [].
  - vm_compute. left. reflexivity.
Defined.

(** X13: in a directory tree with unique, slash-free names no relative
    path is returned twice. *)
Theorem X13_returned_paths_distinct
    (include_patterns exclude_patterns : list string) (max_size_kb : Z)
    (max_depth : option nat) (root_dir : list entry) :
  wf_repo root_dir = true ->
  NoDup (map snd
           (find_files include_patterns exclude_patterns max_size_kb max_depth root_dir)).
Proof. apply find_files_distinct. Qed.

Lemma X13_returned_paths_distinct_witness :
  NoDup (map snd (find_files ["*.py"; "*.md"] [] 1024 None Samples.nested_readme_repo)).
Proof.
  apply (X13_returned_paths_distinct ["*.py"; "*.md"] [] 1024 None
           Samples.nested_readme_repo).
  reflexivity.
Defined.

(** X14: a suffix pattern among the exclude patterns, such as ["*.pyc"],
    keeps every file whose path ends with that text out of the result, at
    any depth. *)
Theorem X14_excluded_suffix_never_returned
    (include_patterns exclude_patterns : list string) (max_size_kb : Z)
    (max_depth : option nat) (root_dir : list entry) (info : file_info) (rel lit : string) :
  Reading.plain lit = true ->
  forward_slash_normalized lit ->
  endswith lit "/" = false ->
  In ("*" ++ lit) exclude_patterns ->
  In (info, rel)
    (find_files include_patterns exclude_patterns max_size_kb max_depth root_dir) ->
  ~ Reading.ends_with (replace_backslash rel) lit.
Proof.
  intros Hplain Hnorm Hend Hpat Hin Hends.
  apply find_files_selected in Hin. destruct Hin as [Hex _].
  assert (matches_any_pattern rel exclude_patterns = true); [|congruence].
  apply matches_any_exists. exists ("*" ++ lit). split; [exact Hpat|].
  now apply suffix_pattern.
Qed.

Lemma X14_excluded_suffix_never_returned_witness :
  ~ Reading.ends_with (replace_backslash "main.py") ".md".
Proof.
  apply (X14_excluded_suffix_never_returned ["*.py"; "*.md"] ["*.md"] 1024 None
           Samples.docs_repo (Samples.text_file "print(1)") "main.py" ".md").
  - reflexivity.
  - reflexivity.
  - reflexivity.
  - now left.
  - vm_compute. left. reflexivity.
Defined.

(** X15: a directory pattern among the exclude patterns keeps out every
    file whose path starts with it: what lies below that directory of the
    root is never returned. *)
Theorem X15_excluded_directory_never_returned
    (include_patterns exclude_patterns : list string) (max_size_kb : Z)
    (max_depth : option nat) (root_dir : list entry) (info : file_info)
    (rel pattern : string) :
  In pattern exclude_patterns ->
  endswith (replace_backslash pattern) "/" = true ->
  In (info, rel)
    (find_files include_patterns exclude_patterns max_size_kb max_depth root_dir) ->
  ~ Reading.starts_with (replace_backslash rel) (replace_backslash pattern).
Proof.
  intros Hpat Hend Hin Hstart.
  apply find_files_selected in Hin. destruct Hin as [Hex _].
  assert (matches_any_pattern rel exclude_patterns = true); [|congruence].
  apply matches_any_exists. exists pattern. split; [exact Hpat|].
  now apply directory_pattern_prefix.
Qed.

Lemma X15_excluded_directory_never_returned_witness :
  ~ Reading.starts_with (replace_backslash "main.py") (replace_backslash "docs\").
Proof.
  apply (X15_excluded_directory_never_returned ["*.py"; "*.md"] ["docs\"] 1024 None
           Samples.docs_repo (Samples.text_file "print(1)") "main.py" "docs\").
  - now left.
  - reflexivity.
  - vm_compute. left. reflexivity.
Defined.

(** ** [Config] *)

Section ConfigFacts.

Import Config Reading.

Lemma set_add_keeps (p x : string) (s : list string) : In p s -> In p (set_add x s).
Proof.
  unfold set_add. destruct (existsb (String.eqb x) s); [tauto|].
  rewrite in_app_iff. tauto.
Qed.

Lemma set_add_adds (x : string) (s : list string) : In x (set_add x s).
Proof.
  unfold set_add. destruct (existsb (String.eqb x) s) eqn:E.
  - apply existsb_exists in E. destruct E as [y [Hy E]].
    apply String.eqb_eq in E. now subst.
  - rewrite in_app_iff. right. now left.
Qed.

Lemma set_map_image (f : string -> string) (s : list string) (q : string) :
  In q s -> In (f q) (set_map f s).
Proof.
  unfold set_map.
  assert (Hkeep : forall l acc p,
             In p acc -> In p (fold_left (fun acc q => set_add (f q) acc) l acc)).
  { induction l as [|a l IH]; intros acc p Hp; simpl; [exact Hp|].
    apply IH. now apply set_add_keeps. }
  generalize (@nil string).
  induction s as [|a s IH]; intros acc Hq; simpl; [destruct Hq|].
  destruct Hq as [-> | Hq]; [|now apply IH].
  apply Hkeep. apply set_add_adds.
Qed.

Lemma In_set_map_iff (f : string -> string) (s : list string) (p : string) :
  In p (set_map f s) <-> exists q, In q s /\ p = f q.
Proof.
  split; [apply In_set_map|]. intros [q [Hq ->]]. now apply set_map_image.
Qed.

Lemma replace_backslash_substring (k : nat) (s : string) :
  replace_backslash (substring 0 k s) = substring 0 k (replace_backslash s).
Proof.
  revert s. induction k as [|k IH]; intros [|c s]; simpl; try reflexivity.
  now rewrite IH.
Qed.

Lemma drop_last_normalized (n : nat) (s : string) :
  forward_slash_normalized s -> forward_slash_normalized (drop_last n s).
Proof.
  unfold forward_slash_normalized, drop_last. intros H.
  rewrite replace_backslash_substring. now rewrite H.
Qed.

Lemma append_normalized (a b : string) :
  forward_slash_normalized a -> forward_slash_normalized b ->
  forward_slash_normalized (a ++ b).
Proof.
  unfold forward_slash_normalized. intros Ha Hb.
  now rewrite replace_backslash_append, Ha, Hb.
Qed.

Lemma drop_normalized (n : nat) (s : string) :
  forward_slash_normalized s -> forward_slash_normalized (drop n s).
Proof.
  unfold forward_slash_normalized. revert s.
  induction n as [|n IH]; intros [|c s] H; simpl; auto.
  apply IH. simpl in H. injection H as _ H. exact H.
Qed.

Lemma normalize_exclude_normalized (q : string) :
  forward_slash_normalized q -> forward_slash_normalized (normalize_exclude q).
Proof.
  intros H. unfold normalize_exclude.
  destruct (endswith q "/"); [exact H|].
  destruct (endswith q "/**").
  { apply append_normalized; [now apply drop_last_normalized | reflexivity]. }
  destruct (contains "**/" q && negb (endswith q "*")); [|exact H].
  destruct (negb _); [|exact H].
  apply append_normalized; [exact H | reflexivity].
Qed.

Lemma append_slash_end (s : string) : endswith (s ++ "/") "/" = true.
Proof. apply endswith_spec. now exists s. Qed.

Lemma normalize_exclude_cases (q : string) :
  normalize_exclude q = q \/ endswith (normalize_exclude q) "/" = true.
Proof.
  unfold normalize_exclude.
  destruct (endswith q "/") eqn:E1; [now left|].
  destruct (endswith q "/**"); [right; apply append_slash_end|].
  destruct (contains "**/" q && negb (endswith q "*")); [|now left].
  destruct (negb _); [right; apply append_slash_end | now left].
Qed.

Lemma normalize_exclude_idempotent (q : string) :
  normalize_exclude (normalize_exclude q) = normalize_exclude q.
Proof.
  destruct (normalize_exclude_cases q) as [E | E]; [now rewrite E|].
  set (r := normalize_exclude q) in *. unfold normalize_exclude. now rewrite E.
Qed.

Lemma constructed_include_normalized (c : Config) (p : string) :
  In p (common_include_patterns (__post_init__ c)) -> forward_slash_normalized p.
Proof.
  simpl. intros H. apply In_set_map in H. destruct H as [q [_ ->]].
  apply replace_backslash_idempotent.
Qed.

Lemma constructed_exclude_normalized (c : Config) (p : string) :
  In p (common_exclude_patterns (__post_init__ c)) -> forward_slash_normalized p.
Proof.
  simpl. intros H. apply In_set_map in H. destruct H as [q [Hq ->]].
  apply In_set_map in Hq. destruct Hq as [q0 [_ ->]].
  apply normalize_exclude_normalized, replace_backslash_idempotent.
Qed.

Lemma add_exclude_pattern_normalized (isdir : string -> bool) (c : Config)
    (pattern0 : string) :
  (forall p, In p (common_exclude_patterns c) -> forward_slash_normalized p) ->
  forall p, In p (common_exclude_patterns (add_exclude_pattern isdir c pattern0)) ->
            forward_slash_normalized p.
Proof.
  intros Hc p. unfold add_exclude_pattern. cbn [common_exclude_patterns].
  set (q := if isdir (replace_backslash pattern0)
                 && negb (endswith (replace_backslash pattern0) "/")
            then replace_backslash pattern0 ++ "/" else replace_backslash pattern0).
  assert (Hq : forward_slash_normalized q).
  { subst q. destruct (_ && _).
    - apply append_normalized; [apply replace_backslash_idempotent | reflexivity].
    - apply replace_backslash_idempotent. }
  clearbody q.
  assert (H1 : forall p, In p (set_add q (common_exclude_patterns c)) ->
                         forward_slash_normalized p).
  { intros p' H. apply In_set_add in H. destruct H as [-> | H]; auto. }
  assert (H2 : forall p,
             In p (if startswith q "."
                   then set_add (drop 1 q) (set_add q (common_exclude_patterns c))
                   else set_add q (common_exclude_patterns c)) ->
             forward_slash_normalized p).
  { intros p' H. destruct (startswith q "."); [|now apply H1].
    apply In_set_add in H. destruct H as [-> | H]; [|now apply H1].
    now apply drop_normalized. }
  intros H. destruct (negb (endswith q "/") && negb (endswith q "*")); [|now apply H2].
  destruct (isdir q); apply In_set_add in H; destruct H as [-> | H];
    try (now apply H2); apply append_normalized; auto; reflexivity.
Qed.

Lemma add_exclude_pattern_keeps (isdir : string -> bool) (c : Config)
    (pattern0 p : string) :
  In p (common_exclude_patterns c) ->
  In p (common_exclude_patterns (add_exclude_pattern isdir c pattern0)).
Proof.
  intros H. unfold add_exclude_pattern. cbn [common_exclude_patterns].
  repeat match goal with
         | |- In _ (if ?b then _ else _) => destruct b
         | |- In _ (set_add _ _) => apply set_add_keeps
         end; exact H.
Qed.

Lemma dict_set_same {V : Type} (k : string) (v : V) (d : list (string * V)) :
  dict_get k d = Some v -> dict_set k v d = d.
Proof.
  induction d as [|[k' v'] d IH]; simpl; [discriminate|].
  destruct (String.eqb_spec k k') as [<- | Hne].
  - intros H. now inversion H.
  - intros H. now rewrite IH.
Qed.

Lemma constructed_language (c : Config) (key : string) :
  dict_get key (languages (__post_init__ c))
  = if String.eqb key "python" then Some python_config
    else if String.eqb key "csharp" then Some csharp_config
    else if String.eqb key "react" then Some react_config
    else if String.eqb key "yaml" then Some yaml_config
    else dict_get key (languages c).
Proof.
  cbn [__post_init__ languages].
  destruct (String.eqb_spec key "yaml") as [-> | Hy];
    [cbn [String.eqb Ascii.eqb Bool.eqb andb]; apply dict_get_set_same|].
  rewrite (dict_get_set_other _ _ _ _ Hy).
  destruct (String.eqb_spec key "react") as [-> | Hr];
    [cbn [String.eqb Ascii.eqb Bool.eqb andb]; apply dict_get_set_same|].
  rewrite (dict_get_set_other _ _ _ _ Hr).
  destruct (String.eqb_spec key "csharp") as [-> | Hc];
    [cbn [String.eqb Ascii.eqb Bool.eqb andb]; apply dict_get_set_same|].
  rewrite (dict_get_set_other _ _ _ _ Hc).
  destruct (String.eqb_spec key "python") as [-> | Hp];
    [apply dict_get_set_same|].
  now rewrite (dict_get_set_other _ _ _ _ Hp).
Qed.

End ConfigFacts.

(** X16: after construction the four built-in languages have their
    built-in configuration, whatever the caller supplied under those names;
    a language under any other name is kept as supplied. *)
Theorem X16_builtin_languages_overwritten (c : Config.Config) (key : string) :
  dict_get key (Config.languages (Config.__post_init__ c))
  = if String.eqb key "python" then Some Config.python_config
    else if String.eqb key "csharp" then Some Config.csharp_config
    else if String.eqb key "react" then Some Config.react_config
    else if String.eqb key "yaml" then Some Config.yaml_config
    else dict_get key (Config.languages c).
Proof. apply constructed_language. Qed.

(** X17: the common patterns of a configuration never hold a backslash:
    not after construction, and not after any number of
    [add_exclude_pattern] calls. *)
Theorem X17_common_patterns_use_forward_slashes
    (isdir : string -> bool) (c : Config.Config) (added : list string) (p : string) :
  let config := fold_left (Config.add_exclude_pattern isdir) added (Config.__post_init__ c) in
  In p (Config.common_include_patterns config)
  \/ In p (Config.common_exclude_patterns config) ->
  forward_slash_normalized p.
Proof.
  cbv zeta.
  assert (G : forall added c0,
             (forall q, In q (Config.common_include_patterns c0) ->
                        forward_slash_normalized q) ->
             (forall q, In q (Config.common_exclude_patterns c0) ->
                        forward_slash_normalized q) ->
             In p (Config.common_include_patterns
                     (fold_left (Config.add_exclude_pattern isdir) added c0))
             \/ In p (Config.common_exclude_patterns
                        (fold_left (Config.add_exclude_pattern isdir) added c0)) ->
             forward_slash_normalized p).
  { clear. induction added as [|a added IH]; intros c0 Hi He; simpl.
    - intros [H | H]; auto.
    - apply IH.
      + exact Hi.
      + now apply add_exclude_pattern_normalized. }
  apply G.
  - apply constructed_include_normalized.
  - apply constructed_exclude_normalized.
Qed.

Lemma X17_common_patterns_use_forward_slashes_witness :
  forward_slash_normalized "out/".
Proof.
  apply (X17_common_patterns_use_forward_slashes Samples.is_no_directory
           Samples.globstar_fields ["out\"] "out/").
  right. vm_compute. right. right. left. reflexivity.
Defined.

Section ConfigRuns.

Import Config Reading.

Lemma walk_patterns_incl hs languages (common common' : list string) of_handler :
  incl common common' ->
  incl (Core.walk_patterns hs languages common of_handler)
       (Core.walk_patterns hs languages common' of_handler).
Proof.
  intros Hincl p. unfold Core.walk_patterns. rewrite !in_app_iff.
  intros [H | H]; [left; now apply Hincl | now right].
Qed.

Lemma plain_no_star_end (q : string) : plain q = true -> endswith q "*" = false.
Proof.
  intros Hp. destruct (endswith q "*") eqn:E; [|reflexivity].
  apply endswith_spec in E. destruct E as [pre ->].
  rewrite plain_append in Hp. apply andb_true_iff in Hp. destruct Hp as [_ Hp].
  discriminate Hp.
Qed.

(** The third rule of the matcher: [fnmatch] on the whole path. *)
Lemma fnmatch_whole_path (P pattern : string) :
  fnmatch (replace_backslash P) (replace_backslash pattern) = true ->
  matches_any_pattern P [pattern] = true.
Proof.
  intros H. rewrite matches_single. unfold matches_pattern.
  rewrite H. rewrite orb_true_r. reflexivity.
Qed.

Lemma add_exclude_pattern_prefix (isdir : string -> bool) (c : Config)
    (pattern0 : string) :
  isdir (replace_backslash pattern0) = false ->
  plain (replace_backslash pattern0) = true ->
  endswith (replace_backslash pattern0) "/" = false ->
  In (replace_backslash pattern0 ++ "*")
    (common_exclude_patterns (add_exclude_pattern isdir c pattern0)).
Proof.
  intros Hdir Hplain Hend. unfold add_exclude_pattern. cbn [common_exclude_patterns].
  rewrite Hdir. cbn [andb]. rewrite Hend, (plain_no_star_end _ Hplain), Hdir.
  cbn [negb andb]. apply set_add_adds.
Qed.

End ConfigRuns.

(** X18: constructing a configuration from the fields of a constructed
    one changes nothing: the pattern sets, the languages and the limits
    stay as they are. *)
Theorem X18_construction_idempotent (c : Config.Config) :
  let once := Config.__post_init__ c in
  let twice := Config.__post_init__ once in
  (forall p, In p (Config.common_include_patterns twice)
             <-> In p (Config.common_include_patterns once))
  /\ (forall p, In p (Config.common_exclude_patterns twice)
                <-> In p (Config.common_exclude_patterns once))
  /\ Config.languages twice = Config.languages once
  /\ Config.max_file_size_kb twice = Config.max_file_size_kb once
  /\ Config.max_depth twice = Config.max_depth once
  /\ Config.remove_comments twice = Config.remove_comments once.
Proof.
  cbv zeta. split; [|split; [|split; [|repeat split]]].
  - intros p. cbn [Config.__post_init__ Config.common_include_patterns].
    rewrite (In_set_map_iff _ (Config.set_map _ _)). split.
    + intros [q [Hq ->]].
      pose proof Hq as Hq'. apply In_set_map in Hq'. destruct Hq' as [q0 [_ E]].
      rewrite E, replace_backslash_idempotent, <- E. exact Hq.
    + intros Hp. exists p. split; [exact Hp|].
      apply In_set_map in Hp. destruct Hp as [q0 [_ ->]].
      now rewrite replace_backslash_idempotent.
  - intros p.
    assert (Hfix : forall q, In q (Config.common_exclude_patterns (Config.__post_init__ c)) ->
                             Config.normalize_exclude (replace_backslash q) = q).
    { intros q Hq. rewrite (constructed_exclude_normalized c q Hq).
      cbn [Config.__post_init__ Config.common_exclude_patterns] in Hq.
      apply In_set_map in Hq. destruct Hq as [q0 [_ ->]].
      apply normalize_exclude_idempotent. }
    change (Config.common_exclude_patterns (Config.__post_init__ (Config.__post_init__ c)))
      with (Config.set_map Config.normalize_exclude
              (Config.set_map replace_backslash
                 (Config.common_exclude_patterns (Config.__post_init__ c)))).
    rewrite In_set_map_iff. split.
    + intros [q [Hq ->]]. apply In_set_map_iff in Hq. destruct Hq as [q1 [Hq1 ->]].
      now rewrite (Hfix q1 Hq1).
    + intros Hp. exists (replace_backslash p). split.
      * now apply set_map_image.
      * now rewrite (Hfix p Hp).
  - set (once := Config.__post_init__ c).
    change (Config.languages (Config.__post_init__ once))
      with (dict_set "yaml" Config.yaml_config
              (dict_set "react" Config.react_config
                 (dict_set "csharp" Config.csharp_config
                    (dict_set "python" Config.python_config (Config.languages once))))).
    assert (Hl : forall key v,
               dict_get key (Config.languages once) = Some v ->
               dict_set key v (Config.languages once) = Config.languages once)
      by (intros key v; apply dict_set_same).
    rewrite (Hl "python") by (unfold once; rewrite constructed_language; reflexivity).
    rewrite (Hl "csharp") by (unfold once; rewrite constructed_language; reflexivity).
    rewrite (Hl "react") by (unfold once; rewrite constructed_language; reflexivity).
    apply Hl. unfold once. rewrite constructed_language. reflexivity.
Qed.

(** X19: adding an exclude pattern to a configuration only removes files
    from what [_collect_files] walks over: the patterns already there go on
    excluding what they excluded. *)
Theorem X19_added_exclude_pattern_narrows
    (isdir : string -> bool) (cfg : Config.Config) (pattern : string)
    (hs : list (string * Core.Handler)) (languages : list string)
    (repo_path : list entry) (found : file_info * string) :
  In found (Core.found_files (Config.add_exclude_pattern isdir cfg pattern) hs languages
              repo_path) ->
  In found (Core.found_files cfg hs languages repo_path).
Proof.
  unfold Core.found_files. apply find_files_monotone.
  - apply incl_refl.
  - apply walk_patterns_incl. intros p. apply add_exclude_pattern_keeps.
Qed.

Lemma X19_added_exclude_pattern_narrows_witness :
  In (Samples.text_file "# docs", "docs/README.md")
    (Core.found_files Config.DEFAULT_CONFIG [] [] Samples.docs_repo).
Proof.
  apply (X19_added_exclude_pattern_narrows Samples.is_no_directory Config.DEFAULT_CONFIG
           "main").
  vm_compute. left. reflexivity.
Defined.

(** X20: [add_exclude_pattern] with a plain name that is no directory
    excludes by prefix: through the wildcard variant it adds, no file whose
    path starts with that name is walked over any more, whether the name is
    a whole component of the path or not. *)
Theorem X20_added_name_excludes_by_prefix
    (isdir : string -> bool) (cfg : Config.Config) (pattern : string)
    (hs : list (string * Core.Handler)) (languages : list string)
    (repo_path : list entry) (info : file_info) (rel : string) :
  isdir (replace_backslash pattern) = false ->
  Reading.plain (replace_backslash pattern) = true ->
  endswith (replace_backslash pattern) "/" = false ->
  In (info, rel)
    (Core.found_files (Config.add_exclude_pattern isdir cfg pattern) hs languages
       repo_path) ->
  ~ Reading.starts_with (replace_backslash rel) (replace_backslash pattern).
Proof.
  intros Hdir Hplain Hend Hin Hstart.
  unfold Core.found_files in Hin. apply find_files_selected in Hin.
  destruct Hin as [Hex _].
  match type of Hex with
  | matches_any_pattern _ ?E = false =>
      assert (matches_any_pattern rel E = true); [|congruence]
  end.
  apply matches_any_exists. exists (replace_backslash pattern ++ "*"). split.
  - unfold Core.walk_patterns. apply in_app_iff. left.
    now apply add_exclude_pattern_prefix.
  - apply fnmatch_whole_path.
    rewrite replace_backslash_append, replace_backslash_idempotent.
    apply fnmatch_plain_star; assumption.
Qed.

Lemma X20_added_name_excludes_by_prefix_witness :
  ~ Reading.starts_with (replace_backslash "docs/README.md") (replace_backslash "main").
Proof.
  apply (X20_added_name_excludes_by_prefix Samples.is_no_directory Config.DEFAULT_CONFIG
           "main" [] [] Samples.docs_repo (Samples.text_file "# docs") "docs/README.md").
  - reflexivity.
  - reflexivity.
  - reflexivity.
  - vm_compute. left. reflexivity.
Defined.

(** ** [RepositoryIngestor] *)

Section TreeLeaves.

Import Core.

(** An insertion keeps the leaves that do not lie below the inserted
    path, and makes that path a leaf. *)
Lemma insert_parts_leaves q :
  forall t t',
    q <> [] ->
    insert_parts q t = Some t' ->
    leaf_at t' q
    /\ forall parts,
         leaf_at t parts ->
         (forall suf, parts = (q ++ suf)%list -> suf = []) ->
         leaf_at t' parts.
Proof.
  induction q as [|part rest IH]; intros t t' Hne Hins; [congruence|].
  destruct rest as [|r rest].
  - simpl in Hins. inversion Hins; subst t'. clear Hins. split.
    + simpl. apply dict_get_set_same.
    + intros [|p [|p' ps]] Hleaf Hbelow; [destruct Hleaf | |].
      * simpl in *. destruct (String.eqb_spec p part) as [->|Hp].
        -- apply dict_get_set_same.
        -- now rewrite dict_get_set_other.
      * rewrite leaf_at_cons in * by discriminate.
        destruct (String.eqb_spec p part) as [->|Hp].
        -- specialize (Hbelow (p' :: ps) eq_refl). discriminate.
        -- now rewrite dict_get_set_other.
  - rewrite insert_parts_cons in Hins.
    destruct (dict_get part t) as [[|sub]|] eqn:Eget; [discriminate | |].
    + destruct (insert_parts (r :: rest) sub) as [sub'|] eqn:Esub; [|discriminate].
      inversion Hins; subst t'. clear Hins.
      destruct (IH sub sub') as [Hq Hkeep]; [discriminate | exact Esub |]. split.
      * rewrite leaf_at_cons by discriminate. now rewrite dict_get_set_same.
      * intros [|p [|p' ps]] Hleaf Hbelow; [destruct Hleaf | |].
        -- simpl in *. destruct (String.eqb_spec p part) as [->|Hp]; [congruence|].
           now rewrite dict_get_set_other.
        -- rewrite leaf_at_cons in * by discriminate.
           destruct (String.eqb_spec p part) as [->|Hp].
           ++ rewrite dict_get_set_same. rewrite Eget in Hleaf.
              apply Hkeep; [exact Hleaf|].
              intros suf E. apply Hbelow. simpl. now rewrite E.
           ++ now rewrite dict_get_set_other.
    + destruct (insert_parts (r :: rest) []) as [sub'|] eqn:Esub; [|discriminate].
      inversion Hins; subst t'. clear Hins.
      destruct (IH [] sub') as [Hq _]; [discriminate | exact Esub |]. split.
      * rewrite leaf_at_cons by discriminate. now rewrite dict_get_set_same.
      * intros [|p [|p' ps]] Hleaf Hbelow; [destruct Hleaf | |].
        -- simpl in *. destruct (String.eqb_spec p part) as [->|Hp]; [congruence|].
           now rewrite dict_get_set_other.
        -- rewrite leaf_at_cons in * by discriminate.
           destruct (String.eqb_spec p part) as [->|Hp].
           ++ rewrite Eget in Hleaf. destruct Hleaf.
           ++ now rewrite dict_get_set_other.
Qed.

(** A leaf on the way of an insertion makes it fail: [current] is then
    [None] and cannot be indexed. *)
Lemma insert_parts_through_leaf pre :
  forall suf t, leaf_at t pre -> suf <> [] -> insert_parts (pre ++ suf)%list t = None.
Proof.
  induction pre as [|p pre IH]; intros suf t Hleaf Hsuf; [destruct Hleaf|].
  destruct pre as [|p' pre].
  - simpl in Hleaf. destruct suf as [|s suf]; [congruence|].
    change (([p] ++ s :: suf)%list) with (p :: s :: suf).
    rewrite insert_parts_cons, Hleaf. reflexivity.
  - rewrite leaf_at_cons in Hleaf by discriminate.
    change (((p :: p' :: pre) ++ suf)%list) with (p :: p' :: (pre ++ suf)%list).
    rewrite insert_parts_cons.
    destruct (dict_get p t) as [[|sub]|]; [reflexivity | | destruct Hleaf].
    change (p' :: (pre ++ suf)%list) with (((p' :: pre) ++ suf)%list).
    now rewrite (IH suf sub Hleaf Hsuf).
Qed.

(** Over paths none of which lies below another, the leaves of the built
    tree are the leaves there were and the inserted paths. *)
Lemma build_loop_leaves (S : list string -> Prop) paths :
  (forall p q, S p -> S (p ++ q)%list -> q = []) ->
  (forall path, In path paths -> S (split_slash path)) ->
  forall t t',
    (forall parts, leaf_at t parts -> S parts) ->
    build_loop paths t = Some t' ->
    forall parts,
      leaf_at t' parts
      <-> leaf_at t parts \/ exists path, In path paths /\ split_slash path = parts.
Proof.
  intros Hfree. induction paths as [|path rest IH]; intros Hin t t' Hleaf Hbuild parts.
  - simpl in Hbuild. inversion Hbuild; subst. split; [now left|].
    intros [Hl | [path [[] _]]]. exact Hl.
  - simpl in Hbuild.
    destruct (insert_parts (split_slash path) t) as [t1|] eqn:E1; [|discriminate].
    assert (Hpath : S (split_slash path)) by (apply Hin; now left).
    destruct (insert_parts_ok (split_slash path) t) as (t1' & E1' & Hfrom).
    { apply split_slash_nonempty. }
    { intros pre suf Heq Hsuf Hl. apply Hsuf.
      apply (Hfree pre suf); [now apply Hleaf | now rewrite <- Heq]. }
    rewrite E1 in E1'. inversion E1'; subst t1'. clear E1'.
    destruct (insert_parts_leaves (split_slash path) t t1 (split_slash_nonempty _) E1)
      as [Hnew Hkeep].
    assert (Hleaf1 : forall parts0, leaf_at t1 parts0 -> S parts0).
    { intros parts0 Hl. destruct (Hfrom _ Hl) as [Hold | ->]; auto. }
    rewrite (IH (fun p Hp => Hin p (or_intror Hp)) t1 t' Hleaf1 Hbuild parts).
    split.
    + intros [Hl | [p [Hp E]]].
      * destruct (Hfrom _ Hl) as [Hold | ->]; [now left|].
        right. exists path. split; [now left | reflexivity].
      * right. exists p. split; [now right | exact E].
    + intros [Hl | [p [[<- | Hp] E]]].
      * left. apply Hkeep; [exact Hl|].
        intros suf Heq. apply (Hfree (split_slash path) suf Hpath).
        rewrite <- Heq. now apply Hleaf.
      * left. now rewrite <- E.
      * right. exists p. split; [exact Hp | exact E].
Qed.

End TreeLeaves.

Section RunFacts.

Import Core Reading.
Context `{Collaborators}.

Lemma matching_languages_ext wanted wanted' all_languages :
  (forall name, In name (map lower wanted) <-> In name (map lower wanted')) ->
  matching_languages wanted all_languages = matching_languages wanted' all_languages.
Proof.
  intros Hsame. unfold matching_languages. apply filter_ext. intros lang.
  apply eq_iff_eq_true. rewrite !existsb_exists.
  split; intros [x [Hin E]]; exists x; (split; [now apply Hsame | exact E]).
Qed.

Lemma matching_languages_nil all_languages : matching_languages [] all_languages = [].
Proof.
  unfold matching_languages. induction all_languages as [|l ls IH]; [reflexivity|].
  simpl. exact IH.
Qed.

Lemma filter_files_keys cfg wanted languages files k :
  wanted <> [] -> languages <> [] -> NoDup (keys files) ->
  (In k (keys (filter_files cfg (Some wanted) languages files))
   <-> In k (keys files) /\ whitelisted cfg languages k = true)
  /\ (In k (keys (filter_files cfg (Some wanted) languages files)) ->
      dict_get k (filter_files cfg (Some wanted) languages files) = dict_get k files).
Proof.
  intros Hw Hl Hnd. destruct wanted as [|w ws]; [congruence|].
  destruct languages as [|l ls]; [congruence|]. unfold filter_files.
  assert (Hto : In k (keys (fold_left
                              (fun filtered_files item =>
                                 let '(file_path, content) := item in
                                 if whitelisted cfg (l :: ls) file_path
                                 then dict_set file_path content filtered_files
                                 else filtered_files) files [])) ->
                In k (keys files) /\ whitelisted cfg (l :: ls) k = true).
  { intros Hin. apply keys_whitelist_fold in Hin. destruct Hin as [[] | Hin]. exact Hin. }
  assert (Hget : In k (keys files) -> whitelisted cfg (l :: ls) k = true ->
                 dict_get k (fold_left
                               (fun filtered_files item =>
                                  let '(file_path, content) := item in
                                  if whitelisted cfg (l :: ls) file_path
                                  then dict_set file_path content filtered_files
                                  else filtered_files) files [])
                 = dict_get k files).
  { intros Hin Hk. now apply whitelist_fold_kept. }
  split; [split; [exact Hto|] |].
  - intros [Hin Hk]. apply dict_get_keys. rewrite (Hget Hin Hk). now apply dict_get_keys.
  - intros Hin. destruct (Hto Hin) as [Hin' Hk]. now apply Hget.
Qed.

Lemma kept_files_other cfg hs languages file_paths files k :
  ~ In k (map snd file_paths) ->
  dict_get k (kept_files cfg hs languages file_paths files) = dict_get k files.
Proof.
  revert files. induction file_paths as [|[fp p] rest IH]; intros files Hk; [reflexivity|].
  simpl in Hk. cbn [kept_files fold_left].
  change (fold_left _ rest ?acc) with (kept_files cfg hs languages rest acc).
  rewrite IH by tauto.
  destruct (should_include cfg hs languages p); [|reflexivity].
  apply dict_get_set_other. intuition.
Qed.

(** The entry of a kept file holds its text, without the comments when
    the configuration asks for that. *)
Lemma kept_files_content cfg hs languages file_paths files info rel :
  NoDup (map snd file_paths) ->
  In (info, rel) file_paths ->
  should_include cfg hs languages rel = true ->
  dict_get rel (kept_files cfg hs languages file_paths files)
  = Some (if Config.remove_comments cfg
          then remove_comments_from_content rel (get_file_content info)
          else get_file_content info).
Proof.
  revert files. induction file_paths as [|[fp p] rest IH]; intros files Hnd Hin Hinc;
    [destruct Hin|].
  simpl in Hnd. inversion Hnd as [|? ? Hfresh Hnd']; subst.
  cbn [kept_files fold_left].
  change (fold_left _ rest ?acc) with (kept_files cfg hs languages rest acc).
  destruct Hin as [E | Hin].
  - inversion E; subst. rewrite kept_files_other by exact Hfresh.
    rewrite Hinc. apply dict_get_set_same.
  - now apply IH.
Qed.

Lemma detected_keys_iff cfg (table : list (string * handler_class)) repo lang :
  In lang (keys (detected cfg table repo))
  <-> exists cls,
        In (lang, cls) table
        /\ detect_language (cls (dict_get lang (Config.languages cfg))) repo = true.
Proof.
  unfold detected, keys. rewrite in_map_iff. split.
  - intros [[l h] [E Hin]]. simpl in E. subst l.
    apply in_flat_map in Hin. destruct Hin as [[l cls] [Ht Hin]].
    destruct (detect_language _ repo) eqn:Ed; [|destruct Hin].
    destruct Hin as [E | []]. inversion E; subst. eauto.
  - intros [cls [Ht Hd]].
    exists (lang, cls (dict_get lang (Config.languages cfg))). split; [reflexivity|].
    apply in_flat_map. exists (lang, cls). split; [exact Ht|].
    rewrite Hd. now left.
Qed.

Lemma chosen_languages_nodup languages_filter all_languages :
  NoDup all_languages -> NoDup (chosen_languages languages_filter all_languages).
Proof.
  intros Hnd. unfold chosen_languages, matching_languages.
  destruct languages_filter as [[|w ws]|]; auto.
  destruct all_languages; auto. now apply NoDup_filter.
Qed.

Lemma found_files_not_excluded cfg hs languages repo info rel :
  In (info, rel) (found_files cfg hs languages repo) ->
  matches_any_pattern rel (Config.common_exclude_patterns cfg) = false
  /\ (st_size info <= Config.max_file_size_kb cfg * 1024)%Z
  /\ is_binary_file info = false.
Proof.
  intros Hin. unfold found_files in Hin. apply find_files_selected in Hin.
  destruct Hin as (Hex & Hsize & _ & Hbin). split; [|split; assumption].
  destruct (matches_any_pattern rel (Config.common_exclude_patterns cfg)) eqn:E;
    [|reflexivity].
  rewrite <- Hex. symmetry. apply (matches_any_monotone _ _ _) with (2 := E).
  unfold walk_patterns. apply incl_appl, incl_refl.
Qed.

End RunFacts.

Section TreeConflicts.

Import Core.

Lemma build_loop_app (paths paths' : list string) (t : tree) :
  build_loop (paths ++ paths')%list t
  = match build_loop paths t with
    | Some t1 => build_loop paths' t1
    | None => None
    end.
Proof.
  revert t. induction paths as [|p paths IH]; intros t; simpl; [reflexivity|].
  destruct (insert_parts (split_slash p) t); [apply IH | reflexivity].
Qed.

(** After an insertion a leaf is still a leaf, or a directory above it
    has become one. *)
Lemma insert_parts_keeps_leaf_above r :
  forall t t' pre,
    r <> [] -> insert_parts r t = Some t' -> leaf_at t pre ->
    exists above below, pre = (above ++ below)%list /\ leaf_at t' above.
Proof.
  induction r as [|part rest IH]; intros t t' pre Hne Hins Hleaf; [congruence|].
  assert (Hother : forall v p ps, pre = p :: ps -> p <> part ->
                                  leaf_at (dict_set part v t) (p :: ps)).
  { intros v p ps -> Hp. destruct ps as [|p' ps].
    - simpl in *. now rewrite dict_get_set_other.
    - rewrite leaf_at_cons in * by discriminate. now rewrite dict_get_set_other. }
  destruct pre as [|p ps]; [destruct Hleaf|].
  specialize (fun v => Hother v p ps eq_refl).
  destruct rest as [|r rest].
  - simpl in Hins. injection Hins as <-.
    destruct (String.eqb_spec p part) as [->|Hp].
    + exists [part], ps. split; [reflexivity|]. simpl. apply dict_get_set_same.
    + exists (p :: ps), []. rewrite app_nil_r. split; [reflexivity|].
      now apply Hother.
  - rewrite insert_parts_cons in Hins.
    destruct (String.eqb_spec p part) as [->|Hp].
    + destruct (dict_get part t) as [[|sub]|] eqn:Eget; [discriminate | |].
      * destruct (insert_parts (r :: rest) sub) as [sub'|] eqn:Esub; [|discriminate].
        injection Hins as <-.
        destruct ps as [|p' ps]; [simpl in Hleaf; congruence|].
        rewrite leaf_at_cons in Hleaf by discriminate. rewrite Eget in Hleaf.
        destruct (IH sub sub' (p' :: ps)) as (above & below & E & Habove);
          [discriminate | exact Esub | exact Hleaf |].
        exists (part :: above), below. split; [simpl; now rewrite E|].
        destruct above as [|a above]; [destruct Habove|].
        rewrite leaf_at_cons by discriminate. now rewrite dict_get_set_same.
      * exfalso. destruct ps as [|p' ps]; [simpl in Hleaf; congruence|].
        rewrite leaf_at_cons in Hleaf by discriminate. now rewrite Eget in Hleaf.
    + exists (p :: ps), []. rewrite app_nil_r. split; [reflexivity|].
      destruct (dict_get part t) as [[|sub]|] eqn:Eget; [discriminate | |].
      * destruct (insert_parts (r :: rest) sub) as [sub'|]; [|discriminate].
        injection Hins as <-. now apply Hother.
      * destruct (insert_parts (r :: rest) []) as [sub'|]; [|discriminate].
        injection Hins as <-. now apply Hother.
Qed.

Lemma build_loop_below_leaf paths :
  forall t above below q suf,
    leaf_at t above ->
    In q paths -> split_slash q = ((above ++ below) ++ suf)%list -> suf <> [] ->
    build_loop paths t = None.
Proof.
  induction paths as [|h rest IH]; intros t above below q suf Hleaf Hin Hq Hsuf;
    [destruct Hin|].
  simpl. destruct (insert_parts (split_slash h) t) as [t1|] eqn:E1; [|reflexivity].
  destruct Hin as [-> | Hin].
  - rewrite Hq, <- app_assoc in E1.
    rewrite insert_parts_through_leaf in E1; [discriminate | exact Hleaf |].
    destruct below; [exact Hsuf | discriminate].
  - destruct (insert_parts_keeps_leaf_above _ t t1 above (split_slash_nonempty h) E1 Hleaf)
      as (above' & below' & -> & Hleaf').
    apply (IH t1 above' (below' ++ below)%list q suf Hleaf' Hin); [|exact Hsuf].
    now rewrite Hq, <- !app_assoc.
Qed.

Lemma build_loop_file_above (before after : list string) (p q : string)
    (suf : list string) :
  In q after -> split_slash q = (split_slash p ++ suf)%list -> suf <> [] ->
  build_loop (before ++ p :: after)%list [] = None.
Proof.
  intros Hin Hq Hsuf. rewrite build_loop_app.
  destruct (build_loop before []) as [t0|]; [|reflexivity].
  simpl. destruct (insert_parts (split_slash p) t0) as [t1|] eqn:E1; [|reflexivity].
  destruct (insert_parts_leaves _ t0 t1 (split_slash_nonempty p) E1) as [Hleaf _].
  apply (build_loop_below_leaf after t1 (split_slash p) [] q suf Hleaf Hin); [|exact Hsuf].
  now rewrite app_nil_r.
Qed.

End TreeConflicts.

(** X21: runs do not interfere: the result of [ingest] is the same from
    any ingestor with the same configuration, whatever handlers it holds
    and whether or not it has a tracker; in particular it is the same after
    an earlier run on any repository, and a run never changes the
    configuration. *)
Theorem X21_runs_do_not_interfere `{Collaborators}
    (repo_path : string) (repo : list entry) (now : Z) (token_estimate_only : bool)
    (languages_filter : option (list string))
    (repo_path' : string) (repo' : list entry) (now' : Z) (token_estimate_only' : bool)
    (languages_filter' : option (list string))
    (self : RepositoryIngestor) (hs : list (string * Handler))
    (tracker : option (list progress_call)) :
  let after :=
    snd (ingest repo_path' repo' now' token_estimate_only' languages_filter' self) in
  fst (ingest repo_path repo now token_estimate_only languages_filter after)
  = fst (ingest repo_path repo now token_estimate_only languages_filter self)
  /\ config after = config self
  /\ fst (ingest repo_path repo now token_estimate_only languages_filter
            {| config := config self; handlers := hs; progress := tracker |})
     = fst (ingest repo_path repo now token_estimate_only languages_filter self).
Proof.
  cbv zeta.
  destruct (ingest_steps repo_path' repo' now' token_estimate_only' languages_filter' self)
    as (s1 & s2 & s3 & _ & _ & _ & E & Hcfg & _).
  rewrite E. cbn [snd]. rewrite !ingest_value, Hcfg. auto.
Qed.

(** X22: the language filter is read as a set of names without case: two
    non-empty filters with the same lower-cased names give the same
    result, so the order of the names, repeated names and their case do not
    matter. *)
Theorem X22_filter_is_a_caseless_set `{Collaborators}
    (repo_path : string) (repo : list entry) (now : Z) (token_estimate_only : bool)
    (wanted wanted' : list string) (self : RepositoryIngestor) :
  wanted <> [] -> wanted' <> [] ->
  (forall name, In name (map lower wanted) <-> In name (map lower wanted')) ->
  fst (ingest repo_path repo now token_estimate_only (Some wanted) self)
  = fst (ingest repo_path repo now token_estimate_only (Some wanted') self).
Proof.
  intros Hw Hw' Hsame. rewrite !ingest_value.
  destruct wanted as [|w ws]; [congruence|]. destruct wanted' as [|w' ws']; [congruence|].
  assert (Hc : forall all_languages,
             chosen_languages (Some (w :: ws)) all_languages
             = chosen_languages (Some (w' :: ws')) all_languages).
  { intros [|l ls]; [reflexivity|]. unfold chosen_languages.
    now apply matching_languages_ext. }
  unfold outcome, selected_files. rewrite !Hc. reflexivity.
Qed.

Lemma X22_filter_is_a_caseless_set_witness :
  fst (ingest (H := Samples.sample_collaborators)
         "/repo" Samples.docs_repo 0 false (Some ["Python"]) Samples.no_tracker)
  = fst (ingest (H := Samples.sample_collaborators)
           "/repo" Samples.docs_repo 0 false (Some ["python"; "PYTHON"])
           Samples.no_tracker).
Proof.
  apply (X22_filter_is_a_caseless_set (H := Samples.sample_collaborators)).
  - discriminate.
  - discriminate.
  - intros name. simpl. tauto.
Defined.

(** X23: a filter narrows the files only when it names a detected
    language: with an empty filter, or a filter that names no detected
    language, the files and the tree of the result are those of the run
    without filter. *)
Theorem X23_unmatched_filter_keeps_all_files `{Collaborators}
    (repo_path : string) (repo : list entry) (now : Z) (token_estimate_only : bool)
    (wanted : list string) (self : RepositoryIngestor) :
  wf_repo repo = true ->
  (token_estimate_only = false -> analyzers_typed) ->
  matching_languages wanted (detected_languages (config self) repo) = [] ->
  exists r r',
    fst (ingest repo_path repo now token_estimate_only (Some wanted) self) = Some r
    /\ fst (ingest repo_path repo now token_estimate_only None self) = Some r'
    /\ files r = files r'
    /\ tree_structure r = tree_structure r'.
Proof.
  intros Hwf Htyped Hnone. rewrite !ingest_value.
  destruct (outcome_defined (config self) repo_path repo now token_estimate_only
              (Some wanted) Hwf Htyped) as (r & E & _ & _ & F & T & _).
  destruct (outcome_defined (config self) repo_path repo now token_estimate_only
              None Hwf Htyped) as (r' & E' & _ & _ & F' & T' & _).
  exists r, r'. split; [exact E|]. split; [exact E'|].
  assert (Hfiles : files r = files r').
  { rewrite F, F'. unfold selected_files, filter_files, chosen_languages.
    destruct wanted as [|w ws]; [reflexivity|].
    destruct (detected_languages (config self) repo) as [|l ls]; [reflexivity|].
    rewrite Hnone. reflexivity. }
  split; [exact Hfiles|]. rewrite Hfiles in T. congruence.
Qed.

Lemma X23_unmatched_filter_keeps_all_files_witness :
  exists r r',
    fst (ingest (H := Samples.sample_collaborators)
           "/repo" Samples.docs_repo 0 false (Some ["rust"]) Samples.no_tracker) = Some r
    /\ fst (ingest (H := Samples.sample_collaborators)
              "/repo" Samples.docs_repo 0 false None Samples.no_tracker) = Some r'
    /\ files r = files r'
    /\ tree_structure r = tree_structure r'.
Proof.
  apply (X23_unmatched_filter_keeps_all_files (H := Samples.sample_collaborators)).
  - reflexivity.
  - intros _. exact sample_analyzers_typed.
  - vm_compute. reflexivity.
Defined.

(** X24: the files of a run without filter are the files the walk found
    that pass the gate of [_collect_files] for the detected languages: a
    pattern of a detected handler, or a common include pattern without
    wildcard equal to the whole path.  Each maps to the text of its file,
    without the comments when the configuration asks for that. *)
Theorem X24_unfiltered_files `{Collaborators}
    (repo_path : string) (repo : list entry) (now : Z) (token_estimate_only : bool)
    (self : RepositoryIngestor) :
  wf_repo repo = true ->
  (token_estimate_only = false -> analyzers_typed) ->
  let cfg := config self in
  let hs := detected cfg LANGUAGE_HANDLERS repo in
  let found := found_files cfg hs (detected_languages cfg repo) repo in
  exists r,
    fst (ingest repo_path repo now token_estimate_only None self) = Some r
    /\ (forall path,
          In path (keys (files r))
          <-> In path (map snd found)
              /\ should_include cfg hs (detected_languages cfg repo) path = true)
    /\ (forall info path,
          In (info, path) found ->
          should_include cfg hs (detected_languages cfg repo) path = true ->
          dict_get path (files r)
          = Some (if Config.remove_comments cfg
                  then remove_comments_from_content path (get_file_content info)
                  else get_file_content info)).
Proof.
  intros Hwf Htyped. cbv zeta. rewrite ingest_value.
  destruct (outcome_defined (config self) repo_path repo now token_estimate_only
              None Hwf Htyped) as (r & E & _ & _ & F & _).
  exists r. split; [exact E|]. rewrite F.
  change (selected_files (config self) repo None)
    with (collected_files (config self) repo).
  split; [intros path; apply collected_files_gate|].
  intros info path Hin Hinc. unfold collected_files.
  apply kept_files_content; [|exact Hin | exact Hinc].
  unfold found_files. now apply find_files_distinct.
Qed.

Lemma X24_unfiltered_files_witness :
  let cfg := config Samples.no_tracker in
  let hs :=
    detected cfg (LANGUAGE_HANDLERS (H := Samples.sample_collaborators))
      Samples.docs_repo in
  let found :=
    found_files cfg hs
      (detected_languages (H := Samples.sample_collaborators) cfg Samples.docs_repo)
      Samples.docs_repo in
  exists r,
    fst (ingest (H := Samples.sample_collaborators)
           "/repo" Samples.docs_repo 0 false None Samples.no_tracker) = Some r
    /\ (forall path,
          In path (keys (files r))
          <-> In path (map snd found)
              /\ should_include cfg hs
                   (detected_languages (H := Samples.sample_collaborators) cfg
                      Samples.docs_repo) path = true)
    /\ (forall info path,
          In (info, path) found ->
          should_include cfg hs
            (detected_languages (H := Samples.sample_collaborators) cfg
               Samples.docs_repo) path = true ->
          dict_get path (files r)
          = Some (if Config.remove_comments cfg
                  then remove_comments_from_content (Collaborators := Samples.sample_collaborators)
                         path (get_file_content info)
                  else get_file_content info)).
Proof.
  exact (X24_unfiltered_files (H := Samples.sample_collaborators)
           "/repo" Samples.docs_repo 0 false Samples.no_tracker eq_refl
           (fun _ => sample_analyzers_typed)).
Defined.

(** X25: with a filter that names a detected language, the second pass
    keeps exactly the collected files that are whitelisted for the
    languages of the run (a core file, an extension or a configuration file
    of one of these languages), each with the content it had. *)
Theorem X25_second_pass_keeps_whitelisted `{Collaborators}
    (repo_path : string) (repo : list entry) (now : Z) (token_estimate_only : bool)
    (wanted : list string) (self : RepositoryIngestor) :
  wf_repo repo = true ->
  (token_estimate_only = false -> analyzers_typed) ->
  matching_languages wanted (detected_languages (config self) repo) <> [] ->
  exists r,
    fst (ingest repo_path repo now token_estimate_only (Some wanted) self) = Some r
    /\ languages r = matching_languages wanted (detected_languages (config self) repo)
    /\ (forall path,
          In path (keys (files r))
          <-> In path (keys (collected_files (config self) repo))
              /\ whitelisted (config self) (languages r) path = true)
    /\ (forall path,
          In path (keys (files r)) ->
          dict_get path (files r) = dict_get path (collected_files (config self) repo)).
Proof.
  intros Hwf Htyped Hsome. rewrite ingest_value.
  destruct (outcome_defined (config self) repo_path repo now token_estimate_only
              (Some wanted) Hwf Htyped) as (r & E & _ & L & F & _).
  exists r. split; [exact E|].
  assert (Hw : wanted <> []) by (intros ->; apply Hsome, matching_languages_nil).
  assert (Hl : languages r
               = matching_languages wanted (detected_languages (config self) repo)).
  { rewrite L. unfold chosen_languages. destruct wanted as [|w ws]; [congruence|].
    destruct (detected_languages (config self) repo); [|reflexivity].
    exfalso. apply Hsome. reflexivity. }
  split; [exact Hl|].
  rewrite F. unfold selected_files. rewrite <- L.
  assert (Hne : languages r <> []) by (now rewrite Hl).
  split; intros path;
    apply (filter_files_keys (config self) wanted (languages r)
             (collected_files (config self) repo) path Hw Hne
             (collected_files_nodup (config self) repo)).
Qed.

Lemma X25_second_pass_keeps_whitelisted_witness :
  exists r,
    fst (ingest (H := Samples.markdown_collaborators)
           "/repo" Samples.nested_readme_repo 0 false (Some ["python"])
           Samples.no_tracker) = Some r
    /\ languages r
       = matching_languages ["python"]
           (detected_languages (H := Samples.markdown_collaborators)
              (config Samples.no_tracker) Samples.nested_readme_repo)
    /\ (forall path,
          In path (keys (files r))
          <-> In path (keys (collected_files (H := Samples.markdown_collaborators)
                               (config Samples.no_tracker) Samples.nested_readme_repo))
              /\ whitelisted (config Samples.no_tracker) (languages r) path = true)
    /\ (forall path,
          In path (keys (files r)) ->
          dict_get path (files r)
          = dict_get path (collected_files (H := Samples.markdown_collaborators)
                             (config Samples.no_tracker) Samples.nested_readme_repo)).
Proof.
  apply (X25_second_pass_keeps_whitelisted (H := Samples.markdown_collaborators)).
  - reflexivity.
  - intros _. exact markdown_analyzers_typed.
  - vm_compute. discriminate.
Defined.

(** X26: whatever the filter, every path in the result is the path of a
    file the walk found: it matches no common exclude pattern, the file is
    within the size limit of the configuration and is not binary. *)
Theorem X26_result_files_pass_the_walk `{Collaborators}
    (repo_path : string) (repo : list entry) (now : Z) (token_estimate_only : bool)
    (languages_filter : option (list string)) (self : RepositoryIngestor) :
  wf_repo repo = true ->
  (token_estimate_only = false -> analyzers_typed) ->
  exists r,
    fst (ingest repo_path repo now token_estimate_only languages_filter self) = Some r
    /\ forall path,
         In path (keys (files r)) ->
         matches_any_pattern path (Config.common_exclude_patterns (config self)) = false
         /\ exists info parts,
              Utils.file_at repo parts /\ path = join_slash parts
              /\ In (info, path)
                   (found_files (config self)
                      (detected (config self) LANGUAGE_HANDLERS repo)
                      (detected_languages (config self) repo) repo)
              /\ (st_size info <= Config.max_file_size_kb (config self) * 1024)%Z
              /\ is_binary_file info = false.
Proof.
  intros Hwf Htyped. rewrite ingest_value.
  destruct (outcome_defined (config self) repo_path repo now token_estimate_only
              languages_filter Hwf Htyped) as (r & E & _ & _ & F & _).
  exists r. split; [exact E|]. intros path Hin. rewrite F in Hin.
  unfold selected_files in Hin. apply keys_filter_files in Hin.
  apply collected_files_gate in Hin. destruct Hin as [Hin _].
  apply in_map_iff in Hin. destruct Hin as [[info rel] [Erel Hin]].
  simpl in Erel. subst rel.
  destruct (found_files_not_excluded _ _ _ _ _ _ Hin) as (Hex & Hsize & Hbin).
  split; [exact Hex|].
  pose proof Hin as Hat. unfold found_files in Hat. apply find_files_file_at in Hat.
  destruct Hat as (parts & Hat & Hparts).
  exists info, parts. auto.
Qed.

Lemma X26_result_files_pass_the_walk_witness :
  exists r,
    fst (ingest (H := Samples.sample_collaborators)
           "/repo" Samples.docs_repo 0 true (Some ["python"]) Samples.no_tracker) = Some r
    /\ forall path,
         In path (keys (files r)) ->
         matches_any_pattern path
           (Config.common_exclude_patterns (config Samples.no_tracker)) = false
         /\ exists info parts,
              Utils.file_at Samples.docs_repo parts /\ path = join_slash parts
              /\ In (info, path)
                   (found_files (config Samples.no_tracker)
                      (detected (config Samples.no_tracker)
                         (LANGUAGE_HANDLERS (H := Samples.sample_collaborators))
                         Samples.docs_repo)
                      (detected_languages (H := Samples.sample_collaborators)
                         (config Samples.no_tracker) Samples.docs_repo)
                      Samples.docs_repo)
              /\ (st_size info
                  <= Config.max_file_size_kb (config Samples.no_tracker) * 1024)%Z
              /\ is_binary_file info = false.
Proof.
  apply (X26_result_files_pass_the_walk (H := Samples.sample_collaborators)).
  - reflexivity.
  - discriminate.
Defined.

(** X27: the tree of a result and its files say the same: a sequence of
    names leads to a leaf of the tree exactly when it is a path of the
    files, split at the slashes. *)
Theorem X27_tree_leaves_are_the_files `{Collaborators}
    (repo_path : string) (repo : list entry) (now : Z) (token_estimate_only : bool)
    (languages_filter : option (list string)) (self : RepositoryIngestor) :
  wf_repo repo = true ->
  (token_estimate_only = false -> analyzers_typed) ->
  exists r,
    fst (ingest repo_path repo now token_estimate_only languages_filter self) = Some r
    /\ forall parts,
         leaf_at (tree_structure r) parts
         <-> exists path, In path (keys (files r)) /\ split_slash path = parts.
Proof.
  intros Hwf Htyped. rewrite ingest_value.
  destruct (outcome_defined (config self) repo_path repo now token_estimate_only
              languages_filter Hwf Htyped) as (r & E & _ & _ & F & T & _).
  exists r. split; [exact E|]. intros parts.
  rewrite (build_loop_leaves (Utils.file_at repo) (keys (files r))
             (fun p q => file_at_prefix_free repo p q Hwf)) with (3 := T).
  - split; [intros [Hl | Hp]; [|exact Hp] | intros Hp; now right].
    exfalso. eapply leaf_at_nil; eauto.
  - intros path Hin. rewrite F in Hin. apply selected_files_paths in Hin.
    destruct Hin as (ps & Hat & ->).
    rewrite split_join_slash; [exact Hat | eapply file_at_not_nil; eauto |].
    now apply file_at_slash_free with repo.
  - intros ps Hl. exfalso. eapply leaf_at_nil; eauto.
Qed.

Lemma X27_tree_leaves_are_the_files_witness :
  exists r,
    fst (ingest (H := Samples.sample_collaborators)
           "/repo" Samples.docs_repo 0 true None Samples.no_tracker) = Some r
    /\ forall parts,
         leaf_at (tree_structure r) parts
         <-> exists path, In path (keys (files r)) /\ split_slash path = parts.
Proof.
  apply (X27_tree_leaves_are_the_files (H := Samples.sample_collaborators)).
  - reflexivity.
  - discriminate.
Defined.

(** X28: the languages of a result are distinct names of the handler
    registry, each detected on the repository by its own handler: a filter
    cannot bring in a language that was not detected. *)
Theorem X28_result_languages_were_detected `{Collaborators}
    (repo_path : string) (repo : list entry) (now : Z) (token_estimate_only : bool)
    (languages_filter : option (list string)) (self : RepositoryIngestor) :
  wf_repo repo = true ->
  (token_estimate_only = false -> analyzers_typed) ->
  exists r,
    fst (ingest repo_path repo now token_estimate_only languages_filter self) = Some r
    /\ NoDup (languages r)
    /\ forall lang,
         In lang (languages r) ->
         exists cls,
           In (lang, cls) LANGUAGE_HANDLERS
           /\ detect_language
                (cls (dict_get lang (Config.languages (config self)))) repo = true.
Proof.
  intros Hwf Htyped. rewrite ingest_value.
  destruct (outcome_defined (config self) repo_path repo now token_estimate_only
              languages_filter Hwf Htyped) as (r & E & _ & L & _).
  exists r. split; [exact E|]. rewrite L. split.
  - apply chosen_languages_nodup. unfold detected_languages.
    apply detected_keys_nodup, LANGUAGE_HANDLERS_nodup.
  - intros lang Hin. apply chosen_languages_incl in Hin.
    now apply detected_keys_iff.
Qed.

Lemma X28_result_languages_were_detected_witness :
  exists r,
    fst (ingest (H := Samples.sample_collaborators)
           "/repo" Samples.docs_repo 0 true (Some ["python"; "yaml"]) Samples.no_tracker)
    = Some r
    /\ NoDup (languages r)
    /\ forall lang,
         In lang (languages r) ->
         exists cls,
           In (lang, cls) (LANGUAGE_HANDLERS (H := Samples.sample_collaborators))
           /\ detect_language
                (cls (dict_get lang (Config.languages (config Samples.no_tracker))))
                Samples.docs_repo = true.
Proof.
  apply (X28_result_languages_were_detected (H := Samples.sample_collaborators)).
  - reflexivity.
  - discriminate.
Defined.

(** X29: [_build_tree_structure] raises when the file map lists a path and,
    later, a path below it: the leaf [None] written for the first cannot be
    indexed for the second. *)
Theorem X29_file_above_a_path_raises
    (files : file_map) (before after : list string) (p q : string) (suf : list string)
    (self : RepositoryIngestor) :
  keys files = (before ++ p :: after)%list ->
  In q after ->
  split_slash q = (split_slash p ++ suf)%list ->
  suf <> [] ->
  fst (_build_tree_structure files self) = None.
Proof.
  intros Hkeys Hin Hq Hsuf.
  assert (E : build_loop (keys files) [] = None)
    by (rewrite Hkeys; now apply (build_loop_file_above before after p q suf)).
  unfold _build_tree_structure, bind, ret, report.
  destruct (progress self); cbn; exact E.
Qed.

Lemma X29_file_above_a_path_raises_witness :
  fst (_build_tree_structure [("a", "x"); ("b", "y"); ("a/c", "z")] Samples.with_tracker)
  = None.
Proof.
  apply (X29_file_above_a_path_raises _ [] ["b"; "a/c"] "a" "a/c" ["c"]).
  - reflexivity.
  - right. now left.
  - reflexivity.
  - discriminate.
Defined.
